(** * Camera-trap processing pipeline: record validation, date consistency,
      jurisdiction assignment and orchestration

    A shallow embedding of the decision logic of
    [3_processing_pipeline/src/utils.py], [src/transformations.py],
    [src/generate_parquets.py], [src/validation.py] and
    [process_RAW_data_WI.py], followed by the properties of that logic.

    Conventions.
    - A Python string is a [string]; a character stands for its code point,
      so the model covers text over the code points 0..255.
    - A pandas cell is a [value]; the three missing markers (None, NaN, NaT)
      are kept apart because [str] renders them differently.
    - Library routines whose result depends on pandas, shapely or the file
      system (numeric and date parsing, point-in-polygon, merges, exports)
      are Variables of the Section that uses them. *)

From Stdlib Require Import OrderedTypeEx.
From Stdlib Require Import Bool Arith ZArith QArith Lia List Sorted.
From Stdlib Require Import Ascii String DecimalString.
From Stdlib Require PrimFloat Uint63.
Import ListNotations.

Open Scope string_scope.
Open Scope Z_scope.

(* ===================================================================== *)
(** * Part I. Definitions                                                 *)
(* ===================================================================== *)

(** ** Python text primitives *)

Module PyStr.

Definition code (c : ascii) : N := N_of_ascii c.

(** [str.isdecimal] on one character: the ten characters '0'..'9'. *)
Definition isdecimal_char (c : ascii) : bool :=
  ((48 <=? code c) && (code c <=? 57))%N.

(** [str.isdigit] on one character. Below code point 256 Python counts the
    ten decimal digits and the superscripts two, three and one
    (U+00B2, U+00B3, U+00B9) as digits. *)
Definition isdigit_char (c : ascii) : bool :=
  (isdecimal_char c
   || (code c =? 178) || (code c =? 179) || (code c =? 185))%N.

(** [str.isspace] on one character: TAB..CR, FS..US, space, NEL, NBSP. *)
Definition isspace_char (c : ascii) : bool :=
  (((9 <=? code c) && (code c <=? 13))
   || ((28 <=? code c) && (code c <=? 32))
   || (code c =? 133) || (code c =? 160))%N.

Fixpoint forall_chars (p : ascii -> bool) (s : string) : bool :=
  match s with
  | EmptyString => true
  | String c r => p c && forall_chars p r
  end.

(** [s.isdigit()]: false on the empty string. *)
Definition isdigit (s : string) : bool :=
  match s with
  | EmptyString => false
  | _ => forall_chars isdigit_char s
  end.

Fixpoint lstrip (s : string) : string :=
  match s with
  | EmptyString => EmptyString
  | String c r => if isspace_char c then lstrip r else s
  end.

Fixpoint rstrip (s : string) : string :=
  match s with
  | EmptyString => EmptyString
  | String c r =>
      match rstrip r with
      | EmptyString => if isspace_char c then EmptyString
                       else String c EmptyString
      | r' => String c r'
      end
  end.

(** [s.strip()] *)
Definition strip (s : string) : string := rstrip (lstrip s).

(** [s.split(sep)] for a one-character separator. *)
Fixpoint split (sep : ascii) (s : string) : list string :=
  match s with
  | EmptyString => [EmptyString]
  | String c r =>
      if Ascii.eqb c sep then EmptyString :: split sep r
      else match split sep r with
           | h :: t => String c h :: t
           | [] => [String c EmptyString]
           end
  end.

(** [s[:n]] *)
Definition prefix (n : nat) (s : string) : string := substring 0 n s.

Definition digit_value (c : ascii) : Z := Z.of_N (code c) - 48.

Fixpoint int_from (acc : Z) (s : string) : option Z :=
  match s with
  | EmptyString => Some acc
  | String c r =>
      if isdecimal_char c then int_from (10 * acc + digit_value c) r
      else None
  end.

(** [int(s)] for a string without sign, blank or underscore: the value of
    the decimal digits, [None] for the ValueError raised on the empty
    string or on any other character (a superscript digit included). *)
Definition int (s : string) : option Z :=
  match s with
  | EmptyString => None
  | _ => int_from 0 s
  end.

(** [str(z)] for an integer *)
Definition of_Z (z : Z) : string := NilZero.string_of_int (Z.to_int z).

Fixpoint zeros (n : nat) : string :=
  match n with
  | O => EmptyString
  | S k => String "0" (zeros k)
  end.

(** [s.zfill(w)] on the digits of a non-negative field. *)
Definition zfill (w : nat) (s : string) : string :=
  zeros (w - String.length s) ++ s.

End PyStr.

(** ** Cells *)

Record Timestamp := mkTimestamp {
  ts_year : Z; ts_month : Z; ts_day : Z;
  ts_hour : Z; ts_minute : Z; ts_second : Z
}.

Record Date := mkDate { d_year : Z; d_month : Z; d_day : Z }.

Inductive value :=
| VNone
| VNaN
| VNaT
| VStr (s : string)
| VInt (z : Z)
| VTime (t : Timestamp)
| VDate (d : Date).

(** [pd.isna] on a scalar *)
Definition isna (v : value) : bool :=
  match v with
  | VNone | VNaN | VNaT => true
  | _ => false
  end.

Definition notna (v : value) : bool := negb (isna v).

Definition str_date (y m d : Z) : string :=
  PyStr.zfill 4 (PyStr.of_Z y) ++ "-" ++ PyStr.zfill 2 (PyStr.of_Z m)
  ++ "-" ++ PyStr.zfill 2 (PyStr.of_Z d).

(** [str(v)] *)
Definition str (v : value) : string :=
  match v with
  | VNone => "None"
  | VNaN => "nan"
  | VNaT => "NaT"
  | VStr s => s
  | VInt z => PyStr.of_Z z
  | VTime t =>
      str_date (ts_year t) (ts_month t) (ts_day t) ++ " "
      ++ PyStr.zfill 2 (PyStr.of_Z (ts_hour t)) ++ ":"
      ++ PyStr.zfill 2 (PyStr.of_Z (ts_minute t)) ++ ":"
      ++ PyStr.zfill 2 (PyStr.of_Z (ts_second t))
  | VDate d => str_date (d_year d) (d_month d) (d_day d)
  end.

(** ** SubprojectNameValidator ([utils.validar_subproject_name]) *)

Definition validar_subproject_name (subproject_name : value) : bool :=
  if isna subproject_name then false
  else
    let subproject_str := PyStr.strip (str subproject_name) in
    if negb (String.length subproject_str =? 6)%nat then false
    else if (subproject_str =? "nan")%string || (subproject_str =? "")%string
    then false
    else
      match String.get 4 subproject_str with
      | None => false                                   (* IndexError *)
      | Some c =>
          if negb (Ascii.eqb c "_") then false
          else
            match PyStr.split "_" subproject_str with
            | [year_str; num_str] =>
                if negb (String.length year_str =? 4)%nat
                   || negb (PyStr.isdigit year_str) then false
                else if negb (String.length num_str =? 1)%nat
                        || negb (PyStr.isdigit num_str) then false
                else
                  match PyStr.int year_str with
                  | None => false                       (* ValueError *)
                  | Some year => if year <? 2020 then false else true
                  end
            | _ => false
            end
      end.

(** ** Tables

    A [DataFrame] is a list of labelled columns (label and dtype) and a list
    of rows, each with its index label and its cells in column order. A
    label may occur more than once ([pd.merge] followed by a rename makes
    such frames, and the date filter removes the repetitions itself);
    [df[name]] is read at the first column with that label, which is the
    column pandas returns whenever the label is unique, as it is in a table
    that comes from [pd.read_csv] or out of the de-duplication steps. A
    cell is a text, an integer, a timestamp, a date or one of the missing
    markers. *)

Inductive dtype :=
| object | int64 | int32 | float64 | datetime64 | category.

Definition dtype_eqb (a b : dtype) : bool :=
  match a, b with
  | object, object | int64, int64 | int32, int32
  | float64, float64 | datetime64, datetime64 | category, category => true
  | _, _ => false
  end.

Record Column := mkColumn { label : string; col_dtype : dtype }.

Record Row := mkRow { row_index : Z; cells : list value }.

Record DataFrame := mkDataFrame { columns : list Column; rows : list Row }.

Definition value_eq_dec : forall a b : value, {a = b} + {a <> b}.
Proof.
  decide equality;
    try apply string_dec; try apply Z.eq_dec;
    decide equality; apply Z.eq_dec.
Defined.

Definition value_eqb (a b : value) : bool :=
  if value_eq_dec a b then true else false.

Module Frame.

Definition labels (df : DataFrame) : list string := map label (columns df).

(** [name in df.columns] *)
Definition has_column (name : string) (df : DataFrame) : bool :=
  existsb (String.eqb name) (labels df).

Fixpoint position (name : string) (l : list string) : option nat :=
  match l with
  | [] => None
  | x :: r => if String.eqb name x then Some O
              else option_map S (position name r)
  end.

(** [len(df)] *)
Definition len (df : DataFrame) : nat := List.length (rows df).

(** [df.empty]: no rows or no columns. *)
Definition empty (df : DataFrame) : bool :=
  (len df =? 0)%nat || (List.length (columns df) =? 0)%nat.

(** The cell of a row under the column at position [j]; a cell that a
    ragged row lacks reads as NaN. *)
Definition cell_at (j : nat) (r : Row) : value := nth j (cells r) VNaN.

(** [df[name]] as the list of its cells, [None] for the KeyError. *)
Definition series (name : string) (df : DataFrame) : option (list value) :=
  match position name (labels df) with
  | None => None
  | Some j => Some (map (cell_at j) (rows df))
  end.

(** [df[name].dtype] *)
Definition dtype_of (name : string) (df : DataFrame) : option dtype :=
  match position name (labels df) with
  | None => None
  | Some j => option_map col_dtype (nth_error (columns df) j)
  end.

(** [df.columns.duplicated()]: true at every occurrence after the first. *)
Fixpoint duplicated_from (seen l : list string) : list bool :=
  match l with
  | [] => []
  | x :: r => existsb (String.eqb x) seen :: duplicated_from (x :: seen) r
  end.

Definition duplicated (l : list string) : list bool := duplicated_from [] l.

(** Boolean indexing of a list: keep the entries whose flag is true. *)
Fixpoint take_where {A : Type} (mask : list bool) (l : list A) : list A :=
  match mask, l with
  | b :: m, x :: r => if b then x :: take_where m r else take_where m r
  | _, _ => []
  end.

(** The labels that [~df.columns.duplicated()] keeps. *)
Definition first_occurrences (seen l : list string) : list string :=
  take_where (map negb (duplicated_from seen l)) l.

(** [df.loc[:, keep]] *)
Definition loc_columns (keep : list bool) (df : DataFrame) : DataFrame :=
  {| columns := take_where keep (columns df);
     rows := map (fun r => mkRow (row_index r) (take_where keep (cells r)))
                 (rows df) |}.

(** [df[mask]]: the rows whose flag is true, index labels kept. *)
Definition loc_rows (mask : list bool) (df : DataFrame) : DataFrame :=
  {| columns := columns df; rows := take_where mask (rows df) |}.

Fixpoint set_nth {A : Type} (pad : A) (j : nat) (x : A) (l : list A)
  : list A :=
  match j, l with
  | O, [] => [x]
  | O, _ :: r => x :: r
  | S j', [] => pad :: set_nth pad j' x []
  | S j', y :: r => y :: set_nth pad j' x r
  end.

Definition set_cell (j : nat) (v : value) (r : Row) : Row :=
  mkRow (row_index r) (set_nth VNaN j v (cells r)).

Fixpoint set_cells (j : nat) (vals : list value) (rs : list Row)
  : list Row :=
  match vals, rs with
  | v :: vs, r :: rs' => set_cell j v r :: set_cells j vs rs'
  | _, _ => rs
  end.

Fixpoint set_dtype (j : nat) (d : dtype) (cs : list Column) : list Column :=
  match j, cs with
  | _, [] => []
  | O, c :: r => mkColumn (label c) d :: r
  | S j', c :: r => c :: set_dtype j' d r
  end.

(** [df[name] = vals], the new column having dtype [d]: an existing
    column is overwritten in place, a new label is appended. *)
Definition assign (name : string) (d : dtype) (vals : list value)
                  (df : DataFrame) : DataFrame :=
  match position name (labels df) with
  | Some j => {| columns := set_dtype j d (columns df);
                 rows := set_cells j vals (rows df) |}
  | None => {| columns := columns df ++ [mkColumn name d];
               rows := set_cells (List.length (columns df)) vals (rows df) |}
  end.

(** [df[name]] where the source has already tested [name in df.columns];
    the KeyError of an absent label reads as the empty list. *)
Definition get_series (name : string) (df : DataFrame) : list value :=
  match series name df with
  | Some s => s
  | None => []
  end.

Fixpoint zip_with {A B C : Type} (f : A -> B -> C)
                  (l1 : list A) (l2 : list B) : list C :=
  match l1, l2 with
  | x :: r1, y :: r2 => f x y :: zip_with f r1 r2
  | _, _ => []
  end.

(** [df.dropna(subset=subset, how="any")] *)
Definition notna_all (subset : list string) (df : DataFrame) : list bool :=
  fold_right (fun c m => zip_with andb (map notna (get_series c df)) m)
             (repeat true (len df)) subset.

Definition dropna (subset : list string) (df : DataFrame) : DataFrame :=
  loc_rows (notna_all subset df) df.

(** [Series.isin(vals)] on one cell *)
Definition isin (vals : list value) (v : value) : bool :=
  existsb (value_eqb v) vals.

(** [Series.nunique()]: distinct non-missing cells. *)
Definition nunique (s : list value) : nat :=
  List.length (nodup value_eq_dec (filter notna s)).

End Frame.

(** ** Row filters of [utils.py] *)

(** [filtrar_por_subproject_valido]. The mask comes from [Series.apply]:
    on a table without rows it is an empty Series of dtype object, not a
    boolean one, and [df[mask_valido]] then selects columns, none of them,
    instead of rows. *)
Definition filtrar_por_subproject_valido (df : DataFrame) (columna : string)
  : DataFrame :=
  if negb (Frame.has_column columna df) then df
  else
    let mask_valido :=
      map validar_subproject_name (Frame.get_series columna df) in
    match mask_valido with
    | [] => Frame.loc_columns [] df
    | _ => Frame.loc_rows mask_valido df
    end.

Definition cv_invalidos : list value := [VStr "No CV Result"; VStr "Unknown"].

(** [limpiar_registros_cv], on a table whose labels are pairwise distinct,
    as [read_csv] yields them: there [df_clean["genus"]] and
    [df_clean["species"]] are columns and the two masks select rows. (Under
    a repeated genus or species label the masks are tables and the
    selection raises.) *)
Definition limpiar_registros_cv (df : DataFrame) : DataFrame :=
  if negb (Frame.has_column "genus" df) || negb (Frame.has_column "species" df)
  then df
  else
    let df_clean := Frame.dropna ["genus"; "species"] df in
    let mask1 :=
      map (Frame.isin cv_invalidos) (Frame.get_series "genus" df_clean) in
    let mask2 :=
      map (Frame.isin cv_invalidos) (Frame.get_series "species" df_clean) in
    Frame.loc_rows
      (Frame.zip_with andb (map negb mask1) (map negb mask2)) df_clean.

(** What the cleaning step asks of a genus or species cell. *)
Definition cv_valido (v : value) : bool :=
  notna v && negb (Frame.isin cv_invalidos v).

(** ** DateConsistencyFilter ([utils.filtrar_fechas_inconsistentes]) *)

(** [Series.dt.year] on one cell of a datetime column; [None] is NaN. *)
Definition dt_year (v : value) : option Z :=
  match v with
  | VTime t => Some (ts_year t)
  | _ => None
  end.

Definition is_some {A : Type} (o : option A) : bool :=
  match o with
  | Some _ => true
  | None => false
  end.

(** [year_subproject - year_photo] on one row, NaN propagating. *)
Definition year_sub (a : option Q) (b : option Z) : option Q :=
  match a, b with
  | Some x, Some y => Some (x - inject_Z y)%Q
  | _, _ => None
  end.

(** [year_diff <= 1] on one row; a comparison with NaN is false. *)
Definition le_one (d : option Q) : bool :=
  match d with
  | Some q => Qle_bool q 1
  | None => false
  end.

Section DateFilter.

(** [pd.to_numeric(., errors='coerce')] on one string: the number read,
    [None] for NaN. *)
Variable to_numeric : string -> option Q.

(** [pd.to_datetime(., errors='coerce')] on one cell: [None] for NaT. *)
Variable to_datetime : value -> option Timestamp.

Definition coerce_datetime (v : value) : value :=
  match to_datetime v with
  | Some t => VTime t
  | None => VNaT
  end.

Definition drop_duplicated_columns (df : DataFrame) : DataFrame :=
  let dup := Frame.duplicated (Frame.labels df) in
  if existsb (fun b => b) dup
  then Frame.loc_columns (map negb dup) df
  else df.

Definition ensure_datetime (columna_fecha : string) (df : DataFrame)
  : DataFrame :=
  match Frame.dtype_of columna_fecha df with
  | Some datetime64 => df
  | _ => Frame.assign columna_fecha datetime64
           (map coerce_datetime (Frame.get_series columna_fecha df)) df
  end.

Definition mask_valido (columna_fecha columna_subproject : string)
                       (df : DataFrame) : list bool :=
  let year_photo := map dt_year (Frame.get_series columna_fecha df) in
  let year_subproject :=
    map to_numeric
        (map (PyStr.prefix 4)
             (map str (Frame.get_series columna_subproject df))) in
  let year_diff := Frame.zip_with year_sub year_subproject year_photo in
  Frame.zip_with andb
    (Frame.zip_with andb (map le_one year_diff) (map is_some year_photo))
    (map is_some year_subproject).

Definition filtrar_fechas_inconsistentes
           (df : DataFrame) (columna_fecha columna_subproject : string)
  : DataFrame :=
  if negb (Frame.has_column columna_fecha df)
     || negb (Frame.has_column columna_subproject df)
  then df
  else
    let df := drop_duplicated_columns df in
    let df := ensure_datetime columna_fecha df in
    Frame.loc_rows (mask_valido columna_fecha columna_subproject df) df.

(** Vocabulary for the properties of the filter: the frame on which the
    mask is evaluated, and what the mask says about one of its rows. *)
Definition preparar (columna_fecha : string) (df : DataFrame) : DataFrame :=
  ensure_datetime columna_fecha (drop_duplicated_columns df).

Definition capture_year (columna_fecha : string) (df : DataFrame) (r : Row)
  : option Z :=
  match Frame.position columna_fecha (Frame.labels df) with
  | Some j => dt_year (Frame.cell_at j r)
  | None => None
  end.

Definition event_year (columna_subproject : string) (df : DataFrame)
                      (r : Row) : option Q :=
  match Frame.position columna_subproject (Frame.labels df) with
  | Some j => to_numeric (PyStr.prefix 4 (str (Frame.cell_at j r)))
  | None => None
  end.

Definition fecha_consistente (columna_fecha columna_subproject : string)
                             (df : DataFrame) (r : Row) : bool :=
  le_one (year_sub (event_year columna_subproject df r)
                   (capture_year columna_fecha df r))
  && is_some (capture_year columna_fecha df r)
  && is_some (event_year columna_subproject df r).

End DateFilter.

(** Instances of the two parsers on which the examples are run: unsigned
    decimal numerals for [pd.to_numeric], cells that already hold a
    timestamp for [pd.to_datetime]. *)
Definition to_numeric_decimal (s : string) : option Q :=
  option_map inject_Z (PyStr.int s).

(** [pd.to_numeric] reads a numeral with blanks in front of it as the
    numeral: the same instance, past the leading blanks. *)
Fixpoint saltar_blancos (s : string) : string :=
  match s with
  | String " " r => saltar_blancos r
  | _ => s
  end.

Definition to_numeric_blancos (s : string) : option Q :=
  option_map inject_Z (PyStr.int (saltar_blancos s)).

Definition to_datetime_identity (v : value) : option Timestamp :=
  match v with
  | VTime t => Some t
  | _ => None
  end.

(** ** Dtype narrowing before export ([generate_parquets.optimizar_tipos_datos]) *)

(** [astype('category')] on one cell: a categorical holds every missing cell
    as NaN and every other cell as it is. *)
Definition astype_category (v : value) : value :=
  if isna v then VNaN else v.

(** Two's-complement wrap of numpy's int64 -> int32 cast. *)
Definition wrap_int32 (z : Z) : Z :=
  (z + 2147483648) mod 4294967296 - 2147483648.

Definition astype_int32 (v : value) : value :=
  match v with
  | VInt z => VInt (wrap_int32 z)
  | _ => v
  end.

Definition int_cells (s : list value) : list Z :=
  flat_map (fun v => match v with VInt z => [z] | _ => [] end) s.

(** [Series.min()] / [Series.max()] of an integer column; [None] is the NaN
    of an empty column. *)
Definition series_min (s : list value) : option Z :=
  match int_cells s with
  | [] => None
  | z :: r => Some (fold_left Z.min r z)
  end.

Definition series_max (s : list value) : option Z :=
  match int_cells s with
  | [] => None
  | z :: r => Some (fold_left Z.max r z)
  end.

Definition fits_int32 (lo hi : option Z) : bool :=
  match lo, hi with
  | Some col_min, Some col_max =>
      (-2147483648 <=? col_min) && (col_max <=? 2147483647)
  | _, _ => false
  end.

(** Body of the first loop; [None] is the ZeroDivisionError of
    [num_unique / num_total] on a frame without rows. *)
Definition optimizar_categorica (col : string) (df : DataFrame)
  : option DataFrame :=
  match Frame.dtype_of col df with
  | Some object =>
      let num_unique := Frame.nunique (Frame.get_series col df) in
      let num_total := Frame.len df in
      if (num_total =? 0)%nat then None
      else if negb (Qle_bool (1 # 2)
                      (inject_Z (Z.of_nat num_unique)
                       / inject_Z (Z.of_nat num_total))%Q)
      then Some (Frame.assign col category
                   (map astype_category (Frame.get_series col df)) df)
      else Some df
  | _ => Some df
  end.

(** Body of the second loop. *)
Definition optimizar_entera (col : string) (df : DataFrame) : DataFrame :=
  let col_min := series_min (Frame.get_series col df) in
  let col_max := series_max (Frame.get_series col df) in
  if fits_int32 col_min col_max
  then Frame.assign col int32
         (map astype_int32 (Frame.get_series col df)) df
  else df.

Fixpoint for_each_fallible {A S : Type} (body : A -> S -> option S)
                           (l : list A) (s : S) : option S :=
  match l with
  | [] => Some s
  | x :: r => match body x s with
              | Some s' => for_each_fallible body r s'
              | None => None
              end
  end.

(** [df.select_dtypes(include=['int64']).columns] *)
Definition int64_labels (df : DataFrame) : list string :=
  map label (filter (fun c => dtype_eqb (col_dtype c) int64) (columns df)).

(** [optimizar_tipos_datos]; [None] when it raises. Under a repeated label
    [df_optimized[col]] is a table, not a column, and [.dtype] raises
    AttributeError when the first loop comes to it. *)
Definition optimizar_tipos_datos (df : DataFrame) : option DataFrame :=
  if existsb (fun b => b) (Frame.duplicated (Frame.labels df)) then None
  else
    match for_each_fallible optimizar_categorica (Frame.labels df) df with
    | None => None
    | Some df_optimized =>
        Some (fold_left (fun d col => optimizar_entera col d)
                        (int64_labels df_optimized) df_optimized)
    end.

(** Vocabulary for the properties of the narrowing step. *)

(** Cell-for-cell agreement of two tables: a missing cell stays missing,
    every other cell is the same value. *)
Definition same_cell (a b : value) : Prop :=
  if isna a then isna b = true else b = a.

Definition same_row (r r' : Row) : Prop :=
  row_index r' = row_index r
  /\ forall j, same_cell (Frame.cell_at j r) (Frame.cell_at j r').

Definition same_content (df df' : DataFrame) : Prop :=
  Frame.labels df' = Frame.labels df
  /\ Forall2 same_row (rows df) (rows df').

(** What the second loop may have done to an int64 column. *)
Definition narrowed_if_fits (col : string) (df0 d : DataFrame) : Prop :=
  Frame.dtype_of col d = Some int64
  \/ (Frame.dtype_of col d = Some int32
      /\ fits_int32 (series_min (Frame.get_series col df0))
                    (series_max (Frame.get_series col df0)) = true).

(** ** TimestampNormalizer ([utils.procesar_timestamps]) *)

Definition formatos_fecha : list string :=
  [ "%Y-%m-%d %H:%M:%S";
    "%Y-%m-%d %H:%M:%S.%f";
    "%m/%d/%Y %H:%M";
    "%d/%m/%Y %H:%M:%S";
    "%d/%m/%Y %H:%M";
    "%Y/%m/%d %H:%M:%S";
    "%Y-%m-%dT%H:%M:%S";
    "%Y-%m-%dT%H:%M:%S.%f";
    "%Y-%m-%dT%H:%M:%SZ" ].

(** A parsed cell of a datetime column: the timestamp, or NaT. *)
Definition datetime_cell (o : option Timestamp) : value :=
  match o with
  | Some t => VTime t
  | None => VNaT
  end.

(** [Series.notna().sum()] *)
Definition notna_sum (s : list value) : nat := List.length (filter notna s).

(** [.dt.date], [.dt.year], ... on one cell of the parsed column *)
Definition dt_date (v : value) : value :=
  match v with
  | VTime t => VDate (mkDate (ts_year t) (ts_month t) (ts_day t))
  | _ => VNaT
  end.

Definition dt_field (f : Timestamp -> Z) (v : value) : value :=
  match v with
  | VTime t => VInt (f t)
  | _ => VNaN
  end.

(** Integer fields come back as int32 unless a NaT forces float64. *)
Definition field_dtype (s : list value) : dtype :=
  if forallb notna s then int32 else float64.

Section Timestamps.

(** [pd.to_datetime(., format=formato, errors='coerce')] on one cell:
    the timestamp read under that exact format, [None] when the cell does
    not match it. *)
Variable strptime : string -> value -> option Timestamp.

(** Whether the call on the whole column raises instead of returning. *)
Variable raises : string -> list value -> bool.

(** [pd.to_datetime(., errors='coerce')] on one cell, format inferred. *)
Variable to_datetime : value -> option Timestamp.

Definition to_datetime_format (formato : string) (col : list value)
  : option (list value) :=
  if raises formato col then None
  else Some (map (fun v => datetime_cell (strptime formato v)) col).

(** The [for formato in formatos_fecha] loop, threading
    [timestamp_parsed] and [formato_exitoso]. *)
Fixpoint probar_formatos (formatos : list string) (col : list value)
         (timestamp_parsed : option (list value))
         (formato_exitoso : option string)
  : option (list value) * option string :=
  match formatos with
  | [] => (timestamp_parsed, formato_exitoso)
  | formato :: resto =>
      match to_datetime_format formato col with
      | None =>                                        (* except: continue *)
          probar_formatos resto col timestamp_parsed formato_exitoso
      | Some parsed =>
          if (0 <? notna_sum parsed)%nat
          then (Some parsed, Some formato)             (* break *)
          else probar_formatos resto col (Some parsed) formato_exitoso
      end
  end.

(** The column [timestamp_parsed] that the function goes on to publish. *)
Definition parse_timestamps (col : list value) : list value :=
  match fst (probar_formatos formatos_fecha col None None) with
  | None => map (fun v => datetime_cell (to_datetime v)) col
  | Some parsed =>
      if (notna_sum parsed =? 0)%nat
      then map (fun v => datetime_cell (to_datetime v)) col
      else parsed
  end.

Definition procesar_timestamps (df : DataFrame) (columna : string)
  : DataFrame :=
  if negb (Frame.has_column columna df) then df
  else
    let timestamp_parsed := parse_timestamps (Frame.get_series columna df) in
    let field f := map (dt_field f) timestamp_parsed in
    let df_work := df in
    let df_work :=
      Frame.assign "timestamp_parsed" datetime64 timestamp_parsed df_work in
    let df_work :=
      Frame.assign "photo_datetime" datetime64 timestamp_parsed df_work in
    let df_work :=
      Frame.assign "photo_date" object (map dt_date timestamp_parsed)
                   df_work in
    let df_work :=
      Frame.assign "year" (field_dtype timestamp_parsed) (field ts_year)
                   df_work in
    let df_work :=
      Frame.assign "month" (field_dtype timestamp_parsed) (field ts_month)
                   df_work in
    let df_work :=
      Frame.assign "day" (field_dtype timestamp_parsed) (field ts_day)
                   df_work in
    let df_work :=
      Frame.assign "hour" (field_dtype timestamp_parsed) (field ts_hour)
                   df_work in
    Frame.assign "minute" (field_dtype timestamp_parsed) (field ts_minute)
                 df_work.

(** A format is usable on a column when the call returns and at least one
    cell is read under it. *)
Definition formato_util (col : list value) (formato : string) : bool :=
  negb (raises formato col)
  && existsb (fun v => is_some (strptime formato v)) col.

(** The one parser the whole column is read with. *)
Definition estrategia (col : list value) : value -> option Timestamp :=
  match find (formato_util col) formatos_fecha with
  | Some formato => strptime formato
  | None => to_datetime
  end.

End Timestamps.

(** ** JurisdictionAssigner ([transformations.asignar_corporacion_geografica]) *)

(** The four columns of the deployments table that the assigner selects;
    a missing coordinate (NaN) is [None]. *)
Record Deployment := mkDeployment {
  deployment_id : Z;
  project_id : Z;
  longitude : option Q;
  latitude : option Q
}.

(** One row of the project-level result: [project_id], [Corporacion]. *)
Definition ProjectCorps := list (Z * option string).

Module Stats.

(** [Series.unique()]: first occurrences, in order of appearance. *)
Fixpoint unique_from {A : Type} (eqb : A -> A -> bool)
                     (seen : list A) (l : list A) : list A :=
  match l with
  | [] => []
  | x :: r => if existsb (eqb x) seen then unique_from eqb seen r
              else x :: unique_from eqb (x :: seen) r
  end.

Definition unique {A : Type} (eqb : A -> A -> bool) (l : list A) : list A :=
  unique_from eqb [] l.

Fixpoint insert_key (k : Z) (l : list Z) : list Z :=
  match l with
  | [] => [k]
  | x :: r => if k <? x then k :: l
              else if k =? x then l
              else x :: insert_key k r
  end.

(** The group keys of [groupby]: distinct, ascending. *)
Definition group_keys (ks : list Z) : list Z := fold_right insert_key [] ks.

Fixpoint insert_sorted (s : string) (l : list string) : list string :=
  match l with
  | [] => [s]
  | x :: r => if (s <=? x)%string then s :: l else x :: insert_sorted s r
  end.

(** [np.sort] on text: ascending code-point order. *)
Definition sort (l : list string) : list string :=
  fold_right insert_sorted [] l.

Definition dropna (x : list (option string)) : list string :=
  flat_map (fun o => match o with Some s => [s] | None => [] end) x.

Definition count (s : string) (l : list string) : nat :=
  count_occ string_dec l s.

Definition max_count (l : list string) : nat :=
  fold_right Nat.max O (map (fun s => count s l) l).

(** [Series.mode()] (dropna=True): the most frequent non-missing values,
    sorted ascending. *)
Definition mode (x : list (option string)) : list string :=
  let vals := dropna x in
  sort (filter (fun s => (count s vals =? max_count vals)%nat)
               (unique String.eqb vals)).

(** The head of a list is a lower bound of the list. *)
Definition head_least (l : list string) : Prop :=
  match l with
  | [] => True
  | m :: _ => forall x, In x l -> (m <=? x)%string = true
  end.

End Stats.

(** The aggregation lambda:
    [x.mode()[0] if len(x.mode()) > 0 and pd.notna(x.mode()[0]) else None] *)
Definition moda (x : list (option string)) : option string :=
  match Stats.mode x with
  | m :: _ => Some m
  | [] => None
  end.

(** The tie-breaking rule as the specification words it: among the most
    frequent values, the one met first in the column. *)
Definition spec_moda_primera_encontrada (x : list (option string))
  : option string :=
  let vals := Stats.dropna x in
  hd_error (filter (fun s => (Stats.count s vals =? Stats.max_count vals)%nat)
                   (Stats.unique String.eqb vals)).

Section Jurisdiction.

(** Geometry of one jurisdiction. *)
Variable polygon : Type.

(** shapely's [Point(lon, lat).within(geometry)]. *)
Variable within : Q * Q -> polygon -> bool.

Record Car := mkCar { NOMBRE_CAR : option string; geometry : polygon }.

(** What the polygon dataset turns out to be when it is opened. *)
Inductive Shapefile :=
| NotFound                                  (* os.path.exists is false *)
| Unreadable                                (* gpd.read_file raises *)
| WithoutName (geometries : list polygon)   (* no 'NOMBRE_CAR' column *)
| Cars (gdf_cars : list Car).

(** [crear_corporaciones_null] *)
Definition crear_corporaciones_null (deployments_df : list Deployment)
  : ProjectCorps :=
  let project_ids := Stats.unique Z.eqb (map project_id deployments_df) in
  map (fun p => (p, None)) project_ids.

Definition has_coordinates (d : Deployment) : bool :=
  is_some (longitude d) && is_some (latitude d).

Definition point_within (d : Deployment) (c : Car) : bool :=
  match longitude d, latitude d with
  | Some x, Some y => within (x, y) (geometry c)
  | _, _ => false
  end.

(** [gpd.sjoin(points, cars, how='left', predicate='within')]: one row per
    matching polygon, one row with a missing name when none matches. *)
Definition sjoin (deps : list Deployment) (gdf_cars : list Car)
  : list (Deployment * option string) :=
  flat_map
    (fun d =>
       match filter (point_within d) gdf_cars with
       | [] => [(d, None)]
       | matches => map (fun c => (d, NOMBRE_CAR c)) matches
       end) deps.

(** The [Corporacion] cells of the rows of one project. *)
Definition corporaciones_de (p : Z)
           (deployment_corps : list (Deployment * option string))
  : list (option string) :=
  map snd (filter (fun r => project_id (fst r) =? p) deployment_corps).

(** [groupby('project_id')['Corporacion'].agg(...).reset_index()] *)
Definition agregar_por_proyecto
           (deployment_corps : list (Deployment * option string))
  : ProjectCorps :=
  map (fun p => (p, moda (corporaciones_de p deployment_corps)))
      (Stats.group_keys (map (fun r => project_id (fst r)) deployment_corps)).

Definition asignar_corporacion_geografica
           (deployments_df : list Deployment) (shapefile : Shapefile)
  : ProjectCorps :=
  match shapefile with
  | NotFound => crear_corporaciones_null deployments_df
  | Unreadable => crear_corporaciones_null deployments_df      (* except *)
  | WithoutName _ => crear_corporaciones_null deployments_df
  | Cars gdf_cars =>
      let deps_validos := filter has_coordinates deployments_df in
      if (List.length deps_validos =? 0)%nat
      then crear_corporaciones_null deployments_df
      else agregar_por_proyecto (sjoin deps_validos gdf_cars)
  end.

(** The [Corporacion] a project ends up with after the orchestrator's
    left merge on [project_id]: missing when the table has no row for it. *)
Definition corporacion_de_proyecto (p : Z) (project_corps : ProjectCorps)
  : option string :=
  match find (fun r => fst r =? p) project_corps with
  | Some (_, c) => c
  | None => None
  end.

End Jurisdiction.

Arguments mkCar {polygon}.
Arguments NOMBRE_CAR {polygon}.
Arguments geometry {polygon}.
Arguments NotFound {polygon}.
Arguments Unreadable {polygon}.
Arguments WithoutName {polygon}.
Arguments Cars {polygon}.
Arguments point_within {polygon}.
Arguments sjoin {polygon}.
Arguments asignar_corporacion_geografica {polygon}.

(** ** Orchestrator ([process_RAW_data_WI.main]) *)

(** The stages of a run, in the order the run reaches them. *)
Inductive Etapa :=
| Load | Clean | Enrich | Merge | Geocode | Finalize | Export | Validate.

(** [agregar_metadata_administrativa] *)
Definition agregar_metadata_administrativa
           (df : DataFrame) (admin_name organization : string) : DataFrame :=
  let df :=
    Frame.assign "project_admin" object
                 (repeat (VStr admin_name) (Frame.len df)) df in
  Frame.assign "project_admin_organization" object
               (repeat (VStr organization) (Frame.len df)) df.

Section Orchestrator.

Variable to_numeric : string -> option Q.
Variable strptime : string -> value -> option Timestamp.
Variable raises : string -> list value -> bool.
Variable to_datetime : value -> option Timestamp.
Variable polygon : Type.
Variable within : Q * Q -> polygon -> bool.

(** Steps whose effect on the table is pandas' own (merges, arithmetic on
    columns) or the file system's. *)
Variable crear_nombre_cientifico : DataFrame -> DataFrame.
Variable merge_images_deployments : DataFrame -> DataFrame -> DataFrame.
Variable merge_with_projects : DataFrame -> DataFrame -> DataFrame.
Variable deployment_records : DataFrame -> list Deployment.
Variable merge_corporacion : DataFrame -> ProjectCorps -> DataFrame.
Variable calcular_deployment_days : DataFrame -> DataFrame.
Variable crear_columnas_fecha : DataFrame -> DataFrame.
Variable generar_observations_parquet : DataFrame -> bool.
Variable generar_deployments_parquet : DataFrame -> DataFrame -> bool.
Variable generar_projects_parquet : DataFrame -> DataFrame -> bool.

(** What the run finds on disk. [None] for a reference table is the
    exception of [pd.read_csv]; [None] for the images is the [None] of
    [concatenar_archivos_csv]. *)
Record Entrada := mkEntrada {
  projects_csv : option DataFrame;
  deployments_csv : option DataFrame;
  images_csv : option DataFrame;
  shapefile : Shapefile polygon
}.

(** [generar_todas_las_tablas]: the dict of per-table outcomes. *)
Definition generar_todas_las_tablas
           (observations_df deployments_df projects_df : DataFrame)
  : list (string * bool) :=
  let r1 := generar_observations_parquet observations_df in
  let r2 := generar_deployments_parquet observations_df deployments_df in
  let r3 := generar_projects_parquet observations_df projects_df in
  [("observations", r1); ("deployments", r2); ("projects", r3)].

(** Truth value of a dict: non-empty. *)
Definition truthy {A : Type} (d : list A) : bool :=
  match d with
  | [] => false
  | _ => true
  end.

(** Phase 4.5 of [main]. *)
Definition preparacion_final (data : DataFrame) : DataFrame :=
  let data := calcular_deployment_days data in
  let data := drop_duplicated_columns data in
  let data :=
    if Frame.has_column "photo_datetime" data
    then crear_columnas_fecha data else data in
  if negb (Frame.has_column "subproject_name" data)
  then Frame.assign "subproject_name" object
                    (repeat (VStr "") (Frame.len data)) data
  else data.

(** [main]: the returned flag and the stages the run went through. *)
Definition main (e : Entrada) : bool * list Etapa :=
  match projects_csv e, deployments_csv e with
  | Some projects, Some deployments =>
      match images_csv e with
      | None => (false, [Load])
      | Some images =>
          if Frame.empty images then (false, [Load])
          else
            let images :=
              procesar_timestamps strptime raises to_datetime
                                  images "timestamp" in
            let images := limpiar_registros_cv images in
            let images := crear_nombre_cientifico images in
            let images :=
              agregar_metadata_administrativa
                images "" "Instituto Humboldt" in
            let data := merge_images_deployments images deployments in
            let data :=
              filtrar_por_subproject_valido data "subproject_name" in
            if Frame.empty data then (false, [Load; Clean; Enrich; Merge])
            else
              let data :=
                filtrar_fechas_inconsistentes
                  to_numeric to_datetime
                  data "photo_datetime" "subproject_name" in
              if Frame.empty data
              then (false, [Load; Clean; Enrich; Merge])
              else
                let data := merge_with_projects data projects in
                let project_corporaciones :=
                  asignar_corporacion_geografica
                    within (deployment_records deployments) (shapefile e) in
                let data := merge_corporacion data project_corporaciones in
                let data := preparacion_final data in
                let resultado :=
                  generar_todas_las_tablas data deployments projects in
                if negb (truthy resultado)
                then (false, [Load; Clean; Enrich; Merge; Geocode;
                              Finalize; Export])
                else (true, [Load; Clean; Enrich; Merge; Geocode;
                             Finalize; Export; Validate])
      end
  | _, _ => (false, [Load])
  end.

(** Vocabulary for the properties of [main]: the dataset as it stands
    after the subproject-validity filter (3.4) and after the
    date-consistency filter (3.5). *)
Definition datos_validos (images deployments : DataFrame) : DataFrame :=
  filtrar_por_subproject_valido
    (merge_images_deployments
       (agregar_metadata_administrativa
          (crear_nombre_cientifico
             (limpiar_registros_cv
                (procesar_timestamps strptime raises to_datetime
                                     images "timestamp")))
          "" "Instituto Humboldt")
       deployments)
    "subproject_name".

Definition datos_consistentes (images deployments : DataFrame)
  : DataFrame :=
  filtrar_fechas_inconsistentes
    to_numeric to_datetime
    (datos_validos images deployments) "photo_datetime" "subproject_name".

End Orchestrator.

Arguments mkEntrada {polygon}.
Arguments projects_csv {polygon}.
Arguments deployments_csv {polygon}.
Arguments images_csv {polygon}.
Arguments shapefile {polygon}.

(** The columns [procesar_timestamps] writes. *)
Definition columnas_derivadas : list string :=
  [ "timestamp_parsed"; "photo_datetime"; "photo_date";
    "year"; "month"; "day"; "hour"; "minute" ].

(** ** File discovery and loading ([utils.py]) *)

(** [sub in s] on text *)
Fixpoint contains (sub s : string) : bool :=
  String.prefix sub s
  || match s with
     | EmptyString => false
     | String _ r => contains sub r
     end.

(** [s.endswith(suffix)] *)
Definition endswith (suffix s : string) : bool :=
  (String.length suffix <=? String.length s)%nat
  && (substring (String.length s - String.length suffix)
                (String.length suffix) s =? suffix)%string.

(** What [pd.read_csv] does with a file under one encoding. *)
Inductive Lectura :=
| Leido (df : DataFrame)
| ErrorUnicode                              (* UnicodeDecodeError *)
| OtroError.                                (* any other exception *)

Section Carga.

(** [os.listdir] on a folder, [None] when [os.path.exists] is false. *)
Variable listdir : string -> option (list string).

Variable path_join : string -> string -> string.

(** [os.path.exists] on a file *)
Variable exists_file : string -> bool.

(** [pd.read_csv(file_path, low_memory=False)] *)
Variable read_csv : string -> Lectura.

(** [pd.read_csv(file_path, sep='\t', encoding='utf-16')], [None] when it
    raises. *)
Variable read_csv_utf16 : string -> option DataFrame.

(** [pd.concat(df_list, ignore_index=True)] *)
Variable pd_concat : list DataFrame -> DataFrame.

(** [obtener_archivos_csv_imagenes] *)
Definition obtener_archivos_csv_imagenes (folder_path : string)
  : list string :=
  match listdir folder_path with
  | None => []
  | Some all_files =>
      let images_files := filter (contains "images") all_files in
      let csv_files := filter (endswith ".csv") images_files in
      Stats.sort csv_files
  end.

(** [cargar_csv_robusto] *)
Definition cargar_csv_robusto (file_path : string) : option DataFrame :=
  if negb (exists_file file_path) then None
  else
    match read_csv file_path with
    | Leido df => Some df
    | ErrorUnicode => read_csv_utf16 file_path
    | OtroError => None
    end.

(** The [for idx, csv in enumerate(csv_files, 1)] loop: the frames that
    load, in the order of the file names. *)
Fixpoint cargar_lista (folder_path : string) (csv_files : list string)
  : list DataFrame :=
  match csv_files with
  | [] => []
  | csv :: resto =>
      match cargar_csv_robusto (path_join folder_path csv) with
      | Some df => df :: cargar_lista folder_path resto
      | None => cargar_lista folder_path resto
      end
  end.

(** [concatenar_archivos_csv]; its [patron] argument only appears in a
    message. *)
Definition concatenar_archivos_csv (folder_path : string)
  : option DataFrame :=
  let csv_files := obtener_archivos_csv_imagenes folder_path in
  match csv_files with
  | [] => None
  | _ =>
      match cargar_lista folder_path csv_files with
      | [] => None
      | df_list => Some (pd_concat df_list)
      end
  end.

End Carga.

(** ** Column renaming ([transformations.renombrar_columnas_wi]) *)

Definition COLUMN_MAPPING : list (string * string) :=
  [ ("deployment_id", "deployment_name");
    ("timestamp", "photo_datetime");
    ("start_date", "sensor_start_date_and_time");
    ("end_date", "sensor_end_date_and_time");
    ("scientific_name", "sp_binomial") ].

(** [df.rename(columns={old_name: new_name})]: every column labelled
    [old_name] is relabelled, cells and dtypes stay. *)
Definition rename_columns (old_name new_name : string) (df : DataFrame)
  : DataFrame :=
  {| columns :=
       map (fun c => if (label c =? old_name)%string
                     then mkColumn new_name (col_dtype c) else c)
           (columns df);
     rows := rows df |}.

(** [renombrar_columnas_wi] *)
Definition renombrar_columnas_wi (df : DataFrame) : DataFrame :=
  fold_left
    (fun df par =>
       if Frame.has_column (fst par) df
       then rename_columns (fst par) (snd par) df
       else df)
    COLUMN_MAPPING df.

(** The label a column of the input carries after the renaming. *)
Definition nombre_interno (l : string) : string :=
  match find (fun par => (fst par =? l)%string) COLUMN_MAPPING with
  | Some par => snd par
  | None => l
  end.

(** What one [rename] does to a label. *)
Definition relabel (old_name new_name l : string) : string :=
  if (l =? old_name)%string then new_name else l.

(** ** Scientific name ([transformations.crear_nombre_cientifico]) *)

(** A cell that is a text or missing, as the cells of a text column are. *)
Definition texto_o_nulo (v : value) : bool :=
  match v with
  | VStr _ | VNone | VNaN | VNaT => true
  | _ => false
  end.

(** One cell of [a + b] on columns of dtype object, where one operand is
    a text or missing: a missing operand gives NaN, two texts are
    concatenated, a text and anything else is the TypeError ([None]). *)
Definition text_add (a b : value) : option value :=
  if isna a || isna b then Some VNaN
  else match a, b with
       | VStr x, VStr y => Some (VStr (x ++ y))
       | _, _ => None
       end.

(** One cell of [df['genus'] + " " + df['species']] *)
Definition binomial_cell (genus species : value) : option value :=
  match text_add genus (VStr " ") with
  | Some g => text_add g species
  | None => None
  end.

Fixpoint all_some {A : Type} (l : list (option A)) : option (list A) :=
  match l with
  | [] => Some []
  | None :: _ => None
  | Some x :: r => option_map (cons x) (all_some r)
  end.

(** The dtypes pandas keeps in an extension array of its own. *)
Definition es_extension (d : dtype) : bool :=
  match d with
  | datetime64 | category => true
  | _ => false
  end.

Section NombreCientifico.

(** [left + right] for a column of texts [left] and a datetime64 or
    categorical column [right]: pandas hands the sum to the extension
    array; [None] when it raises. *)
Variable add_extension : list value -> dtype -> list value
                         -> option (list value).

(** [df['genus'] + " " + df['species']], on a table whose labels are
    pairwise distinct. Adding a text to a column is cell by cell only for
    a column of dtype object; on any other dtype the sum raises TypeError
    whatever the cells are, a column without rows included. *)
Definition sumar_genus_species (df : DataFrame) : option (list value) :=
  let genus := Frame.get_series "genus" df in
  let species := Frame.get_series "species" df in
  match Frame.dtype_of "genus" df, Frame.dtype_of "species" df with
  | Some object, Some d =>
      if es_extension d
      then
        match all_some (map (fun g => text_add g (VStr " ")) genus) with
        | Some genus_blank => add_extension genus_blank d species
        | None => None
        end
      else all_some (Frame.zip_with binomial_cell genus species)
  | _, _ => None
  end.

(** [crear_nombre_cientifico]; [None] when the column arithmetic raises. *)
Definition crear_nombre_cientifico (df : DataFrame) : option DataFrame :=
  if Frame.has_column "genus" df && Frame.has_column "species" df
  then
    match sumar_genus_species df with
    | Some sp_binomial =>
        Some (Frame.assign "sp_binomial" object sp_binomial df)
    | None => None
    end
  else Some df.

End NombreCientifico.

(** ** Deployment length ([transformations.calcular_deployment_days]) *)

(** The first of the candidate names that is a column of the table. *)
Definition primera_columna (candidatas : list string) (df : DataFrame)
  : option string :=
  find (fun col => Frame.has_column col df) candidatas.

(** [fillna(0)] on one cell *)
Definition fillna_0 (v : value) : value :=
  if isna v then VInt 0 else v.

(** [max(0, int(x))] on one cell *)
Definition max_0 (v : value) : value :=
  match v with
  | VInt x => VInt (Z.max 0 x)
  | _ => v
  end.

(** [df[name]] as pandas sees it: the dtype of the column and its cells. *)
Definition columna (name : string) (df : DataFrame) : dtype * list value :=
  (match Frame.dtype_of name df with
   | Some d => d
   | None => object
   end,
   Frame.get_series name df).

(** [df['deployment_days'] = 0] *)
Definition deployment_days_cero (df : DataFrame) : DataFrame :=
  Frame.assign "deployment_days" int64 (repeat (VInt 0) (Frame.len df)) df.

Section DeploymentDays.

(** [pd.to_datetime(column, errors='coerce')] on one cell of a column:
    each call settles the format on the column it is given, so the same
    text may parse in one column and not in another; [None] is NaT. *)
Variable to_datetime : dtype * list value -> value -> option Timestamp.

(** Whether that call raises on the column. *)
Variable to_datetime_raises : dtype * list value -> bool.

(** Whether [(end - start).dt.days] raises on the two converted columns,
    as it does when one of them carries a time zone and the other does
    not. *)
Variable dias_raises : dtype * list value -> dtype * list value -> bool.

(** Seconds from the epoch to a timestamp. *)
Variable epoch_seconds : Timestamp -> Z.

(** [(end - start).dt.days] on one row: whole days, rounded down; NaN when
    either date is NaT. *)
Definition dt_days (sensor_start_date sensor_end_date : value) : value :=
  match sensor_start_date, sensor_end_date with
  | VTime s, VTime e => VInt ((epoch_seconds e - epoch_seconds s) / 86400)
  | _, _ => VNaN
  end.

(** [calcular_deployment_days], on a table whose labels are pairwise
    distinct. Inside the [try], either call of [pd.to_datetime] may raise,
    and so may the subtraction; the [except] branch then writes 0 on
    every row of the table as the statements before the exception left
    it. *)
Definition calcular_deployment_days (df : DataFrame) : DataFrame :=
  match
    primera_columna
      ["sensor_start_date"; "sensor_start_date_and_time"; "start_date"] df,
    primera_columna
      ["sensor_end_date"; "sensor_end_date_and_time"; "end_date"] df
  with
  | Some start_col, Some end_col =>
      let inicio := columna start_col df in
      if to_datetime_raises inicio then deployment_days_cero df
      else
        let df :=
          Frame.assign "sensor_start_date" datetime64
            (map (fun v => datetime_cell (to_datetime inicio v)) (snd inicio))
            df in
        let fin := columna end_col df in
        if to_datetime_raises fin then deployment_days_cero df
        else
          let df :=
            Frame.assign "sensor_end_date" datetime64
              (map (fun v => datetime_cell (to_datetime fin v)) (snd fin))
              df in
          if dias_raises inicio fin then deployment_days_cero df
          else
            let df :=
              Frame.assign "deployment_days" float64
                (Frame.zip_with dt_days
                   (Frame.get_series "sensor_start_date" df)
                   (Frame.get_series "sensor_end_date" df))
                df in
            let df :=
              Frame.assign "deployment_days" float64
                (map fillna_0 (Frame.get_series "deployment_days" df)) df in
            Frame.assign "deployment_days" int64
              (map max_0 (Frame.get_series "deployment_days" df)) df
  | _, _ => deployment_days_cero df
  end.

End DeploymentDays.

(** ** Column selection ([transformations.seleccionar_columnas_*]) *)

(** Every position at which a label occurs. *)
Fixpoint positions_from (i : nat) (name : string) (l : list string)
  : list nat :=
  match l with
  | [] => []
  | x :: r =>
      if (name =? x)%string then i :: positions_from (S i) name r
      else positions_from (S i) name r
  end.

(** [df[names]] for a list of labels that are all columns of the table:
    for each name in turn, the columns that carry it. *)
Definition select_columns (names : list string) (df : DataFrame)
  : DataFrame :=
  let idx :=
    flat_map (fun n => positions_from 0 n (Frame.labels df)) names in
  {| columns :=
       flat_map (fun j => match nth_error (columns df) j with
                          | Some c => [c]
                          | None => []
                          end) idx;
     rows :=
       map (fun r => mkRow (row_index r)
                           (map (fun j => Frame.cell_at j r) idx))
           (rows df) |}.

Definition columnas_observations : list string :=
  [ "project_id"; "project_name"; "Corporacion"; "subproject_name";
    "deployment_id"; "deployment_name"; "placename"; "latitude";
    "longitude";
    "sp_binomial"; "genus"; "species"; "class";
    "photo_datetime"; "photo_date"; "hour";
    "sensor_start_date"; "sensor_end_date"; "deployment_days";
    "project_admin" ].

(** [seleccionar_columnas_observations] *)
Definition seleccionar_columnas_observations (df : DataFrame) : DataFrame :=
  let columnas_existentes :=
    filter (fun col => Frame.has_column col df) columnas_observations in
  select_columns columnas_existentes df.

(** [df.drop_duplicates(subset=[name])] on a table whose labels are
    pairwise distinct. An empty table, without rows or without columns,
    comes back before [subset] is looked at; otherwise an absent label is
    the KeyError ([None]), and the first row of every key is kept, two
    keys being the same when the cells are: None, NaN and NaT are three
    different keys. *)
Definition drop_duplicates (name : string) (df : DataFrame)
  : option DataFrame :=
  if Frame.empty df then Some df
  else
    match Frame.position name (Frame.labels df) with
    | None => None
    | Some j =>
        Some {| columns := columns df;
                rows := Stats.unique
                          (fun r1 r2 => value_eqb (Frame.cell_at j r1)
                                                  (Frame.cell_at j r2))
                          (rows df) |}
    end.

Definition columnas_deployments : list string :=
  [ "deployment_id"; "deployment_name"; "project_id"; "project_name";
    "Corporacion"; "subproject_name"; "placename"; "latitude"; "longitude";
    "sensor_start_date"; "sensor_end_date"; "deployment_days" ].

(** [seleccionar_columnas_deployments] *)
Definition seleccionar_columnas_deployments (df : DataFrame)
  : option DataFrame :=
  let columnas_existentes :=
    filter (fun col => Frame.has_column col df) columnas_deployments in
  drop_duplicates "deployment_id" (select_columns columnas_existentes df).

(** ** Quality checks ([validation.py]) *)

Module Validation.

(** A count as a float: exact below 2^53. *)
Definition float_of_nat (n : nat) : PrimFloat.float :=
  PrimFloat.of_uint63 (Uint63.of_Z (Z.of_nat n)).

(** [(n / len(df)) * 100], in binary64 as Python computes it. *)
Definition porcentaje (n total : nat) : PrimFloat.float :=
  PrimFloat.mul (PrimFloat.div (float_of_nat n) (float_of_nat total))
                (float_of_nat 100).

(** [pct > umbral_pct] *)
Definition supera (pct umbral_pct : PrimFloat.float) : bool :=
  PrimFloat.ltb umbral_pct pct.

(** [df[columna].isna().sum()] *)
Definition n_nulos (columna : string) (df : DataFrame) : nat :=
  List.length (filter isna (Frame.get_series columna df)).

(** Whether a column ends up in [columnas_con_nulos_criticos]. *)
Definition nulos_criticos (df : DataFrame) (umbral_pct : PrimFloat.float)
                          (columna : string) : bool :=
  Frame.has_column columna df
  && (0 <? n_nulos columna df)%nat
  && supera (porcentaje (n_nulos columna df) (Frame.len df)) umbral_pct.

(** [validar_valores_nulos], on a table whose labels are pairwise
    distinct. *)
Definition validar_valores_nulos (df : DataFrame)
           (columnas_criticas : list string) (umbral_pct : PrimFloat.float)
  : bool :=
  match filter (nulos_criticos df umbral_pct) columnas_criticas with
  | [] => true
  | _ => false
  end.

(** The key of a row under [subset]: its cells in those columns. *)
Definition clave (subset : list string) (df : DataFrame) (r : Row)
  : list value :=
  flat_map (fun col => match Frame.position col (Frame.labels df) with
                       | Some j => [Frame.cell_at j r]
                       | None => []
                       end) subset.

(** Equality of two cells once pandas has factorized their column: the
    missing cells of a column all get the same code. *)
Definition key_eqb (a b : value) : bool :=
  (isna a && isna b) || value_eqb a b.

(** How [DataFrame.duplicated] compares the cells of two keys. Under a
    single key column it asks the column itself, which tells None, NaN
    and NaT apart; under several it factorizes each column first. *)
Definition cell_eqb (subset : list string) : value -> value -> bool :=
  match subset with
  | [_] => value_eqb
  | _ => key_eqb
  end.

Fixpoint clave_eqb (eqb : value -> value -> bool) (k1 k2 : list value)
  : bool :=
  match k1, k2 with
  | [], [] => true
  | a :: r1, b :: r2 => eqb a b && clave_eqb eqb r1 r2
  | _, _ => false
  end.

(** [df.duplicated(subset=subset, keep=False)] on a table whose labels
    are pairwise distinct: true on every row whose key some other row
    shares. *)
Definition duplicated_all (subset : list string) (df : DataFrame)
  : list bool :=
  let claves := map (clave subset df) (rows df) in
  map (fun k => (1 <? List.length
                        (filter (clave_eqb (cell_eqb subset) k) claves))%nat)
      claves.

(** [validar_duplicados] *)
Definition validar_duplicados (df : DataFrame) (columnas_clave : list string)
           (umbral_pct : PrimFloat.float) (modo_estricto : bool) : bool :=
  let columnas_existentes :=
    filter (fun col => Frame.has_column col df) columnas_clave in
  match columnas_existentes with
  | [] => true
  | _ =>
      let duplicados := duplicated_all columnas_existentes df in
      let n_duplicados := List.length (filter (fun b => b) duplicados) in
      if (0 <? n_duplicados)%nat
      then
        if modo_estricto then false
        else if supera (porcentaje n_duplicados (Frame.len df)) umbral_pct
             then false
             else true
      else true
  end.

(** One cell of [(df[columna] < val_min) | (df[columna] > val_max)] on a
    column of numbers or of dtype object: a comparison with a missing
    cell is false, a cell that is not a number raises. *)
Definition fuera_de_rango (val_min val_max : Z) (v : value) : option bool :=
  match v with
  | VInt x => Some ((x <? val_min) || (val_max <? x))
  | VNone | VNaN | VNaT => Some false
  | _ => None
  end.

(** The mask [(df[columna] < val_min) | (df[columna] > val_max)]. A
    datetime64 column cannot be compared with a number and an unordered
    categorical cannot be ordered at all: on both the comparison raises
    TypeError whatever the cells are. *)
Definition mascara_fuera_de_rango (df : DataFrame) (columna : string)
           (val_min val_max : Z) : option (list bool) :=
  match Frame.dtype_of columna df with
  | Some d =>
      if es_extension d then None
      else all_some (map (fuera_de_rango val_min val_max)
                         (Frame.get_series columna df))
  | None => None
  end.

(** The [for columna, (val_min, val_max) in validaciones_rango.items()]
    loop, threading [errores]. *)
Fixpoint revisar_rangos (df : DataFrame)
         (validaciones_rango : list (string * (Z * Z)))
         (errores : list string) : option (list string) :=
  match validaciones_rango with
  | [] => Some errores
  | (columna, (val_min, val_max)) :: resto =>
      if negb (Frame.has_column columna df)
      then revisar_rangos df resto errores
      else
        match mascara_fuera_de_rango df columna val_min val_max with
        | None => None
        | Some mask =>
            let valores_fuera_rango := Frame.loc_rows mask df in
            if (0 <? Frame.len valores_fuera_rango)%nat
            then revisar_rangos df resto (errores ++ [columna])%list
            else revisar_rangos df resto errores
        end
  end.

(** [validar_rangos_numericos], on a table whose labels are pairwise
    distinct; [None] when a comparison raises. *)
Definition validar_rangos_numericos (df : DataFrame)
           (validaciones_rango : list (string * (Z * Z))) : option bool :=
  match revisar_rangos df validaciones_rango [] with
  | None => None
  | Some [] => Some true
  | Some _ => Some false
  end.

(** Calendar order of two timestamps. *)
Fixpoint lex_ltb (a b : list Z) : bool :=
  match a, b with
  | x :: a', y :: b' => (x <? y) || ((x =? y) && lex_ltb a' b')
  | _, _ => false
  end.

Definition ts_fields (t : Timestamp) : list Z :=
  [ts_year t; ts_month t; ts_day t; ts_hour t; ts_minute t; ts_second t].

Definition ts_ltb (s e : Timestamp) : bool :=
  lex_ltb (ts_fields s) (ts_fields e).

(** One cell of [inicio > fin] on two columns without missing cells;
    [None] when the two cells cannot be compared. Timestamps carry no
    time zone. *)
Definition mayor_que (inicio fin : value) : option bool :=
  match inicio, fin with
  | VTime s, VTime e => Some (ts_ltb e s)
  | VInt x, VInt y => Some (y <? x)
  | VStr x, VStr y => Some (y <? x)%string
  | VDate a, VDate b =>
      Some (lex_ltb [d_year b; d_month b; d_day b]
                    [d_year a; d_month a; d_day a])
  | _, _ => None
  end.

(** [validar_consistencia_fechas], on a table whose labels are pairwise
    distinct and whose two columns are not categorical; [None] when the
    comparison raises. When both names are the same column,
    [df[[col, col]]] carries it twice, [df_valido[col]] is a table, the
    mask is a table of False, and indexing with it blanks the cells and
    keeps every row: the check fails as soon as one row has the date. *)
Definition validar_consistencia_fechas (df : DataFrame)
           (col_inicio col_fin : string) : option bool :=
  if negb (Frame.has_column col_inicio df)
     || negb (Frame.has_column col_fin df)
  then Some true
  else
    let df_valido := Frame.dropna [col_inicio; col_fin] df in
    if (Frame.len df_valido =? 0)%nat then Some true
    else if (col_inicio =? col_fin)%string then Some false
    else
      match all_some (Frame.zip_with mayor_que
                        (Frame.get_series col_inicio df_valido)
                        (Frame.get_series col_fin df_valido)) with
      | None => None
      | Some mask =>
          let fechas_inconsistentes := Frame.loc_rows mask df_valido in
          let n_inconsistentes := Frame.len fechas_inconsistentes in
          if (0 <? n_inconsistentes)%nat then Some false else Some true
      end.

(** [set(s.dropna().unique())] as the list of its members. *)
Definition valores (s : list value) : list value :=
  Stats.unique value_eqb (filter notna s).

(** [validar_referencias_cruzadas] *)
Definition validar_referencias_cruzadas (df_hijo df_padre : DataFrame)
           (col_fk col_pk : string) : bool :=
  if negb (Frame.has_column col_fk df_hijo) then true
  else if negb (Frame.has_column col_pk df_padre) then true
  else
    let valores_fk := valores (Frame.get_series col_fk df_hijo) in
    let valores_pk := valores (Frame.get_series col_pk df_padre) in
    let referencias_huerfanas :=
      filter (fun v => negb (Frame.isin valores_pk v)) valores_fk in
    match referencias_huerfanas with
    | [] => true
    | _ => false
    end.

End Validation.

(** ** Worked examples

    The tables and collaborators on which the concrete scenarios are run. *)

Definition ejemplo_columnas : list Column :=
  [mkColumn "photo_datetime" datetime64; mkColumn "subproject_name" object].

Definition ejemplo_fila_2019 : Row :=
  mkRow 0 [VTime (mkTimestamp 2019 1 1 0 0 0); VStr "2025_1"].

Definition ejemplo_fila_2024 : Row :=
  mkRow 1 [VTime (mkTimestamp 2024 6 1 0 0 0); VStr "2025_1"].

Definition ejemplo_fechas : DataFrame :=
  mkDataFrame ejemplo_columnas [ejemplo_fila_2019; ejemplo_fila_2024].

(** The same two captures with the code of the event stored with a blank
    in front of it. *)
Definition ejemplo_fila_relleno_2019 : Row :=
  mkRow 0 [VTime (mkTimestamp 2019 1 1 0 0 0); VStr " 2025_1"].

Definition ejemplo_fila_relleno_2024 : Row :=
  mkRow 1 [VTime (mkTimestamp 2024 6 1 0 0 0); VStr " 2025_1"].

Definition ejemplo_relleno : DataFrame :=
  mkDataFrame ejemplo_columnas
              [ejemplo_fila_relleno_2019; ejemplo_fila_relleno_2024].

Definition ejemplo_enteros : DataFrame :=
  mkDataFrame
    [mkColumn "project_id" int64; mkColumn "total_photos" int64;
     mkColumn "Corporacion" object]
    [mkRow 0 [VInt 2001; VInt 5000000000; VNone];
     mkRow 1 [VInt 2002; VInt 12; VNone];
     mkRow 2 [VInt 2003; VInt 7; VStr "CAR"]].

(** Example geometry: a jurisdiction is an open band of longitudes. *)
Definition banda : Type := (Q * Q)%type.

Definition within_banda (pt : Q * Q) (b : banda) : bool :=
  negb (Qle_bool (fst pt) (fst b)) && negb (Qle_bool (snd b) (fst pt)).

Definition ejemplo_cars : list (Car banda) :=
  [mkCar (Some "A") (0, 10)%Q; mkCar (Some "B") (10, 20)%Q].

Definition ejemplo_empate : list Deployment :=
  [mkDeployment 1 7 (Some 15%Q) (Some 4%Q);
   mkDeployment 2 7 (Some 1%Q) (Some 4%Q)].

Definition ejemplo_tres_a_uno : list Deployment :=
  [mkDeployment 1 7 (Some 15%Q) (Some 4%Q);
   mkDeployment 2 7 (Some 1%Q) (Some 4%Q);
   mkDeployment 3 7 (Some 2%Q) (Some 4%Q);
   mkDeployment 4 7 (Some 3%Q) (Some 4%Q);
   mkDeployment 5 7 None (Some 4%Q);
   mkDeployment 6 8 (Some 12%Q) None].

(** Stand-ins for the collaborators on which the examples of [main] run:
    a merge that keeps the image table, exports that succeed. *)
Definition ejemplo_imagenes (subproject : string) : DataFrame :=
  mkDataFrame
    [mkColumn "timestamp" object; mkColumn "genus" object;
     mkColumn "species" object; mkColumn "subproject_name" object]
    [mkRow 0 [VStr "2024-06-01 10:00:00"; VStr "Panthera"; VStr "onca";
              VStr subproject]].

Definition ejemplo_strptime (formato : string) (v : value)
  : option Timestamp :=
  if (formato =? "%Y-%m-%d %H:%M:%S")%string
  then match v with
       | VStr "2024-06-01 10:00:00" => Some (mkTimestamp 2024 6 1 10 0 0)
       | _ => None
       end
  else None.

Definition ejemplo_main (e : Entrada banda) : bool * list Etapa :=
  main to_numeric_decimal ejemplo_strptime (fun _ _ => false)
       to_datetime_identity banda within_banda
       (fun df => df) (fun images _ => images) (fun data _ => data)
       (fun _ => ejemplo_tres_a_uno) (fun data _ => data)
       (fun df => df) (fun df => df)
       (fun _ => true) (fun _ _ => true) (fun _ _ => true) e.

Definition ejemplo_entrada (subproject : string) : Entrada banda :=
  mkEntrada (Some (mkDataFrame [] [])) (Some (mkDataFrame [] []))
            (Some (ejemplo_imagenes subproject)) NotFound.

(** A merged table that carries both the raw timestamp and the parsed
    photo_datetime. *)
Definition ejemplo_fusion : DataFrame :=
  mkDataFrame
    [mkColumn "timestamp" object; mkColumn "photo_datetime" datetime64;
     mkColumn "deployment_id" object]
    [mkRow 0 [VStr "01/06/2024 10:00"; VTime (mkTimestamp 2024 6 1 10 0 0);
              VStr "CT-01"]].

(** Three deployments: the second has its dates the wrong way round,
    the third has no end date. *)
Definition ejemplo_despliegues : DataFrame :=
  mkDataFrame
    [mkColumn "deployment_id" object;
     mkColumn "sensor_start_date" datetime64;
     mkColumn "sensor_end_date" datetime64]
    [mkRow 0 [VStr "CT-01"; VTime (mkTimestamp 2024 1 10 0 0 0);
              VTime (mkTimestamp 2024 3 1 0 0 0)];
     mkRow 1 [VStr "CT-02"; VTime (mkTimestamp 2024 5 1 0 0 0);
              VTime (mkTimestamp 2024 4 1 0 0 0)];
     mkRow 2 [VStr "CT-03"; VTime (mkTimestamp 2024 5 1 0 0 0); VNaT]].

(** Stand-ins for [pd.to_datetime] on a column of texts: the format is
    the one the first cell is written in, year-month-day or
    month/day/year, and a cell in any other format is NaT. *)
Definition ejemplo_fecha (y m d : string) : option Timestamp :=
  match PyStr.int y, PyStr.int m, PyStr.int d with
  | Some y, Some m, Some d => Some (mkTimestamp y m d 0 0 0)
  | _, _, _ => None
  end.

Definition ejemplo_fecha_iso (s : string) : option Timestamp :=
  match String.get 4 s, String.get 7 s with
  | Some "-"%char, Some "-"%char =>
      if (String.length s =? 10)%nat
      then ejemplo_fecha (substring 0 4 s) (substring 5 2 s) (substring 8 2 s)
      else None
  | _, _ => None
  end.

Definition ejemplo_fecha_mdy (s : string) : option Timestamp :=
  match String.get 2 s, String.get 5 s with
  | Some "/"%char, Some "/"%char =>
      if (String.length s =? 10)%nat
      then ejemplo_fecha (substring 6 4 s) (substring 0 2 s) (substring 3 2 s)
      else None
  | _, _ => None
  end.

Definition ejemplo_to_datetime_columna (col : dtype * list value) (v : value)
  : option Timestamp :=
  match snd col, v with
  | VStr primero :: _, VStr s =>
      match ejemplo_fecha_iso primero with
      | Some _ => ejemplo_fecha_iso s
      | None => ejemplo_fecha_mdy s
      end
  | _, VTime t => Some t
  | _, _ => None
  end.

(** Days from 1970-01-01 to a day of the Gregorian calendar. *)
Definition dias_desde_epoca (y m d : Z) : Z :=
  let y := if m <=? 2 then y - 1 else y in
  let era := y / 400 in
  let yoe := y - era * 400 in
  let doy := (153 * (if 2 <? m then m - 3 else m + 9) + 2) / 5 + d - 1 in
  let doe := yoe * 365 + yoe / 4 - yoe / 100 + doy in
  era * 146097 + doe - 719468.

Definition ejemplo_epoch_seconds (t : Timestamp) : Z :=
  dias_desde_epoca (ts_year t) (ts_month t) (ts_day t) * 86400
  + ts_hour t * 3600 + ts_minute t * 60 + ts_second t.

(** Three deployments whose start and end dates are written in different
    formats, the third start date in the format of the end dates. *)
Definition ejemplo_sensores : DataFrame :=
  mkDataFrame
    [mkColumn "deployment_id" object;
     mkColumn "start_date" object; mkColumn "end_date" object]
    [mkRow 0 [VStr "CT-01"; VStr "2024-01-01"; VStr "01/02/2024"];
     mkRow 1 [VStr "CT-02"; VStr "2024-01-01"; VStr "01/06/2024"];
     mkRow 2 [VStr "CT-03"; VStr "01/02/2024"; VStr "01/06/2024"]].

(** Twenty-five stations, seven of them without a latitude. *)
Definition ejemplo_nulos : DataFrame :=
  mkDataFrame
    [mkColumn "latitude" float64]
    (map (fun i => mkRow (Z.of_nat i) [VNaN]) (seq 0 7)
     ++ map (fun i => mkRow (Z.of_nat i) [VInt 4]) (seq 7 18))%list.

(** Three keys of a column of dtype object: a text, None and NaN; and a
    place name that two of the rows share. *)
Definition ejemplo_claves : DataFrame :=
  mkDataFrame
    [mkColumn "deployment_id" object; mkColumn "placename" object]
    [mkRow 0 [VStr "a"; VStr "La Planada"];
     mkRow 1 [VNone; VStr "El Encanto"];
     mkRow 2 [VNaN; VStr "El Encanto"]].


(* ===================================================================== *)
(** * Part II. Properties                                                 *)
(* ===================================================================== *)

(** ** SubprojectNameValidator *)

Example validar_ejemplo_padded :
  validar_subproject_name (VStr " 2025_3 ") = true.
Proof. reflexivity. Qed.

(** A superscript two (U+00B2) passes [isdigit]; [int] refuses it in the
    year, and nothing reads the sequence as a number. *)
Example validar_ejemplo_superscript_year :
  validar_subproject_name
    (VStr ("20" ++ String (ascii_of_nat 178) "5_1")) = false.
Proof. reflexivity. Qed.

Example validar_ejemplo_superscript_sequence :
  validar_subproject_name
    (VStr ("2025_" ++ String (ascii_of_nat 178) "")) = true.
Proof. reflexivity. Qed.

Example str_timestamp :
  str (VTime (mkTimestamp 2019 1 1 0 0 0)) = "2019-01-01 00:00:00".
Proof. reflexivity. Qed.

(** C2. The validator accepts a text exactly when its stripped form has six
    characters, is neither empty nor "nan", carries an underscore at index 4,
    and splits at the underscore into a four-digit year of at least 2020 and
    a one-digit sequence; None, NaN and the text "nan" are rejected;
    "2025_1.2" and "2019_1" are rejected and "2025_1" is accepted. *)
Theorem validar_subproject_name_spec :
  (forall s : string,
     validar_subproject_name (VStr s) = true <->
     (let t := PyStr.strip s in
      String.length t = 6%nat /\ t <> "" /\ t <> "nan" /\
      String.get 4 t = Some "_"%char /\
      exists year_str num_str year,
        PyStr.split "_" t = [year_str; num_str] /\
        String.length year_str = 4%nat /\
        PyStr.isdigit year_str = true /\
        PyStr.int year_str = Some year /\ 2020 <= year /\
        String.length num_str = 1%nat /\
        PyStr.isdigit num_str = true))
  /\ validar_subproject_name VNone = false
  /\ validar_subproject_name VNaN = false
  /\ validar_subproject_name (VStr "nan") = false
  /\ validar_subproject_name (VStr "") = false
  /\ validar_subproject_name (VStr "2025_1.2") = false
  /\ validar_subproject_name (VStr "2019_1") = false
  /\ validar_subproject_name (VStr "2025_1") = true.
Proof.
  split; [| repeat split; reflexivity].
  intros s. unfold validar_subproject_name. cbn [isna str].
  set (t := PyStr.strip s). cbv zeta.
  split.
  - destruct (String.length t =? 6)%nat eqn:Hlen; cbn [negb]; [| discriminate].
    destruct ((t =? "nan")%string || (t =? "")%string) eqn:Hnan;
      [discriminate |].
    apply orb_false_elim in Hnan as [Hn He].
    destruct (String.get 4 t) as [c |] eqn:Hget; [| discriminate].
    destruct (Ascii.eqb c "_") eqn:Hc; cbn [negb]; [| discriminate].
    destruct (PyStr.split "_" t) as [| y [| n [| ? ?]]] eqn:Hsp;
      try discriminate.
    destruct (String.length y =? 4)%nat eqn:Hy; cbn [negb orb];
      [| discriminate].
    destruct (PyStr.isdigit y) eqn:Hyd; cbn [negb]; [| discriminate].
    destruct (String.length n =? 1)%nat eqn:Hnl; cbn [negb orb];
      [| discriminate].
    destruct (PyStr.isdigit n) eqn:Hnd; cbn [negb]; [| discriminate].
    destruct (PyStr.int y) as [year |] eqn:Hint; [| discriminate].
    destruct (year <? 2020) eqn:Hyear; [discriminate |].
    intros _.
    apply Ascii.eqb_eq in Hc. subst c.
    apply String.eqb_neq in Hn, He.
    apply Nat.eqb_eq in Hlen, Hy, Hnl.
    apply Z.ltb_ge in Hyear.
    repeat split; auto.
    exists y, n, year. repeat split; auto.
  - intros (Hlen & He & Hn & Hget & y & n & year & Hsp & Hy & Hyd & Hint
            & Hyear & Hnl & Hnd).
    rewrite Hlen. cbn [Nat.eqb negb].
    apply String.eqb_neq in Hn, He. rewrite Hn, He. cbn [orb].
    rewrite Hget. cbn [Ascii.eqb Bool.eqb negb]. rewrite Hsp.
    rewrite Hy, Hyd, Hnl, Hnd, Hint. cbn [Nat.eqb negb orb].
    apply Z.ltb_ge in Hyear. rewrite Hyear. reflexivity.
Qed.

(** C5. The sequence character is not confined to '1'..'9': the code
    "2025_0" is accepted, although the sequence is '0'. *)
Theorem validar_accepts_sequence_zero :
  validar_subproject_name (VStr "2025_0") = true
  /\ PyStr.split "_" "2025_0" = ["2025"; "0"].
Proof. split; reflexivity. Qed.

(** ** Tables *)

Module FrameFacts.
Import Frame.

Lemma take_where_map_filter {A : Type} (p : A -> bool) (l : list A) :
  take_where (map p l) l = filter p l.
Proof.
  induction l as [| x r IH]; cbn; [reflexivity |].
  rewrite IH. reflexivity.
Qed.

Lemma take_where_map_comm {A B : Type} (f : A -> B) (m : list bool)
      (l : list A) :
  map f (take_where m l) = take_where m (map f l).
Proof.
  revert l. induction m as [| b m IH]; intros [| x r]; cbn; try reflexivity.
  destruct b; cbn; rewrite IH; reflexivity.
Qed.

Lemma zip_with_map {A B C D : Type} (f : B -> C -> D) (g : A -> B)
      (h : A -> C) (l : list A) :
  zip_with f (map g l) (map h l) = map (fun x => f (g x) (h x)) l.
Proof.
  induction l as [| x r IH]; cbn; [reflexivity |].
  rewrite IH. reflexivity.
Qed.

Lemma zip_with_repeat_true {A : Type} (g : A -> bool) (l : list A) :
  zip_with andb (map g l) (repeat true (List.length l)) = map g l.
Proof.
  induction l as [| x r IH]; cbn; [reflexivity |].
  rewrite IH, andb_true_r. reflexivity.
Qed.

Lemma existsb_label_In (x : string) (l : list string) :
  existsb (String.eqb x) l = true <-> In x l.
Proof.
  rewrite existsb_exists. split.
  - intros (y & Hy & Heq). apply String.eqb_eq in Heq. subst. exact Hy.
  - intros H. exists x. split; [exact H | apply String.eqb_refl].
Qed.

Lemma position_of_In (name : string) (l : list string) :
  In name l -> exists j, position name l = Some j.
Proof.
  induction l as [| x r IH]; cbn; [tauto |].
  intros H. destruct (String.eqb name x) eqn:E; [eauto |].
  apply String.eqb_neq in E.
  destruct H as [H | H]; [congruence |].
  destruct (IH H) as [j Hj]. rewrite Hj. cbn. eauto.
Qed.

Lemma position_nth_error (name : string) (l : list string) (j : nat) :
  position name l = Some j -> nth_error l j = Some name.
Proof.
  revert j. induction l as [| x r IH]; cbn; intros j; [discriminate |].
  destruct (String.eqb name x) eqn:E.
  - intros [= <-]. apply String.eqb_eq in E. subst. reflexivity.
  - destruct (position name r) as [k |]; cbn; [| discriminate].
    intros [= <-]. cbn. apply IH. reflexivity.
Qed.

Lemma has_column_position (name : string) (df : DataFrame) :
  has_column name df = true ->
  exists j, position name (labels df) = Some j.
Proof.
  unfold has_column. intros H. apply position_of_In.
  apply existsb_label_In. exact H.
Qed.

Lemma position_has_column (name : string) (df : DataFrame) (j : nat) :
  position name (labels df) = Some j -> has_column name df = true.
Proof.
  intros H. unfold has_column. apply existsb_label_In.
  apply position_nth_error in H. eapply nth_error_In; eauto.
Qed.

Lemma get_series_position (name : string) (df : DataFrame) (j : nat) :
  position name (labels df) = Some j ->
  get_series name df = map (cell_at j) (rows df).
Proof. intros H. unfold get_series, series. rewrite H. reflexivity. Qed.

Lemma labels_set_dtype (j : nat) (d : dtype) (cs : list Column) :
  map label (set_dtype j d cs) = map label cs.
Proof.
  revert j. induction cs as [| c r IH]; intros [| j]; cbn;
    try reflexivity.
  rewrite IH. reflexivity.
Qed.

Lemma nth_error_set_dtype (j : nat) (d : dtype) (cs : list Column)
      (name : string) :
  nth_error (map label cs) j = Some name ->
  option_map col_dtype (nth_error (set_dtype j d cs) j) = Some d.
Proof.
  revert j. induction cs as [| c r IH]; intros [| j]; cbn;
    try discriminate; auto.
Qed.

Lemma duplicated_from_ext (s1 s2 l : list string) :
  (forall y, existsb (String.eqb y) s1 = existsb (String.eqb y) s2) ->
  duplicated_from s1 l = duplicated_from s2 l.
Proof.
  revert s1 s2. induction l as [| x r IH]; intros s1 s2 H; cbn;
    [reflexivity |].
  rewrite (H x). f_equal. apply IH. intros y. cbn. rewrite (H y).
  reflexivity.
Qed.


Lemma first_occurrences_In (x : string) (seen l : list string) :
  In x (first_occurrences seen l) <-> In x l /\ ~ In x seen.
Proof.
  unfold first_occurrences.
  revert seen. induction l as [| y r IH]; intros seen; cbn; [tauto |].
  destruct (existsb (String.eqb y) seen) eqn:E; cbn.
  - apply existsb_label_In in E. rewrite IH. cbn. intuition (subst; tauto).
  - assert (~ In y seen) as Hy
        by (rewrite <- existsb_label_In; congruence).
    rewrite IH. cbn.
    destruct (string_dec y x) as [-> | Hne]; intuition congruence.
Qed.

Lemma first_occurrences_no_duplicate (seen l : list string) :
  existsb (fun b => b) (duplicated_from seen (first_occurrences seen l))
  = false.
Proof.
  unfold first_occurrences.
  revert seen. induction l as [| y r IH]; intros seen; cbn; [reflexivity |].
  destruct (existsb (String.eqb y) seen) eqn:E; cbn.
  - rewrite (duplicated_from_ext seen (y :: seen)); [apply IH |].
    intros z. cbn. destruct (String.eqb z y) eqn:Ez; [| reflexivity].
    apply String.eqb_eq in Ez. subst. cbn. exact E.
  - rewrite E. cbn. apply IH.
Qed.

Lemma duplicated_from_NoDup (seen l : list string) :
  existsb (fun b => b) (duplicated_from seen l) = false <->
  NoDup l /\ forall x, In x l -> ~ In x seen.
Proof.
  revert seen. induction l as [| x l IH]; intros seen; cbn.
  - split; [intros _; split; [constructor | tauto] | reflexivity].
  - rewrite orb_false_iff, IH. split.
    + intros (Hx & Hnd & Hs). split.
      * constructor; [| exact Hnd]. intros Hin. apply (Hs x Hin).
        left. reflexivity.
      * intros y [<- | Hy].
        -- intros Hin. apply existsb_label_In in Hin. congruence.
        -- intros Hin. apply (Hs y Hy). right. exact Hin.
    + intros (Hnd & Hs). inversion Hnd as [| ? ? Hnx Hnd']; subst.
      split; [| split; [exact Hnd' |]].
      * destruct (existsb (String.eqb x) seen) eqn:E; [| reflexivity].
        apply existsb_label_In in E. exfalso.
        apply (Hs x); [left; reflexivity | exact E].
      * intros y Hy [<- | Hin]; [tauto |].
        apply (Hs y); [right; exact Hy | exact Hin].
Qed.

(** A table whose labels are pairwise distinct has no repeated label. *)
Lemma NoDup_not_duplicated (l : list string) :
  NoDup l -> existsb (fun b => b) (duplicated l) = false.
Proof.
  intros H. apply duplicated_from_NoDup. split; [exact H | tauto].
Qed.

End FrameFacts.

(** ** DateConsistencyFilter *)

Section DateFilterFacts.
Import Frame FrameFacts.

Variable to_numeric : string -> option Q.
Variable to_datetime : value -> option Timestamp.

Local Abbreviation filtrar :=
  (filtrar_fechas_inconsistentes to_numeric to_datetime).
Local Abbreviation consistente := (fecha_consistente to_numeric).

Lemma mask_valido_rows (cf cs : string) (df : DataFrame) :
  has_column cf df = true -> has_column cs df = true ->
  mask_valido to_numeric cf cs df = map (consistente cf cs df) (rows df).
Proof.
  intros Hf Hs.
  destruct (has_column_position _ _ Hf) as [jf Hjf].
  destruct (has_column_position _ _ Hs) as [js Hjs].
  unfold mask_valido.
  rewrite (get_series_position _ _ _ Hjf), (get_series_position _ _ _ Hjs).
  repeat (progress (rewrite ?map_map, ?zip_with_map)).
  apply map_ext. intros r.
  unfold fecha_consistente, capture_year, event_year.
  rewrite Hjf, Hjs. reflexivity.
Qed.

Lemma labels_loc_columns (keep : list bool) (df : DataFrame) :
  labels (loc_columns keep df) = take_where keep (labels df).
Proof. unfold labels, loc_columns. cbn. apply take_where_map_comm. Qed.

Lemma labels_drop_duplicated (df : DataFrame) :
  existsb (fun b => b) (duplicated (labels (drop_duplicated_columns df)))
  = false.
Proof.
  unfold drop_duplicated_columns.
  destruct (existsb (fun b => b) (duplicated (labels df))) eqn:E;
    [| exact E].
  rewrite labels_loc_columns.
  apply (first_occurrences_no_duplicate [] (labels df)).
Qed.

Lemma has_column_drop_duplicated (name : string) (df : DataFrame) :
  has_column name (drop_duplicated_columns df) = has_column name df.
Proof.
  unfold drop_duplicated_columns.
  destruct (existsb (fun b => b) (duplicated (labels df))); [| reflexivity].
  unfold has_column. rewrite labels_loc_columns.
  apply eq_true_iff_eq. rewrite !existsb_label_In.
  rewrite (first_occurrences_In name [] (labels df)). cbn. tauto.
Qed.

Lemma labels_assign_existing (name : string) (d : dtype)
      (vals : list value) (df : DataFrame) :
  has_column name df = true ->
  labels (assign name d vals df) = labels df.
Proof.
  intros H. destruct (has_column_position _ _ H) as [j Hj].
  unfold assign. rewrite Hj. unfold labels. cbn.
  apply labels_set_dtype.
Qed.

Lemma dtype_of_assign_existing (name : string) (d : dtype)
      (vals : list value) (df : DataFrame) :
  has_column name df = true ->
  dtype_of name (assign name d vals df) = Some d.
Proof.
  intros H. destruct (has_column_position _ _ H) as [j Hj].
  unfold dtype_of. rewrite (labels_assign_existing _ _ _ _ H), Hj.
  unfold assign. rewrite Hj. cbn.
  eapply nth_error_set_dtype. apply position_nth_error. exact Hj.
Qed.

Lemma labels_ensure_datetime (cf : string) (df : DataFrame) :
  has_column cf df = true ->
  labels (ensure_datetime to_datetime cf df) = labels df.
Proof.
  intros H. unfold ensure_datetime.
  destruct (dtype_of cf df) as [[] |];
    try reflexivity; apply labels_assign_existing; exact H.
Qed.

Lemma dtype_of_ensure_datetime (cf : string) (df : DataFrame) :
  has_column cf df = true ->
  dtype_of cf (ensure_datetime to_datetime cf df) = Some datetime64.
Proof.
  intros H. unfold ensure_datetime.
  destruct (dtype_of cf df) as [[] |] eqn:E;
    try (apply dtype_of_assign_existing; exact H).
  exact E.
Qed.

Lemma labels_preparar (cf : string) (df : DataFrame) :
  has_column cf df = true ->
  labels (preparar to_datetime cf df) = labels (drop_duplicated_columns df).
Proof.
  intros H. unfold preparar. apply labels_ensure_datetime.
  rewrite has_column_drop_duplicated. exact H.
Qed.

Lemma has_column_preparar (cf name : string) (df : DataFrame) :
  has_column cf df = true ->
  has_column name (preparar to_datetime cf df) = has_column name df.
Proof.
  intros H. unfold has_column at 1. rewrite (labels_preparar _ _ H).
  apply has_column_drop_duplicated.
Qed.

(** The filter, once both columns are known to be there. *)
Lemma filtrar_rows (df : DataFrame) (cf cs : string) :
  has_column cf df = true -> has_column cs df = true ->
  filtrar df cf cs =
  {| columns := columns (preparar to_datetime cf df);
     rows := filter (consistente cf cs (preparar to_datetime cf df))
                    (rows (preparar to_datetime cf df)) |}.
Proof.
  intros Hf Hs. unfold filtrar_fechas_inconsistentes.
  rewrite Hf, Hs. cbn [negb orb].
  fold (preparar to_datetime cf df).
  rewrite mask_valido_rows
    by (rewrite has_column_preparar; assumption).
  unfold loc_rows. rewrite take_where_map_filter. reflexivity.
Qed.

Lemma consistente_labels (cf cs : string) (df1 df2 : DataFrame) (r : Row) :
  labels df1 = labels df2 ->
  consistente cf cs df1 r = consistente cf cs df2 r.
Proof.
  intros H. unfold fecha_consistente, capture_year, event_year.
  rewrite H. reflexivity.
Qed.

Lemma preparar_fixed (cf : string) (df : DataFrame) :
  existsb (fun b => b) (duplicated (labels df)) = false ->
  dtype_of cf df = Some datetime64 ->
  preparar to_datetime cf df = df.
Proof.
  intros Hdup Hdt. unfold preparar, drop_duplicated_columns.
  rewrite Hdup. unfold ensure_datetime. rewrite Hdt. reflexivity.
Qed.

Lemma filter_idem {A : Type} (p : A -> bool) (l : list A) :
  filter p (filter p l) = filter p l.
Proof.
  induction l as [| x r IH]; cbn; [reflexivity |].
  destruct (p x) eqn:E; cbn; rewrite ?E, IH; reflexivity.
Qed.


Lemma consistente_iff (cf cs : string) (df : DataFrame) (r : Row) :
  consistente cf cs df r = true <->
  exists ye yc,
    event_year to_numeric cs df r = Some ye /\
    capture_year cf df r = Some yc /\
    (ye - inject_Z yc <= 1)%Q.
Proof.
  unfold fecha_consistente.
  destruct (event_year to_numeric cs df r) as [ye |],
           (capture_year cf df r) as [yc |]; cbn.
  - rewrite !andb_true_r, Qle_bool_iff. split.
    + intros H. exists ye, yc. auto.
    + intros (ye' & yc' & [= <-] & [= <-] & H). exact H.
  - split; [discriminate | intros (? & ? & _ & [=] & _)].
  - split; [discriminate | intros (? & ? & [=] & _)].
  - split; [discriminate | intros (? & ? & [=] & _)].
Qed.

(** What the filter keeps, in its own reading of the event year. With both
    columns present, it keeps exactly the rows whose event year (the
    number read from the first four characters of the cell as it is
    stored) and capture year (the year of photo_datetime) are both defined
    and satisfy event_year - capture_year <= 1: a row without a date or
    without a readable event year is dropped, and a row whose capture
    year is at least event_year - 1, however far ahead, is kept. For
    "2025_1" the row dated 2019-01-01 is dropped and the row dated
    2024-06-01 is kept. *)
Theorem filtrar_fechas_retains_exactly
        (H2025 : to_numeric "2025" = Some (inject_Z 2025)) :
  (forall (df : DataFrame) (cf cs : string),
      has_column cf df = true -> has_column cs df = true ->
      let p := preparar to_datetime cf df in
      let out := filtrar df cf cs in
      columns out = columns p
      /\ rows out = filter (consistente cf cs p) (rows p)
      /\ (forall r, In r (rows out) <->
            In r (rows p) /\
            exists ye yc,
              event_year to_numeric cs p r = Some ye /\
              capture_year cf p r = Some yc /\
              (ye - inject_Z yc <= 1)%Q)
      /\ (forall r, capture_year cf p r = None -> ~ In r (rows out))
      /\ (forall r, event_year to_numeric cs p r = None ->
                    ~ In r (rows out))
      /\ (forall r ye yc,
            In r (rows p) ->
            event_year to_numeric cs p r = Some ye ->
            capture_year cf p r = Some yc ->
            (ye - 1 <= inject_Z yc)%Q ->
            In r (rows out)))
  /\ (forall (df : DataFrame) (cf : string),
        existsb (fun b => b) (duplicated (labels df)) = false ->
        dtype_of cf df = Some datetime64 ->
        preparar to_datetime cf df = df)
  /\ filtrar ejemplo_fechas "photo_datetime" "subproject_name"
     = mkDataFrame ejemplo_columnas [ejemplo_fila_2024].
Proof.
  split; [| split].
  - intros df cf cs Hf Hs p out.
    assert (out = {| columns := columns p;
                     rows := filter (consistente cf cs p) (rows p) |})
      as Hout by (apply filtrar_rows; assumption).
    assert (forall r, In r (rows out) <->
              In r (rows p) /\ consistente cf cs p r = true) as Hin.
    { intros r. rewrite Hout. cbn [rows]. apply filter_In. }
    split; [rewrite Hout; reflexivity |].
    split; [rewrite Hout; reflexivity |].
    split; [| split; [| split]].
    + intros r. rewrite Hin, consistente_iff. reflexivity.
    + intros r Hnone Hr. apply Hin in Hr as [_ Hr].
      apply consistente_iff in Hr as (ye & yc & _ & Hc & _).
      congruence.
    + intros r Hnone Hr. apply Hin in Hr as [_ Hr].
      apply consistente_iff in Hr as (ye & yc & He & _).
      congruence.
    + intros r ye yc Hr He Hc Hle. apply Hin. split; [exact Hr |].
      apply consistente_iff. exists ye, yc. repeat split; auto.
      unfold Qminus in *.
      apply (Qplus_le_l _ _ (1 - inject_Z yc)%Q) in Hle.
      ring_simplify in Hle. ring_simplify. exact Hle.
  - intros df cf. apply preparar_fixed.
  - unfold filtrar_fechas_inconsistentes. cbn.
    unfold mask_valido. cbn. rewrite H2025. reflexivity.
Qed.

(** C1. The filter does not read the event year of the code where the
    code is stored with a blank in front of it. The validator accepts
    " 2025_1", the subproject filter hands the cell on as it is, and the
    date filter takes the first four characters, " 202": read as the
    number 202, the event year lies far behind every capture year, and
    the row of event 2025 dated 2019-01-01 is kept along with the row
    dated 2024-06-01. *)
Theorem filtrar_fechas_keeps_padded_code
        (H202 : to_numeric " 202" = Some (inject_Z 202)) :
  validar_subproject_name (VStr " 2025_1") = true
  /\ filtrar_por_subproject_valido ejemplo_relleno "subproject_name"
     = ejemplo_relleno
  /\ event_year to_numeric "subproject_name" ejemplo_relleno
                ejemplo_fila_relleno_2019 = Some (inject_Z 202)
  /\ capture_year "photo_datetime" ejemplo_relleno ejemplo_fila_relleno_2019
     = Some 2019
  /\ filtrar ejemplo_relleno "photo_datetime" "subproject_name"
     = ejemplo_relleno
  /\ In ejemplo_fila_relleno_2019
        (rows (filtrar ejemplo_relleno "photo_datetime" "subproject_name")).
Proof.
  assert (filtrar ejemplo_relleno "photo_datetime" "subproject_name"
          = ejemplo_relleno) as Hf.
  { unfold filtrar_fechas_inconsistentes. cbn.
    unfold mask_valido. cbn. rewrite H202. reflexivity. }
  split; [reflexivity |]. split; [reflexivity |].
  split; [unfold event_year; cbn; exact H202 |].
  split; [reflexivity |]. split; [exact Hf |].
  rewrite Hf. left. reflexivity.
Qed.

(** C7. The date-consistency filter is idempotent: applied to its own
    output it returns that output, columns and rows alike. *)
Theorem filtrar_idempotente (df : DataFrame) (cf cs : string) :
  filtrar (filtrar df cf cs) cf cs = filtrar df cf cs.
Proof.
  destruct (has_column cf df) eqn:Hf.
  2:{ unfold filtrar_fechas_inconsistentes at 2. rewrite Hf. cbn.
      unfold filtrar_fechas_inconsistentes. rewrite Hf. reflexivity. }
  destruct (has_column cs df) eqn:Hs.
  2:{ unfold filtrar_fechas_inconsistentes at 2. rewrite Hf, Hs. cbn.
      unfold filtrar_fechas_inconsistentes. rewrite Hf, Hs. reflexivity. }
  rewrite (filtrar_rows df cf cs Hf Hs).
  set (p := preparar to_datetime cf df).
  set (out := {| columns := columns p;
                 rows := filter (consistente cf cs p) (rows p) |}).
  assert (labels out = labels p) as Hl by reflexivity.
  assert (has_column cf out = true) as Hf'.
  { unfold has_column. rewrite Hl. fold (has_column cf p).
    unfold p. rewrite has_column_preparar; assumption. }
  assert (has_column cs out = true) as Hs'.
  { unfold has_column. rewrite Hl. fold (has_column cs p).
    unfold p. rewrite has_column_preparar; assumption. }
  assert (preparar to_datetime cf out = out) as Hfix.
  { apply preparar_fixed.
    - rewrite Hl. unfold p. rewrite (labels_preparar _ _ Hf).
      apply labels_drop_duplicated.
    - unfold dtype_of. cbn [columns out]. rewrite Hl.
      fold (dtype_of cf p). unfold p, preparar.
      apply dtype_of_ensure_datetime.
      rewrite has_column_drop_duplicated. exact Hf. }
  rewrite (filtrar_rows out cf cs Hf' Hs'). rewrite Hfix.
  unfold out at 1 3. cbn [columns rows]. unfold out. f_equal.
  rewrite (filter_ext _ (consistente cf cs p)).
  - apply filter_idem.
  - intros r. apply consistente_labels. exact Hl.
Qed.

End DateFilterFacts.

Lemma filtrar_fechas_retains_exactly_witness :
  to_numeric_decimal "2025" = Some (inject_Z 2025)
  /\ filtrar_fechas_inconsistentes to_numeric_decimal to_datetime_identity
       ejemplo_fechas "photo_datetime" "subproject_name"
     = mkDataFrame ejemplo_columnas [ejemplo_fila_2024].
Proof.
  split; [reflexivity |].
  apply (filtrar_fechas_retains_exactly
           to_numeric_decimal to_datetime_identity eq_refl).
Defined.

Lemma filtrar_fechas_keeps_padded_code_witness :
  to_numeric_blancos " 202" = Some (inject_Z 202)
  /\ filtrar_fechas_inconsistentes to_numeric_blancos to_datetime_identity
       ejemplo_relleno "photo_datetime" "subproject_name"
     = ejemplo_relleno
  /\ In ejemplo_fila_relleno_2019
        (rows (filtrar_fechas_inconsistentes
                 to_numeric_blancos to_datetime_identity
                 ejemplo_relleno "photo_datetime" "subproject_name")).
Proof.
  split; [reflexivity |].
  apply (filtrar_fechas_keeps_padded_code
           to_numeric_blancos to_datetime_identity eq_refl).
Defined.

(** ** Computer-vision cleaning *)

Section CvFacts.
Import Frame FrameFacts.

Lemma filter_filter_andb {A : Type} (p q : A -> bool) (l : list A) :
  filter q (filter p l) = filter (fun x => p x && q x) l.
Proof.
  induction l as [| x r IH]; cbn; [reflexivity |].
  destruct (p x); cbn; [destruct (q x) |]; rewrite IH; reflexivity.
Qed.

Lemma value_eqb_eq (a b : value) : value_eqb a b = true <-> a = b.
Proof.
  unfold value_eqb. destruct (value_eq_dec a b); split;
    congruence || discriminate.
Qed.

Lemma isin_cv_invalidos (v : value) :
  isin cv_invalidos v = false <->
  v <> VStr "No CV Result" /\ v <> VStr "Unknown".
Proof.
  unfold isin, cv_invalidos. cbn [existsb]. rewrite orb_false_r.
  rewrite orb_false_iff. rewrite <- !not_true_iff_false, !value_eqb_eq.
  reflexivity.
Qed.

Lemma cv_valido_iff (v : value) :
  cv_valido v = true <->
  isna v = false /\ v <> VStr "No CV Result" /\ v <> VStr "Unknown".
Proof.
  unfold cv_valido, notna.
  rewrite andb_true_iff, !negb_true_iff, isin_cv_invalidos. reflexivity.
Qed.

Lemma limpiar_rows (df : DataFrame) (jg js : nat) :
  position "genus" (labels df) = Some jg ->
  position "species" (labels df) = Some js ->
  limpiar_registros_cv df =
  {| columns := columns df;
     rows := filter (fun r => cv_valido (cell_at jg r)
                              && cv_valido (cell_at js r)) (rows df) |}.
Proof.
  intros Hg Hs. unfold limpiar_registros_cv.
  rewrite (position_has_column _ _ _ Hg), (position_has_column _ _ _ Hs).
  cbn [negb orb].
  assert (dropna ["genus"; "species"] df =
          {| columns := columns df;
             rows := filter (fun r => notna (cell_at jg r)
                                      && notna (cell_at js r)) (rows df) |})
    as Hclean.
  { unfold dropna, notna_all, loc_rows. cbn [fold_right].
    rewrite (get_series_position _ _ _ Hg), (get_series_position _ _ _ Hs).
    unfold len. rewrite !map_map.
    rewrite (zip_with_repeat_true (fun r => notna (cell_at js r))).
    rewrite zip_with_map, take_where_map_filter. reflexivity. }
  rewrite Hclean.
  set (clean := {| columns := columns df; rows := _ |}).
  assert (labels clean = labels df) as Hl by reflexivity.
  rewrite (get_series_position "genus" clean jg) by (rewrite Hl; exact Hg).
  rewrite (get_series_position "species" clean js) by (rewrite Hl; exact Hs).
  rewrite !map_map, zip_with_map.
  unfold loc_rows. rewrite take_where_map_filter.
  unfold clean. cbn [columns rows]. f_equal.
  rewrite filter_filter_andb. apply filter_ext. intros r.
  unfold cv_valido.
  destruct (notna (cell_at jg r)), (notna (cell_at js r)),
    (isin cv_invalidos (cell_at jg r)),
    (isin cv_invalidos (cell_at js r)); reflexivity.
Qed.

End CvFacts.

(** C9. The cleaning step returns the table unchanged when the genus or
    the species column is absent; otherwise, on a table whose labels are
    pairwise distinct, it keeps the columns, and its rows are the input
    rows, in order and untouched, whose genus and species are both present
    and neither "No CV Result" nor "Unknown". *)
Theorem limpiar_registros_cv_only_drops :
  (forall df : DataFrame,
      Frame.has_column "genus" df = false
      \/ Frame.has_column "species" df = false ->
      limpiar_registros_cv df = df)
  /\ (forall (df : DataFrame) (jg js : nat),
        NoDup (Frame.labels df) ->
        Frame.position "genus" (Frame.labels df) = Some jg ->
        Frame.position "species" (Frame.labels df) = Some js ->
        let out := limpiar_registros_cv df in
        columns out = columns df
        /\ rows out = filter (fun r => cv_valido (Frame.cell_at jg r)
                                       && cv_valido (Frame.cell_at js r))
                             (rows df)
        /\ incl (rows out) (rows df)
        /\ forall r, In r (rows out) ->
             isna (Frame.cell_at jg r) = false
             /\ Frame.cell_at jg r <> VStr "No CV Result"
             /\ Frame.cell_at jg r <> VStr "Unknown"
             /\ isna (Frame.cell_at js r) = false
             /\ Frame.cell_at js r <> VStr "No CV Result"
             /\ Frame.cell_at js r <> VStr "Unknown").
Proof.
  split.
  - intros df H. unfold limpiar_registros_cv.
    destruct H as [H | H]; rewrite H; cbn [negb orb];
      [| rewrite orb_true_r]; reflexivity.
  - intros df jg js _ Hg Hs out.
    assert (out = {| columns := columns df;
                     rows := filter (fun r => cv_valido (Frame.cell_at jg r)
                                              && cv_valido (Frame.cell_at js r))
                                    (rows df) |}) as Hout
        by (apply limpiar_rows; assumption).
    rewrite Hout. cbn [columns rows].
    repeat split; try (apply incl_filter).
    all: apply filter_In in H as [_ H];
      apply andb_true_iff in H as [H1 H2];
      apply cv_valido_iff in H1, H2; tauto.
Qed.

(** ** Dtype narrowing *)

Section OptimizarFacts.
Import Frame FrameFacts.

Lemma same_cell_refl (a : value) : same_cell a a.
Proof. unfold same_cell. destruct (isna a) eqn:E; auto. Qed.

Lemma same_cell_trans (a b c : value) :
  same_cell a b -> same_cell b c -> same_cell a c.
Proof.
  unfold same_cell. destruct (isna a) eqn:Ea.
  - intros ->. auto.
  - intros ->. rewrite Ea. auto.
Qed.

Lemma same_row_refl (r : Row) : same_row r r.
Proof. split; [reflexivity | intros; apply same_cell_refl]. Qed.

Lemma same_content_refl (df : DataFrame) : same_content df df.
Proof.
  split; [reflexivity |].
  induction (rows df); constructor; auto using same_row_refl.
Qed.

Lemma Forall2_trans_rows (l1 l2 l3 : list Row) :
  Forall2 same_row l1 l2 -> Forall2 same_row l2 l3 ->
  Forall2 same_row l1 l3.
Proof.
  intros H. revert l3. induction H as [| a b l1 l2 Hab _ IH];
    intros l3 H3; inversion H3; subst; constructor; auto.
  destruct Hab as [Hi Hc]. destruct H1 as [Hi' Hc'].
  split; [congruence |].
  intros j. eapply same_cell_trans; eauto.
Qed.

Lemma same_content_trans (a b c : DataFrame) :
  same_content a b -> same_content b c -> same_content a c.
Proof.
  intros [L1 R1] [L2 R2]. split; [congruence |].
  eapply Forall2_trans_rows; eauto.
Qed.

Lemma same_content_len (a b : DataFrame) :
  same_content a b -> len b = len a.
Proof.
  intros [_ R]. unfold len. symmetry. eapply Forall2_length; eauto.
Qed.

(** Cells after an assignment. *)
Lemma nth_set_nth_same {A : Type} (pad : A) (j : nat) (x : A)
      (l : list A) :
  nth j (set_nth pad j x l) pad = x.
Proof.
  revert l. induction j as [| j IH]; intros [| y r]; cbn; auto.
Qed.

Lemma nth_set_nth_other {A : Type} (pad : A) (j k : nat) (x : A)
      (l : list A) :
  k <> j -> nth k (set_nth pad j x l) pad = nth k l pad.
Proof.
  revert k l. induction j as [| j IH]; intros [| k] [| y r] H; cbn;
    try congruence; try reflexivity.
  - destruct k; reflexivity.
  - rewrite IH by congruence. destruct k; reflexivity.
  - apply IH. congruence.
Qed.

Lemma set_cells_map (j : nat) (f : Row -> value) (rs : list Row) :
  set_cells j (map f rs) rs = map (fun r => set_cell j (f r) r) rs.
Proof.
  induction rs as [| r rs IH]; cbn; [reflexivity |].
  rewrite IH. reflexivity.
Qed.

(** Rewriting one column cell by cell. *)
Lemma assign_map_same_content (col : string) (d : dtype)
      (g : value -> value) (df : DataFrame) (j : nat) :
  position col (labels df) = Some j ->
  (forall r, In r (rows df) ->
             same_cell (cell_at j r) (g (cell_at j r))) ->
  same_content df (assign col d (map g (get_series col df)) df).
Proof.
  intros Hj Hg. unfold assign. rewrite Hj.
  rewrite (get_series_position _ _ _ Hj), map_map, set_cells_map.
  split.
  - unfold labels. cbn. apply labels_set_dtype.
  - cbn [rows]. induction (rows df) as [| r rs IH]; cbn; constructor.
    + split; [reflexivity |]. intros k.
      destruct (Nat.eq_dec k j) as [-> | Hne].
      * unfold cell_at at 2. cbn. rewrite nth_set_nth_same.
        apply Hg. left. reflexivity.
      * unfold cell_at at 2. cbn. rewrite nth_set_nth_other by exact Hne.
        apply same_cell_refl.
    + apply IH. intros r' Hr'. apply Hg. right. exact Hr'.
Qed.

Lemma dtype_of_position (col : string) (df : DataFrame) (d : dtype) :
  dtype_of col df = Some d -> exists j, position col (labels df) = Some j.
Proof.
  unfold dtype_of. destruct (position col (labels df)) as [j |];
    [eauto | discriminate].
Qed.

Lemma astype_category_same (v : value) : same_cell v (astype_category v).
Proof. destruct v; cbn; reflexivity. Qed.

Lemma optimizar_categorica_same (col : string) (df : DataFrame) :
  len df <> 0%nat ->
  exists df', optimizar_categorica col df = Some df'
              /\ same_content df df'.
Proof.
  intros Hlen. unfold optimizar_categorica.
  destruct (dtype_of col df) as [[] |] eqn:Hd;
    try (eexists; split; [reflexivity | apply same_content_refl]).
  destruct (len df =? 0)%nat eqn:E; [apply Nat.eqb_eq in E; tauto |].
  destruct (negb _).
  - eexists. split; [reflexivity |].
    destruct (dtype_of_position _ _ _ Hd) as [j Hj].
    eapply assign_map_same_content; eauto.
    intros r _. apply astype_category_same.
  - eexists; split; [reflexivity | apply same_content_refl].
Qed.

Lemma for_each_categorica (cols : list string) (df : DataFrame) :
  len df <> 0%nat ->
  exists df', for_each_fallible optimizar_categorica cols df = Some df'
              /\ same_content df df'.
Proof.
  revert df. induction cols as [| c cs IH]; intros df Hlen; cbn.
  - eexists. split; [reflexivity | apply same_content_refl].
  - destruct (optimizar_categorica_same c df Hlen) as (d1 & H1 & S1).
    rewrite H1.
    destruct (IH d1) as (d2 & H2 & S2).
    + rewrite (same_content_len _ _ S1). exact Hlen.
    + exists d2. split; [exact H2 |].
      eapply same_content_trans; eauto.
Qed.

(** Bounds of an integer column. *)
Lemma fold_min_le (l : list Z) (a : Z) :
  fold_left Z.min l a <= a
  /\ forall z, In z l -> fold_left Z.min l a <= z.
Proof.
  revert a. induction l as [| y r IH]; intros a; cbn.
  - split; [lia | tauto].
  - destruct (IH (Z.min a y)) as [H1 H2]. split; [lia |].
    intros z [<- | Hz]; [lia | auto].
Qed.

Lemma fold_max_ge (l : list Z) (a : Z) :
  a <= fold_left Z.max l a
  /\ forall z, In z l -> z <= fold_left Z.max l a.
Proof.
  revert a. induction l as [| y r IH]; intros a; cbn.
  - split; [lia | tauto].
  - destruct (IH (Z.max a y)) as [H1 H2]. split; [lia |].
    intros z [<- | Hz]; [lia | auto].
Qed.

Lemma int_cells_In (z : Z) (s : list value) :
  In z (int_cells s) <-> In (VInt z) s.
Proof.
  unfold int_cells. rewrite in_flat_map. split.
  - intros (v & Hv & Hz). destruct v; cbn in Hz; try tauto.
    destruct Hz as [-> | []]. exact Hv.
  - intros H. exists (VInt z). cbn. auto.
Qed.

Lemma fits_int32_bounds (s : list value) (z : Z) :
  fits_int32 (series_min s) (series_max s) = true ->
  In (VInt z) s ->
  -2147483648 <= z <= 2147483647.
Proof.
  unfold fits_int32, series_min, series_max. intros H Hz.
  apply int_cells_In in Hz.
  destruct (int_cells s) as [| a r]; [discriminate |].
  apply andb_true_iff in H as [H1 H2].
  apply Z.leb_le in H1, H2.
  destruct (fold_min_le r a) as [M1 M2].
  destruct (fold_max_ge r a) as [X1 X2].
  destruct Hz as [<- | Hz]; [lia |].
  specialize (M2 z Hz). specialize (X2 z Hz). lia.
Qed.

Lemma wrap_int32_id (z : Z) :
  -2147483648 <= z <= 2147483647 -> wrap_int32 z = z.
Proof.
  intros H. unfold wrap_int32. rewrite Z.mod_small by lia. lia.
Qed.

Lemma optimizar_entera_same (col : string) (df : DataFrame) :
  same_content df (optimizar_entera col df).
Proof.
  unfold optimizar_entera.
  destruct (fits_int32 _ _) eqn:Hfit; [| apply same_content_refl].
  destruct (position col (labels df)) as [j |] eqn:Hj.
  - eapply assign_map_same_content; eauto.
    intros r Hr. destruct (cell_at j r) as [| | | | z | |] eqn:Hc;
      try apply same_cell_refl.
    cbn. rewrite wrap_int32_id; [reflexivity |].
    eapply fits_int32_bounds; [exact Hfit |].
    rewrite (get_series_position _ _ _ Hj). rewrite <- Hc.
    apply in_map. exact Hr.
  - unfold get_series, series in Hfit. rewrite Hj in Hfit.
    discriminate.
Qed.

Lemma fold_entera_same (cols : list string) (df : DataFrame) :
  same_content df (fold_left (fun d col => optimizar_entera col d) cols df).
Proof.
  revert df. induction cols as [| c cs IH]; intros df; cbn.
  - apply same_content_refl.
  - eapply same_content_trans; [apply optimizar_entera_same | apply IH].
Qed.

End OptimizarFacts.

Section NarrowingFacts.
Import Frame FrameFacts.

Lemma int_cells_same (j : nat) (l l' : list Row) :
  Forall2 same_row l l' ->
  int_cells (map (cell_at j) l') = int_cells (map (cell_at j) l).
Proof.
  induction 1 as [| r r' l l' [_ Hc] _ IH]; [reflexivity |].
  cbn [map int_cells flat_map] in *. unfold int_cells in IH. rewrite IH.
  f_equal. specialize (Hc j). unfold same_cell in Hc.
  destruct (cell_at j r); cbn in Hc; try (rewrite Hc; reflexivity);
    destruct (cell_at j r'); cbn in Hc; try discriminate; reflexivity.
Qed.

Lemma fits_same_content (col : string) (df df' : DataFrame) :
  same_content df df' ->
  fits_int32 (series_min (get_series col df'))
             (series_max (get_series col df'))
  = fits_int32 (series_min (get_series col df))
               (series_max (get_series col df)).
Proof.
  intros [Hl Hr]. unfold get_series, series. rewrite Hl.
  destruct (position col (labels df)) as [j |]; [| reflexivity].
  unfold series_min, series_max.
  rewrite (int_cells_same j _ _ Hr). reflexivity.
Qed.

Lemma position_append_head (name : string) (l1 l2 : list string)
      (j : nat) :
  position name l1 = Some j -> position name (l1 ++ l2)%list = Some j.
Proof.
  revert j. induction l1 as [| x r IH]; cbn; intros j; [discriminate |].
  destruct (String.eqb name x); [auto |].
  destruct (position name r) as [k |]; cbn; [| discriminate].
  intros [= <-]. rewrite (IH k eq_refl). reflexivity.
Qed.

Lemma nth_error_set_dtype_other (j k : nat) (d : dtype)
      (cs : list Column) :
  k <> j -> nth_error (set_dtype j d cs) k = nth_error cs k.
Proof.
  revert k cs. induction j as [| j IH]; intros [| k] [| c r] H; cbn;
    try congruence; try reflexivity.
  apply IH. congruence.
Qed.

Lemma position_injective (a b : string) (l : list string) (j : nat) :
  position a l = Some j -> position b l = Some j -> a = b.
Proof.
  intros Ha Hb. apply position_nth_error in Ha, Hb. congruence.
Qed.

Lemma dtype_of_assign_other (c col : string) (d : dtype)
      (vals : list value) (df : DataFrame) :
  has_column c df = true -> c <> col ->
  dtype_of col (assign c d vals df) = dtype_of col df.
Proof.
  intros Hc Hne. unfold dtype_of.
  rewrite (labels_assign_existing _ _ _ _ Hc).
  destruct (position col (labels df)) as [k |] eqn:Hk; [| reflexivity].
  destruct (has_column_position _ _ Hc) as [j Hj].
  unfold assign. rewrite Hj. cbn [columns].
  rewrite nth_error_set_dtype_other; [reflexivity |].
  intros ->. apply Hne. eapply position_injective; eauto.
Qed.

Lemma dtype_of_has_column (col : string) (df : DataFrame) (d : dtype) :
  dtype_of col df = Some d -> has_column col df = true.
Proof.
  intros H. destruct (dtype_of_position _ _ _ H) as [j Hj].
  eapply position_has_column; eauto.
Qed.

Lemma optimizar_categorica_int64 (c col : string) (df df' : DataFrame) :
  dtype_of col df = Some int64 ->
  optimizar_categorica c df = Some df' ->
  dtype_of col df' = Some int64.
Proof.
  intros Hcol. unfold optimizar_categorica.
  destruct (dtype_of c df) as [[] |] eqn:Hc;
    try (intros [= <-]; exact Hcol).
  destruct (len df =? 0)%nat; [discriminate |].
  destruct (negb _); intros [= <-]; [| exact Hcol].
  rewrite dtype_of_assign_other; [exact Hcol | |].
  - eapply dtype_of_has_column; eauto.
  - intros ->. congruence.
Qed.

Lemma for_each_categorica_int64 (cols : list string) (col : string)
      (df df' : DataFrame) :
  dtype_of col df = Some int64 ->
  for_each_fallible optimizar_categorica cols df = Some df' ->
  dtype_of col df' = Some int64.
Proof.
  revert df. induction cols as [| c cs IH]; intros df Hcol; cbn.
  - intros [= <-]. exact Hcol.
  - destruct (optimizar_categorica c df) as [d1 |] eqn:E; [| discriminate].
    apply IH. eapply optimizar_categorica_int64; eauto.
Qed.


Lemma fits_has_column (c : string) (d : DataFrame) :
  fits_int32 (series_min (get_series c d)) (series_max (get_series c d))
  = true ->
  has_column c d = true.
Proof.
  unfold get_series, series.
  destruct (position c (labels d)) as [j |] eqn:Hj.
  - intros _. eapply position_has_column; eauto.
  - cbn. discriminate.
Qed.

Lemma optimizar_entera_narrowed (c col : string) (df0 d : DataFrame) :
  same_content df0 d ->
  narrowed_if_fits col df0 d ->
  narrowed_if_fits col df0 (optimizar_entera c d).
Proof.
  intros Hs Hinv. unfold optimizar_entera.
  destruct (fits_int32 _ _) eqn:Hfit; [| exact Hinv].
  pose proof (fits_has_column _ _ Hfit) as Hc.
  destruct (string_dec c col) as [-> | Hne].
  - right. split; [apply dtype_of_assign_existing; exact Hc |].
    rewrite <- (fits_same_content col df0 d Hs). exact Hfit.
  - unfold narrowed_if_fits.
    rewrite (dtype_of_assign_other _ _ _ _ _ Hc Hne). exact Hinv.
Qed.

Lemma fold_entera_narrowed (cols : list string) (col : string)
      (df0 d : DataFrame) :
  same_content df0 d ->
  narrowed_if_fits col df0 d ->
  narrowed_if_fits col df0
    (fold_left (fun d col => optimizar_entera col d) cols d).
Proof.
  revert d. induction cols as [| c cs IH]; intros d Hs Hinv; cbn;
    [exact Hinv |].
  apply IH.
  - eapply same_content_trans; [exact Hs | apply optimizar_entera_same].
  - apply optimizar_entera_narrowed; assumption.
Qed.

End NarrowingFacts.

(** C10. On a table with at least one row and pairwise distinct labels,
    as the tables that reach the export have, the narrowing step returns a
    table with the same number of rows, the same labels in the same order
    and the same cells (a missing cell stays missing, any other cell keeps
    its value, an integer cell in particular); a column that goes from int64
    to int32 has its minimum and maximum inside the int32 range. *)
Theorem optimizar_tipos_datos_preserves_content (df : DataFrame) :
  rows df <> [] ->
  NoDup (Frame.labels df) ->
  exists df',
    optimizar_tipos_datos df = Some df'
    /\ Frame.len df' = Frame.len df
    /\ Frame.labels df' = Frame.labels df
    /\ Forall2 same_row (rows df) (rows df')
    /\ (forall i r r',
          nth_error (rows df) i = Some r ->
          nth_error (rows df') i = Some r' ->
          forall j z, Frame.cell_at j r = VInt z ->
                      Frame.cell_at j r' = VInt z)
    /\ (forall col,
          Frame.dtype_of col df = Some int64 ->
          Frame.dtype_of col df' = Some int32 ->
          fits_int32 (series_min (Frame.get_series col df))
                     (series_max (Frame.get_series col df)) = true).
Proof.
  intros Hne Hnd.
  assert (Frame.len df <> 0%nat) as Hlen.
  { unfold Frame.len. destruct (rows df); [congruence | discriminate]. }
  destruct (for_each_categorica (Frame.labels df) df Hlen) as (d1 & H1 & S1).
  unfold optimizar_tipos_datos.
  rewrite (FrameFacts.NoDup_not_duplicated _ Hnd), H1.
  set (df' := fold_left _ _ d1).
  assert (same_content df df') as S.
  { eapply same_content_trans; [exact S1 | apply fold_entera_same]. }
  exists df'. split; [reflexivity |].
  split; [apply same_content_len; exact S |].
  destruct S as [Sl Sr].
  split; [exact Sl |]. split; [exact Sr |]. split.
  - intros i r r' Hr Hr' j z Hz.
    assert (same_row r r') as [_ Hc].
    { clear - Sr Hr Hr'. revert i Hr Hr'.
      induction Sr as [| a b l l' Hab _ IH]; intros [| i] Hr Hr';
        cbn in *; try discriminate.
      - congruence.
      - eapply IH; eauto. }
    specialize (Hc j). unfold same_cell in Hc. rewrite Hz in Hc.
    exact Hc.
  - intros col H64 H32.
    assert (narrowed_if_fits col df df') as [H | [_ H]].
    { apply fold_entera_narrowed; [exact S1 |].
      left. eapply for_each_categorica_int64; eauto. }
    + congruence.
    + exact H.
Qed.

Lemma optimizar_tipos_datos_preserves_content_witness :
  rows ejemplo_enteros <> []
  /\ NoDup (Frame.labels ejemplo_enteros)
  /\ exists df', optimizar_tipos_datos ejemplo_enteros = Some df'
                 /\ Frame.labels df' = Frame.labels ejemplo_enteros.
Proof.
  assert (rows ejemplo_enteros <> []) as H by discriminate.
  assert (NoDup (Frame.labels ejemplo_enteros)) as Hnd.
  { apply (FrameFacts.duplicated_from_NoDup []). reflexivity. }
  split; [exact H |]. split; [exact Hnd |].
  destruct (optimizar_tipos_datos_preserves_content ejemplo_enteros H Hnd)
    as (df' & H1 & _ & H2 & _).
  exists df'. split; assumption.
Defined.

Example optimizar_ejemplo :
  optimizar_tipos_datos ejemplo_enteros =
  Some (mkDataFrame
          [mkColumn "project_id" int32; mkColumn "total_photos" int64;
           mkColumn "Corporacion" category]
          [mkRow 0 [VInt 2001; VInt 5000000000; VNaN];
           mkRow 1 [VInt 2002; VInt 12; VNaN];
           mkRow 2 [VInt 2003; VInt 7; VStr "CAR"]]).
Proof. vm_compute. reflexivity. Qed.

Example optimizar_sin_filas :
  optimizar_tipos_datos
    (mkDataFrame [mkColumn "Corporacion" object] []) = None.
Proof. reflexivity. Qed.

(** A repeated label stops the step, whatever the columns hold:
    [df_optimized[col]] is a table there and has no [dtype]. *)
Example optimizar_etiqueta_repetida :
  optimizar_tipos_datos
    (mkDataFrame [mkColumn "project_id" int64; mkColumn "project_id" int64]
                 [mkRow 0 [VInt 2001; VInt 2001]]) = None.
Proof. reflexivity. Qed.

(** ** TimestampNormalizer *)

Section TimestampFacts.
Variable strptime : string -> value -> option Timestamp.
Variable raises : string -> list value -> bool.
Variable to_datetime : value -> option Timestamp.

Lemma notna_sum_parsed (P : value -> option Timestamp) (col : list value) :
  (0 <? notna_sum (map (fun v => datetime_cell (P v)) col))%nat
  = existsb (fun v => is_some (P v)) col.
Proof.
  unfold notna_sum.
  induction col as [| v r IH]; cbn; [reflexivity |].
  destruct (P v); cbn; [reflexivity | exact IH].
Qed.

Lemma probar_formatos_first (col : list value) (formatos : list string) :
  forall tp fe,
    (tp = None \/ exists p, tp = Some p /\ notna_sum p = 0%nat) ->
    match find (formato_util strptime raises col) formatos with
    | Some formato =>
        probar_formatos strptime raises formatos col tp fe
        = (Some (map (fun v => datetime_cell (strptime formato v)) col),
           Some formato)
        /\ (0 <? notna_sum
                   (map (fun v => datetime_cell (strptime formato v)) col))%nat
           = true
    | None =>
        let tp' :=
          fst (probar_formatos strptime raises formatos col tp fe) in
        tp' = None \/ exists p, tp' = Some p /\ notna_sum p = 0%nat
    end.
Proof.
  induction formatos as [| f rest IH]; intros tp fe Htp; cbn [find].
  - exact Htp.
  - cbn [probar_formatos]. unfold formato_util at 1, to_datetime_format.
    destruct (raises f col) eqn:Hr; cbn [negb andb].
    + apply IH. exact Htp.
    + rewrite notna_sum_parsed.
      destruct (existsb (fun v => is_some (strptime f v)) col) eqn:He.
      * split; [reflexivity |]. rewrite notna_sum_parsed. exact He.
      * apply IH. right. eexists. split; [reflexivity |].
        pose proof (notna_sum_parsed (strptime f) col) as H.
        rewrite He in H. apply Nat.ltb_ge in H. lia.
Qed.

Lemma find_first {A : Type} (p : A -> bool) (pre post : list A) (x : A) :
  (forall y, In y pre -> p y = false) -> p x = true ->
  find p ((pre ++ x :: post)%list) = Some x.
Proof.
  induction pre as [| y r IH]; cbn; intros Hpre Hx.
  - rewrite Hx. reflexivity.
  - rewrite (Hpre y) by auto. apply IH; auto.
Qed.

Lemma find_none_all {A : Type} (p : A -> bool) (l : list A) :
  (forall y, In y l -> p y = false) -> find p l = None.
Proof.
  induction l as [| y r IH]; cbn; intros H; [reflexivity |].
  rewrite (H y) by auto. apply IH. auto.
Qed.

Lemma parse_timestamps_estrategia :
  forall col : list value,
    let parser := estrategia strptime raises to_datetime col in
    let parsed := parse_timestamps strptime raises to_datetime col in
    parsed = map (fun v => datetime_cell (parser v)) col
    /\ (forall i v, nth_error col i = Some v ->
          nth_error parsed i
          = Some (match parser v with Some t => VTime t | None => VNaT end))
    /\ (forall pre formato post,
          formatos_fecha = (pre ++ formato :: post)%list ->
          (forall g, In g pre ->
                     formato_util strptime raises col g = false) ->
          formato_util strptime raises col formato = true ->
          parser = strptime formato)
    /\ ((forall g, In g formatos_fecha ->
                   formato_util strptime raises col g = false) ->
        parser = to_datetime).
Proof.
  intros col parser parsed.
  assert (parsed = map (fun v => datetime_cell (parser v)) col) as Heq.
  { unfold parsed, parser, parse_timestamps, estrategia.
    pose proof (probar_formatos_first col formatos_fecha None None
                                      (or_introl eq_refl)) as H.
    destruct (find (formato_util strptime raises col) formatos_fecha)
      as [f |].
    - destruct H as [H1 H2]. rewrite H1. cbn [fst].
      apply Nat.ltb_lt in H2.
      destruct (notna_sum _ =? 0)%nat eqn:E; [| reflexivity].
      apply Nat.eqb_eq in E. lia.
    - cbv zeta in H. destruct H as [H | (p & H & Hz)]; rewrite H;
        [reflexivity |].
      rewrite Hz. reflexivity. }
  split; [exact Heq |]. split; [| split].
  - intros i v Hi. rewrite Heq.
    rewrite nth_error_map, Hi. reflexivity.
  - intros pre f post Hsplit Hpre Hf. unfold parser, estrategia.
    rewrite Hsplit, (find_first _ pre post f Hpre Hf). reflexivity.
  - intros Hall. unfold parser, estrategia.
    rewrite (find_none_all _ _ Hall). reflexivity.
Qed.

End TimestampFacts.

Section AssignFacts.
Import Frame FrameFacts.

Lemma length_set_cells (j : nat) (vals : list value) (rs : list Row) :
  List.length (set_cells j vals rs) = List.length rs.
Proof.
  revert rs. induction vals as [| v vs IH]; intros [| r rs]; cbn;
    try reflexivity.
  rewrite IH. reflexivity.
Qed.

Lemma len_assign (name : string) (d : dtype) (vals : list value)
      (df : DataFrame) :
  len (assign name d vals df) = len df.
Proof.
  unfold len, assign.
  destruct (position name (labels df)); cbn; apply length_set_cells.
Qed.

Lemma cell_at_set_cell_same (j : nat) (v : value) (r : Row) :
  cell_at j (set_cell j v r) = v.
Proof. unfold cell_at, set_cell. cbn. apply nth_set_nth_same. Qed.

Lemma cell_at_set_cell_other (j k : nat) (v : value) (r : Row) :
  k <> j -> cell_at k (set_cell j v r) = cell_at k r.
Proof.
  intros H. unfold cell_at, set_cell. cbn.
  apply nth_set_nth_other. exact H.
Qed.

Lemma map_cell_set_cells_same (j : nat) (vals : list value)
      (rs : list Row) :
  List.length vals = List.length rs ->
  map (cell_at j) (set_cells j vals rs) = vals.
Proof.
  revert rs. induction vals as [| v vs IH]; intros [| r rs];
    cbn [map set_cells List.length]; try discriminate; try reflexivity.
  intros [= H]. rewrite cell_at_set_cell_same, IH by exact H.
  reflexivity.
Qed.

Lemma map_cell_set_cells_other (j k : nat) (vals : list value)
      (rs : list Row) :
  k <> j ->
  map (cell_at k) (set_cells j vals rs) = map (cell_at k) rs.
Proof.
  intros Hne. revert rs.
  induction vals as [| v vs IH]; intros [| r rs];
    cbn [map set_cells]; try reflexivity.
  rewrite cell_at_set_cell_other by exact Hne. rewrite IH. reflexivity.
Qed.

Lemma position_bound (name : string) (l : list string) (j : nat) :
  position name l = Some j -> (j < List.length l)%nat.
Proof.
  intros H. apply position_nth_error in H.
  apply nth_error_Some. congruence.
Qed.

Lemma position_append_new (name : string) (l : list string) :
  position name l = None ->
  position name (l ++ [name])%list = Some (List.length l).
Proof.
  induction l as [| x r IH]; cbn.
  - rewrite String.eqb_refl. reflexivity.
  - destruct (String.eqb name x); [discriminate |].
    destruct (position name r); [discriminate |].
    intros _. rewrite IH by reflexivity. reflexivity.
Qed.

Lemma position_append_absent (name c : string) (l : list string) :
  name <> c -> position name l = None ->
  position name (l ++ [c])%list = None.
Proof.
  intros Hne. induction l as [| x r IH]; cbn.
  - apply String.eqb_neq in Hne. rewrite Hne. reflexivity.
  - destruct (String.eqb name x); [discriminate |].
    destruct (position name r); [discriminate |].
    intros _. rewrite IH by reflexivity. reflexivity.
Qed.

Lemma labels_assign_new (name : string) (d : dtype) (vals : list value)
      (df : DataFrame) :
  position name (labels df) = None ->
  labels (assign name d vals df) = (labels df ++ [name])%list.
Proof.
  intros H. unfold assign. rewrite H. unfold labels. cbn.
  rewrite map_app. reflexivity.
Qed.

Lemma get_series_assign_same (name : string) (d : dtype)
      (vals : list value) (df : DataFrame) :
  List.length vals = len df ->
  get_series name (assign name d vals df) = vals.
Proof.
  intros Hlen. destruct (position name (labels df)) as [j |] eqn:Hj.
  - rewrite (get_series_position name _ j).
    + unfold assign. rewrite Hj. cbn [rows].
      apply map_cell_set_cells_same. exact Hlen.
    + rewrite labels_assign_existing by (eapply position_has_column; eauto).
      exact Hj.
  - rewrite (get_series_position name _ (List.length (columns df))).
    + unfold assign. rewrite Hj. cbn [rows].
      apply map_cell_set_cells_same. exact Hlen.
    + rewrite (labels_assign_new _ _ _ _ Hj).
      rewrite (position_append_new _ _ Hj). unfold labels.
      rewrite length_map. reflexivity.
Qed.

Lemma get_series_assign_other (name c : string) (d : dtype)
      (vals : list value) (df : DataFrame) :
  name <> c ->
  get_series name (assign c d vals df) = get_series name df.
Proof.
  intros Hne. unfold get_series, series.
  destruct (position c (labels df)) as [j |] eqn:Hj.
  - rewrite labels_assign_existing by (eapply position_has_column; eauto).
    destruct (position name (labels df)) as [k |] eqn:Hk; [| reflexivity].
    unfold assign. rewrite Hj. cbn [rows].
    rewrite map_cell_set_cells_other; [reflexivity |].
    intros ->. apply Hne. eapply position_injective; eauto.
  - rewrite (labels_assign_new _ _ _ _ Hj).
    destruct (position name (labels df)) as [k |] eqn:Hk.
    + rewrite (position_append_head _ _ _ _ Hk).
      unfold assign. rewrite Hj. cbn [rows].
      rewrite map_cell_set_cells_other; [reflexivity |].
      apply position_bound in Hk. unfold labels in Hk.
      rewrite length_map in Hk. lia.
    + rewrite (position_append_absent _ _ _ Hne Hk). reflexivity.
Qed.

End AssignFacts.

Section ProcesarFacts.
Variable strptime : string -> value -> option Timestamp.
Variable raises : string -> list value -> bool.
Variable to_datetime : value -> option Timestamp.

Lemma procesar_timestamps_photo_datetime (df : DataFrame) :
  Frame.has_column "timestamp" df = true ->
  Frame.get_series "photo_datetime"
    (procesar_timestamps strptime raises to_datetime df "timestamp")
  = parse_timestamps strptime raises to_datetime
      (Frame.get_series "timestamp" df).
Proof.
  intros H. unfold procesar_timestamps. rewrite H. cbn [negb].
  repeat (rewrite get_series_assign_other by discriminate).
  apply get_series_assign_same.
  rewrite len_assign.
  destruct (parse_timestamps_estrategia strptime raises to_datetime
              (Frame.get_series "timestamp" df)) as [Heq _].
  cbv zeta in Heq. rewrite Heq, length_map.
  destruct (FrameFacts.has_column_position _ _ H) as [j Hj].
  rewrite (FrameFacts.get_series_position _ _ _ Hj), length_map.
  reflexivity.
Qed.

Lemma procesar_timestamps_absent (df : DataFrame) (columna : string) :
  Frame.has_column columna df = false ->
  procesar_timestamps strptime raises to_datetime df columna = df.
Proof. intros H. unfold procesar_timestamps. rewrite H. reflexivity. Qed.

End ProcesarFacts.

(** C6. The whole column is read with one parser: the first format of the
    fixed list for which the call returns and reads at least one cell, and
    the format-inferring parser only when no format of the list does. Each
    cell of the published column is the timestamp that parser reads in the
    corresponding input cell, or NaT when it reads none. *)
Theorem procesar_timestamps_one_parser_per_column :
  forall (strptime : string -> value -> option Timestamp)
         (raises : string -> list value -> bool)
         (to_datetime : value -> option Timestamp),
    (forall col : list value,
        let parser := estrategia strptime raises to_datetime col in
        let parsed := parse_timestamps strptime raises to_datetime col in
        parsed = map (fun v => datetime_cell (parser v)) col
        /\ (forall i v, nth_error col i = Some v ->
              nth_error parsed i
              = Some (match parser v with
                      | Some t => VTime t
                      | None => VNaT
                      end))
        /\ (forall pre formato post,
              formatos_fecha = (pre ++ formato :: post)%list ->
              (forall g, In g pre ->
                         formato_util strptime raises col g = false) ->
              formato_util strptime raises col formato = true ->
              parser = strptime formato)
        /\ ((forall g, In g formatos_fecha ->
                       formato_util strptime raises col g = false) ->
            parser = to_datetime))
    /\ (forall df : DataFrame,
          Frame.has_column "timestamp" df = true ->
          Frame.get_series "photo_datetime"
            (procesar_timestamps strptime raises to_datetime df "timestamp")
          = parse_timestamps strptime raises to_datetime
              (Frame.get_series "timestamp" df))
    /\ (forall (df : DataFrame) (columna : string),
          Frame.has_column columna df = false ->
          procesar_timestamps strptime raises to_datetime df columna = df).
Proof.
  intros strptime raises to_datetime. split; [| split].
  - intros col. apply parse_timestamps_estrategia.
  - apply procesar_timestamps_photo_datetime.
  - apply procesar_timestamps_absent.
Qed.

(** ** JurisdictionAssigner *)

Module StatsFacts.
Import Stats.

Lemma leb_refl (s : string) : (s <=? s)%string = true.
Proof.
  unfold String.leb.
  destruct (String.compare s s) eqn:E; try reflexivity.
  pose proof (String.compare_antisym s s) as H. rewrite E in H.
  discriminate.
Qed.

Lemma leb_cases (a b : string) :
  (a <=? b)%string = true <-> a = b \/ String_as_OT.lt a b.
Proof.
  unfold String.leb. split.
  - destruct (String.compare a b) eqn:E; intros H; try discriminate.
    + left. apply String.compare_eq_iff. exact E.
    + right. apply String_as_OT.cmp_lt. exact E.
  - intros [-> | H].
    + apply leb_refl.
    + apply String_as_OT.cmp_lt in H. unfold String_as_OT.cmp in H.
      rewrite H. reflexivity.
Qed.

Lemma leb_trans (a b c : string) :
  (a <=? b)%string = true -> (b <=? c)%string = true ->
  (a <=? c)%string = true.
Proof.
  rewrite !leb_cases. intros [-> | H1] [-> | H2]; auto.
  right. eapply String_as_OT.lt_trans; eauto.
Qed.

Lemma insert_sorted_In (s x : string) (l : list string) :
  In x (insert_sorted s l) <-> x = s \/ In x l.
Proof.
  induction l as [| y r IH]; cbn; [intuition |].
  destruct (s <=? y)%string; cbn; [intuition |].
  rewrite IH. intuition.
Qed.

Lemma sort_In (x : string) (l : list string) : In x (sort l) <-> In x l.
Proof.
  unfold sort. induction l as [| y r IH]; cbn; [tauto |].
  rewrite insert_sorted_In, IH. intuition.
Qed.


Lemma insert_sorted_head_least (s : string) (l : list string) :
  head_least l -> head_least (insert_sorted s l).
Proof.
  destruct l as [| y r]; cbn.
  - intros _ x [<- | []]. apply leb_refl.
  - intros H. destruct (s <=? y)%string eqn:E; cbn.
    + intros x [<- | Hx]; [apply leb_refl |].
      eapply leb_trans; [exact E | apply H; exact Hx].
    + intros x [<- | Hx]; [apply leb_refl |].
      apply insert_sorted_In in Hx as [-> | Hx].
      * destruct (String.leb_total y s) as [T | T]; congruence.
      * apply H. right. exact Hx.
Qed.

Lemma sort_head_least (l : list string) : head_least (sort l).
Proof.
  unfold sort. induction l as [| y r IH]; cbn; [exact I |].
  apply insert_sorted_head_least. exact IH.
Qed.

Section Unique.
Context {A : Type} (eqb : A -> A -> bool).
Hypothesis eqb_eq : forall a b, eqb a b = true <-> a = b.

Lemma existsb_eqb_In (x : A) (l : list A) :
  existsb (eqb x) l = true <-> In x l.
Proof.
  rewrite existsb_exists. split.
  - intros (y & Hy & Heq). apply eqb_eq in Heq. subst. exact Hy.
  - intros H. exists x. split; [exact H | apply eqb_eq; reflexivity].
Qed.

Lemma unique_from_In (x : A) (seen l : list A) :
  In x (unique_from eqb seen l) <-> In x l /\ ~ In x seen.
Proof.
  revert seen. induction l as [| y r IH]; intros seen; cbn; [tauto |].
  destruct (existsb (eqb y) seen) eqn:E.
  - apply existsb_eqb_In in E. rewrite IH. intuition (subst; tauto).
  - assert (~ In y seen) as Hy
        by (rewrite <- existsb_eqb_In; congruence).
    cbn. rewrite IH. cbn. split.
    + intros [<- | [H1 H2]]; [tauto |]. tauto.
    + intros [[<- | H1] H2]; [tauto |].
      destruct (eqb y x) eqn:Exy.
      * apply eqb_eq in Exy. tauto.
      * right. split; [exact H1 |]. intros [<- | H3]; [| tauto].
        assert (eqb y y = true) by (apply eqb_eq; reflexivity).
        congruence.
Qed.

Lemma unique_In (x : A) (l : list A) : In x (unique eqb l) <-> In x l.
Proof. unfold unique. rewrite unique_from_In. cbn. tauto. Qed.

Lemma unique_from_NoDup (seen l : list A) :
  NoDup (unique_from eqb seen l).
Proof.
  revert seen. induction l as [| y r IH]; intros seen; cbn;
    [constructor |].
  destruct (existsb (eqb y) seen); [apply IH |].
  constructor; [| apply IH].
  rewrite unique_from_In. cbn. tauto.
Qed.

Lemma unique_NoDup (l : list A) : NoDup (unique eqb l).
Proof. apply unique_from_NoDup. Qed.
End Unique.

Lemma count_le_max (s : string) (l : list string) :
  (count s l <= max_count l)%nat.
Proof.
  destruct (in_dec string_dec s l) as [Hin | Hout].
  - unfold max_count.
    assert (forall (f : string -> nat) (k : list string),
               In s k -> (f s <= fold_right Nat.max O (map f k))%nat) as H.
    { intros f k. induction k as [| y r IH]; cbn [map fold_right In];
        [tauto |].
      intros [-> | Hk]; [lia | specialize (IH Hk); lia]. }
    apply (H (fun s => count s l)). exact Hin.
  - unfold count. apply (count_occ_not_In string_dec) in Hout.
    rewrite Hout. lia.
Qed.

Lemma fold_max_attained {A : Type} (f : A -> nat) (k : list A) :
  k <> [] -> exists s, In s k /\ f s = fold_right Nat.max O (map f k).
Proof.
  induction k as [| y r IH]; intros Hne; [congruence |].
  destruct r as [| z r'].
  - exists y. cbn [map fold_right In]. split; [auto | lia].
  - destruct (IH ltac:(discriminate)) as (s & Hs & Hf).
    cbn [map fold_right] in *.
    destruct (Nat.max_spec (f y)
                (Nat.max (f z) (fold_right Nat.max 0%nat (map f r'))))
      as [[_ ->] | [_ ->]].
    + exists s. split; [right; exact Hs | exact Hf].
    + exists y. split; [left; reflexivity | reflexivity].
Qed.

Lemma max_count_attained (l : list string) :
  l <> [] -> exists s, In s l /\ count s l = max_count l.
Proof. apply (fold_max_attained (fun s => count s l)). Qed.

Lemma dropna_In (s : string) (x : list (option string)) :
  In s (dropna x) <-> In (Some s) x.
Proof.
  unfold dropna. rewrite in_flat_map. split.
  - intros ([t |] & Ho & Hs); cbn in Hs; [| tauto].
    destruct Hs as [-> | []]. exact Ho.
  - intros H. exists (Some s). cbn. auto.
Qed.

Lemma dropna_nil (x : list (option string)) :
  dropna x = [] <-> forall o, In o x -> o = None.
Proof.
  split.
  - intros H [s |] Ho; [| reflexivity].
    apply dropna_In in Ho. rewrite H in Ho. destruct Ho.
  - intros H. destruct (dropna x) as [| s r] eqn:E; [reflexivity |].
    assert (In s (dropna x)) as Hs by (rewrite E; left; reflexivity).
    apply dropna_In, H in Hs. discriminate.
Qed.

Lemma mode_In (m : string) (x : list (option string)) :
  In m (mode x) <->
  In m (dropna x) /\ count m (dropna x) = max_count (dropna x).
Proof.
  unfold mode. rewrite sort_In, filter_In, (unique_In _ String.eqb_eq), Nat.eqb_eq.
  reflexivity.
Qed.

Lemma moda_some (x : list (option string)) (m : string) :
  moda x = Some m ->
  In (Some m) x
  /\ (forall s, (count s (dropna x) <= count m (dropna x))%nat)
  /\ (forall s, In (Some s) x ->
                count s (dropna x) = count m (dropna x) ->
                (m <=? s)%string = true).
Proof.
  unfold moda. pose proof (sort_head_least
    (filter (fun s => (count s (dropna x) =? max_count (dropna x))%nat)
            (unique String.eqb (dropna x)))) as Hleast.
  fold (mode x) in Hleast.
  destruct (mode x) as [| m' rest] eqn:E; [discriminate |].
  intros [= ->].
  assert (In m (mode x)) as Hm by (rewrite E; left; reflexivity).
  apply mode_In in Hm as [Hin Hmax].
  split; [apply dropna_In; exact Hin |]. split.
  - intros s. rewrite Hmax. apply count_le_max.
  - intros s Hs Hc. unfold head_least in Hleast. apply Hleast.
    rewrite <- E. apply mode_In. split; [apply dropna_In; exact Hs |].
    congruence.
Qed.

Lemma moda_none (x : list (option string)) :
  moda x = None <-> forall o, In o x -> o = None.
Proof.
  rewrite <- dropna_nil. unfold moda. split.
  - destruct (mode x) as [| m rest] eqn:E; [| discriminate].
    intros _. destruct (dropna x) as [| s r] eqn:D; [reflexivity |].
    destruct (max_count_attained (dropna x)) as (t & Ht & Hc);
      [rewrite D; discriminate |].
    assert (In t (mode x)) as Hm by (apply mode_In; auto).
    rewrite E in Hm. destruct Hm.
  - intros H. unfold mode. rewrite H. reflexivity.
Qed.

Lemma moda_majority (x : list (option string)) (m : string) :
  In (Some m) x ->
  (forall s, s <> m -> (count s (dropna x) < count m (dropna x))%nat) ->
  moda x = Some m.
Proof.
  intros Hin Hmaj.
  destruct (moda x) as [m' |] eqn:E.
  - destruct (string_dec m' m) as [-> | Hne]; [reflexivity |].
    apply moda_some in E as (_ & Hmax & _).
    specialize (Hmax m). specialize (Hmaj m' Hne). lia.
  - rewrite moda_none in E. apply E in Hin. discriminate.
Qed.

End StatsFacts.



Lemma insert_key_In (k x : Z) (l : list Z) :
  In x (Stats.insert_key k l) <-> x = k \/ In x l.
Proof.
  induction l as [| y r IH]; cbn; [intuition |].
  destruct (k <? y) eqn:E1; cbn; [intuition |].
  destruct (k =? y) eqn:E2; cbn.
  - apply Z.eqb_eq in E2. subst. intuition.
  - rewrite IH. intuition.
Qed.

Lemma group_keys_In (x : Z) (l : list Z) :
  In x (Stats.group_keys l) <-> In x l.
Proof.
  unfold Stats.group_keys. induction l as [| y r IH]; cbn; [tauto |].
  rewrite insert_key_In, IH. intuition.
Qed.

Lemma find_key_present {B : Type} (f : Z -> B) (keys : list Z) (p : Z) :
  In p keys ->
  find (fun r => fst r =? p) (map (fun k => (k, f k)) keys) = Some (p, f p).
Proof.
  induction keys as [| k r IH]; cbn; [tauto |].
  destruct (k =? p) eqn:E.
  - apply Z.eqb_eq in E. subst. reflexivity.
  - apply Z.eqb_neq in E. intros [H | H]; [congruence | auto].
Qed.

Lemma find_key_absent {B : Type} (f : Z -> B) (keys : list Z) (p : Z) :
  ~ In p keys ->
  find (fun r => fst r =? p) (map (fun k => (k, f k)) keys) = None.
Proof.
  induction keys as [| k r IH]; cbn; [reflexivity |].
  intros H. destruct (k =? p) eqn:E.
  - apply Z.eqb_eq in E. tauto.
  - apply IH. tauto.
Qed.

Lemma corporaciones_de_absent (p : Z)
      (rows : list (Deployment * option string)) :
  ~ In p (map (fun r => project_id (fst r)) rows) ->
  corporaciones_de p rows = [].
Proof.
  unfold corporaciones_de.
  induction rows as [| r rs IH]; cbn; [reflexivity |].
  intros H. destruct (project_id (fst r) =? p) eqn:E.
  - apply Z.eqb_eq in E. tauto.
  - apply IH. tauto.
Qed.

Lemma corporacion_null (p : Z) (deployments : list Deployment) :
  corporacion_de_proyecto p (crear_corporaciones_null deployments) = None.
Proof.
  unfold corporacion_de_proyecto, crear_corporaciones_null.
  destruct (in_dec Z.eq_dec p
              (Stats.unique Z.eqb (map project_id deployments))) as [H | H].
  - rewrite (find_key_present (fun _ => None) _ _ H). reflexivity.
  - rewrite (find_key_absent (fun _ => None) _ _ H). reflexivity.
Qed.

Lemma corporacion_agregada (p : Z)
      (rows : list (Deployment * option string)) :
  corporacion_de_proyecto p (agregar_por_proyecto rows)
  = moda (corporaciones_de p rows).
Proof.
  unfold corporacion_de_proyecto, agregar_por_proyecto.
  destruct (in_dec Z.eq_dec p
              (Stats.group_keys (map (fun r => project_id (fst r)) rows)))
    as [H | H].
  - rewrite (find_key_present
               (fun p => moda (corporaciones_de p rows)) _ _ H).
    reflexivity.
  - rewrite (find_key_absent
               (fun p => moda (corporaciones_de p rows)) _ _ H).
    rewrite group_keys_In in H.
    rewrite (corporaciones_de_absent _ _ H). reflexivity.
Qed.

Section JurisdictionFacts.
Import StatsFacts.

Variable polygon : Type.
Variable within : Q * Q -> polygon -> bool.

Lemma sjoin_In (deps : list Deployment) (cars : list (Car polygon))
      (d : Deployment) (c : option string) :
  In (d, c) (sjoin within deps cars) -> In d deps.
Proof.
  unfold sjoin. rewrite in_flat_map. intros (d' & Hd & Hin).
  destruct (filter (point_within within d') cars) as [| m ms].
  - destruct Hin as [[= <- _] | []]. exact Hd.
  - apply in_map_iff in Hin as (c' & [= <- _] & _). exact Hd.
Qed.

Lemma sjoin_covers (deps : list Deployment) (cars : list (Car polygon))
      (d : Deployment) :
  In d deps -> exists c, In (d, c) (sjoin within deps cars).
Proof.
  intros Hd. unfold sjoin.
  destruct (filter (point_within within d) cars) as [| m ms] eqn:E.
  - exists None. apply in_flat_map. exists d. rewrite E. cbn. auto.
  - exists (NOMBRE_CAR m). apply in_flat_map. exists d. rewrite E.
    split; [exact Hd | left; reflexivity].
Qed.

Lemma asignar_corporacion (deployments : list Deployment)
      (cars : list (Car polygon)) (p : Z) :
  corporacion_de_proyecto p
    (asignar_corporacion_geografica within deployments (Cars cars))
  = moda (corporaciones_de p
            (sjoin within (filter has_coordinates deployments) cars)).
Proof.
  cbn [asignar_corporacion_geografica].
  destruct (filter has_coordinates deployments) as [| d ds] eqn:E.
  - cbn. apply corporacion_null.
  - cbn [List.length Nat.eqb]. apply corporacion_agregada.
Qed.

End JurisdictionFacts.

(** C3. Deployment-level matches are aggregated per project by
    the mode: a deployment without longitude or latitude yields no row of
    evidence; the jurisdiction of a project is the mode of the names on the
    rows of its deployments, missing when it has no such row or when every
    name is missing; the mode is a name of maximal count and, among names of
    equal count, the least in code-point order; a name that strictly
    outnumbers every other one (3 to 1, say) is the mode. *)
Theorem asignar_corporacion_por_moda :
  (forall (polygon : Type) (within : Q * Q -> polygon -> bool)
          (deployments : list Deployment) (cars : list (Car polygon)),
      let validos := filter has_coordinates deployments in
      let deployment_corps := sjoin within validos cars in
      let project_corps :=
        asignar_corporacion_geografica within deployments (Cars cars) in
      (forall d c, In (d, c) deployment_corps ->
                   In d deployments
                   /\ longitude d <> None /\ latitude d <> None)
      /\ (forall p,
            corporacion_de_proyecto p project_corps
            = moda (corporaciones_de p deployment_corps))
      /\ (forall p,
            (forall d, In d deployments -> project_id d = p ->
                       has_coordinates d = false) ->
            corporacion_de_proyecto p project_corps = None))
  /\ (forall (x : list (option string)) (m : string),
        moda x = Some m ->
        In (Some m) x
        /\ (forall s, (Stats.count s (Stats.dropna x)
                       <= Stats.count m (Stats.dropna x))%nat)
        /\ (forall s, In (Some s) x ->
                      Stats.count s (Stats.dropna x)
                      = Stats.count m (Stats.dropna x) ->
                      (m <=? s)%string = true))
  /\ (forall x : list (option string),
        moda x = None <-> (forall o, In o x -> o = None))
  /\ (forall (x : list (option string)) (m : string),
        In (Some m) x ->
        (forall s, s <> m ->
                   (Stats.count s (Stats.dropna x)
                    < Stats.count m (Stats.dropna x))%nat) ->
        moda x = Some m)
  /\ asignar_corporacion_geografica within_banda ejemplo_tres_a_uno
       (Cars ejemplo_cars) = [(7, Some "A")].
Proof.
  split; [| split; [| split; [| split]]].
  - intros polygon within deployments cars validos deployment_corps
           project_corps.
    split; [| split].
    + intros d c H. apply sjoin_In in H. apply filter_In in H as [H1 H2].
      split; [exact H1 |]. unfold has_coordinates in H2.
      destruct (longitude d), (latitude d); cbn in H2;
        try discriminate; split; discriminate.
    + intros p. apply asignar_corporacion.
    + intros p Hp. unfold project_corps. rewrite asignar_corporacion.
      rewrite corporaciones_de_absent; [reflexivity |].
      intros Hin. apply in_map_iff in Hin as ([d c] & Hpid & Hin).
      cbn in Hpid. apply sjoin_In in Hin.
      apply filter_In in Hin as [H1 H2].
      rewrite (Hp d H1 Hpid) in H2. discriminate.
  - apply StatsFacts.moda_some.
  - apply StatsFacts.moda_none.
  - apply StatsFacts.moda_majority.
  - vm_compute. reflexivity.
Qed.

(** C3, the tie: both jurisdictions occur once, "B" is met first, and the
    project is assigned "A". *)
Lemma asignar_corporacion_empate_no_primera :
  let deployment_corps :=
    sjoin within_banda (filter has_coordinates ejemplo_empate) ejemplo_cars in
  corporaciones_de 7 deployment_corps = [Some "B"; Some "A"]
  /\ spec_moda_primera_encontrada (corporaciones_de 7 deployment_corps)
     = Some "B"
  /\ asignar_corporacion_geografica within_banda ejemplo_empate
       (Cars ejemplo_cars) = [(7, Some "A")]
  /\ moda (corporaciones_de 7 deployment_corps)
     <> spec_moda_primera_encontrada (corporaciones_de 7 deployment_corps).
Proof.
  vm_compute. repeat split; discriminate.
Qed.

(** ** Orchestrator *)

Section OrchestratorClaims.

Variable to_numeric : string -> option Q.
Variable strptime : string -> value -> option Timestamp.
Variable raises : string -> list value -> bool.
Variable to_datetime : value -> option Timestamp.
Variable polygon : Type.
Variable within : Q * Q -> polygon -> bool.
Variable crear_nombre_cientifico : DataFrame -> DataFrame.
Variable merge_images_deployments : DataFrame -> DataFrame -> DataFrame.
Variable merge_with_projects : DataFrame -> DataFrame -> DataFrame.
Variable deployment_records : DataFrame -> list Deployment.
Variable merge_corporacion : DataFrame -> ProjectCorps -> DataFrame.
Variable calcular_deployment_days : DataFrame -> DataFrame.
Variable crear_columnas_fecha : DataFrame -> DataFrame.
Variable generar_observations_parquet : DataFrame -> bool.
Variable generar_deployments_parquet : DataFrame -> DataFrame -> bool.
Variable generar_projects_parquet : DataFrame -> DataFrame -> bool.

Local Abbreviation run :=
  (main to_numeric strptime raises to_datetime polygon within
        crear_nombre_cientifico merge_images_deployments
        merge_with_projects deployment_records merge_corporacion
        calcular_deployment_days crear_columnas_fecha
        generar_observations_parquet generar_deployments_parquet
        generar_projects_parquet).
Local Abbreviation validos :=
  (datos_validos strptime raises to_datetime crear_nombre_cientifico
                 merge_images_deployments).
Local Abbreviation consistentes :=
  (datos_consistentes to_numeric strptime raises to_datetime
                      crear_nombre_cientifico merge_images_deployments).

(** C8. When no image table is loaded, or it is empty, or the dataset is
    empty after the subproject-validity filter or after the
    date-consistency filter, [main] returns False and the run goes
    through neither the export nor the validation stage. *)
Theorem main_halts_on_empty_stage (e : Entrada polygon) :
  (images_csv e = None
   \/ (exists images,
          images_csv e = Some images /\ Frame.empty images = true)
   \/ (exists images deployments,
          images_csv e = Some images
          /\ deployments_csv e = Some deployments
          /\ Frame.empty (validos images deployments) = true)
   \/ (exists images deployments,
          images_csv e = Some images
          /\ deployments_csv e = Some deployments
          /\ Frame.empty (consistentes images deployments) = true)) ->
  fst (run e) = false
  /\ ~ In Export (snd (run e))
  /\ ~ In Validate (snd (run e)).
Proof.
  assert (forall l : list Etapa,
             l = [Load] \/ l = [Load; Clean; Enrich; Merge] ->
             ~ In Export l /\ ~ In Validate l) as Hstages.
  { intros l [-> | ->]; split; cbn; intuition discriminate. }
  intros H. unfold main.
  destruct (projects_csv e) as [projects |];
    [| split; [reflexivity | apply Hstages; auto]].
  destruct (deployments_csv e) as [deployments |];
    [| split; [reflexivity | apply Hstages; auto]].
  destruct (images_csv e) as [images |];
    [| split; [reflexivity | apply Hstages; auto]].
  destruct (Frame.empty images) eqn:E0;
    [split; [reflexivity | apply Hstages; auto] |].
  fold (validos images deployments).
  destruct (Frame.empty (validos images deployments)) eqn:E1;
    [split; [reflexivity | apply Hstages; auto] |].
  fold (consistentes images deployments).
  destruct (Frame.empty (consistentes images deployments)) eqn:E2;
    [split; [reflexivity | apply Hstages; auto] |].
  exfalso.
  destruct H as [H | [(i & [= <-] & H) | [(i & d & [= <-] & [= <-] & H)
                                        | (i & d & [= <-] & [= <-] & H)]]];
    congruence.
Qed.

(** Past the two filters the run goes through export and validation. *)
Lemma main_completes (e : Entrada polygon)
      (projects deployments images : DataFrame) :
  projects_csv e = Some projects ->
  deployments_csv e = Some deployments ->
  images_csv e = Some images ->
  Frame.empty images = false ->
  Frame.empty (validos images deployments) = false ->
  Frame.empty (consistentes images deployments) = false ->
  run e = (true, [Load; Clean; Enrich; Merge; Geocode; Finalize;
                  Export; Validate]).
Proof.
  intros Hp Hd Hi E0 E1 E2. unfold main. rewrite Hp, Hd, Hi, E0.
  fold (validos images deployments). rewrite E1.
  fold (consistentes images deployments). rewrite E2.
  reflexivity.
Qed.

Lemma main_ignores_shapefile
      (projects deployments images : option DataFrame)
      (s1 s2 : Shapefile polygon) :
  run (mkEntrada projects deployments images s1)
  = run (mkEntrada projects deployments images s2).
Proof.
  unfold main. cbn [projects_csv deployments_csv images_csv shapefile].
  destruct projects as [p |], deployments as [d |], images as [i |];
    reflexivity.
Qed.

End OrchestratorClaims.

Lemma main_halts_on_empty_stage_witness :
  Frame.empty (ejemplo_imagenes "2019_1") = false
  /\ fst (ejemplo_main (ejemplo_entrada "2019_1")) = false
  /\ ~ In Export (snd (ejemplo_main (ejemplo_entrada "2019_1")))
  /\ ~ In Validate (snd (ejemplo_main (ejemplo_entrada "2019_1"))).
Proof.
  split; [reflexivity |].
  apply main_halts_on_empty_stage.
  right. right. left.
  exists (ejemplo_imagenes "2019_1"), (mkDataFrame [] []).
  repeat split; reflexivity.
Defined.

Example main_ejemplo_completo :
  ejemplo_main (ejemplo_entrada "2025_1")
  = (true, [Load; Clean; Enrich; Merge; Geocode; Finalize; Export; Validate]).
Proof. vm_compute. reflexivity. Qed.

Example main_ejemplo_fechas :
  ejemplo_main (ejemplo_entrada "2026_1")
  = (false, [Load; Clean; Enrich; Merge]).
Proof. vm_compute. reflexivity. Qed.


(** ** Subproject filter *)

Section SubprojectFilterFacts.
Import Frame FrameFacts.

Lemma position_none_has_column (name : string) (df : DataFrame) :
  position name (labels df) = None -> has_column name df = false.
Proof.
  intros H. destruct (has_column name df) eqn:E; [| reflexivity].
  apply has_column_position in E as [j Hj]. congruence.
Qed.

Lemma filtrar_valido_rows (df : DataFrame) (columna : string) (j : nat) :
  position columna (labels df) = Some j ->
  rows df <> [] ->
  filtrar_por_subproject_valido df columna =
  {| columns := columns df;
     rows := filter (fun r => validar_subproject_name (cell_at j r))
                    (rows df) |}.
Proof.
  intros Hj Hne. unfold filtrar_por_subproject_valido.
  rewrite (position_has_column _ _ _ Hj). cbn [negb].
  rewrite (get_series_position _ _ _ Hj), map_map.
  destruct (rows df) as [| r0 rs] eqn:Er; [congruence |].
  cbn [map]. rewrite <- Er.
  unfold loc_rows. rewrite Er. cbn [map].
  change (validar_subproject_name (cell_at j r0)
          :: map (fun x => validar_subproject_name (cell_at j x)) rs)
    with (map (fun x => validar_subproject_name (cell_at j x)) (r0 :: rs)).
  rewrite take_where_map_filter. reflexivity.
Qed.

Lemma filtrar_valido_sin_filas (df : DataFrame) (columna : string) :
  has_column columna df = true ->
  rows df = [] ->
  filtrar_por_subproject_valido df columna = mkDataFrame [] [].
Proof.
  intros Hc Hr. unfold filtrar_por_subproject_valido.
  rewrite Hc. cbn [negb]. unfold get_series, series.
  destruct (position columna (labels df));
    try rewrite Hr; cbn; unfold loc_columns; rewrite Hr; reflexivity.
Qed.

(** X1. On a table that has the subproject column and at least one row,
    the subproject filter leaves the columns alone and keeps, in their
    order, exactly the rows whose cell under the subproject column passes
    the validator. On a table that has the column and no row the mask is
    not a boolean one and the result has neither rows nor columns. A
    table without the column comes back as it is. *)
Theorem filtrar_por_subproject_valido_retains_exactly
        (df : DataFrame) (columna : string) :
  let out := filtrar_por_subproject_valido df columna in
  match position columna (labels df), rows df with
  | Some j, _ :: _ =>
      columns out = columns df
      /\ rows out = filter (fun r => validar_subproject_name (cell_at j r))
                           (rows df)
      /\ (forall r, In r (rows out) <->
            In r (rows df) /\ validar_subproject_name (cell_at j r) = true)
  | Some j, [] => out = mkDataFrame [] []
  | None, _ => out = df
  end.
Proof.
  cbv zeta. destruct (position columna (labels df)) as [j |] eqn:Hj.
  - destruct (rows df) as [| r0 rs] eqn:Er.
    + apply filtrar_valido_sin_filas; [| exact Er].
      eapply position_has_column; eauto.
    + rewrite (filtrar_valido_rows _ _ _ Hj) by (rewrite Er; discriminate).
      cbn [columns rows]. rewrite Er.
      split; [reflexivity |]. split; [reflexivity |].
      intros r. rewrite filter_In. tauto.
  - unfold filtrar_por_subproject_valido.
    rewrite (position_none_has_column _ _ Hj). reflexivity.
Qed.

(** X2. Running the subproject filter on its own output keeps the rows of
    the first run, and gives the first output back when that output still
    has a row or the table lacks the subproject column. When the column
    is there and the first run leaves no row, the second run drops the
    columns as well: a table with one rejected row keeps its column in
    the first run and loses it in the second. *)
Theorem filtrar_por_subproject_valido_twice
        (df : DataFrame) (columna : string) :
  let once := filtrar_por_subproject_valido df columna in
  let twice := filtrar_por_subproject_valido once columna in
  rows twice = rows once
  /\ (rows once <> [] \/ has_column columna df = false -> twice = once)
  /\ (has_column columna df = true -> rows once = [] ->
      twice = mkDataFrame [] [])
  /\ (let df1 := mkDataFrame [mkColumn "subproject_name" object]
                             [mkRow 0 [VStr "2019_1"]] in
      filtrar_por_subproject_valido df1 "subproject_name"
      = mkDataFrame [mkColumn "subproject_name" object] []
      /\ filtrar_por_subproject_valido
           (filtrar_por_subproject_valido df1 "subproject_name")
           "subproject_name"
         = mkDataFrame [] []).
Proof.
  cbv zeta.
  assert (forall d, has_column columna d = false ->
                    filtrar_por_subproject_valido d columna = d) as Habs.
  { intros d H. unfold filtrar_por_subproject_valido. rewrite H.
    reflexivity. }
  assert (has_column columna df = true ->
          rows (filtrar_por_subproject_valido df columna) <> [] ->
          filtrar_por_subproject_valido
            (filtrar_por_subproject_valido df columna) columna
          = filtrar_por_subproject_valido df columna) as Hrows.
  { intros Hc Hne. apply has_column_position in Hc as [j Hj].
    destruct (rows df) as [| r0 rs] eqn:Er.
    - exfalso. apply Hne.
      rewrite (filtrar_valido_sin_filas df columna);
        [reflexivity | eapply position_has_column; eauto | exact Er].
    - assert (rows df <> []) as Hdf by (rewrite Er; discriminate).
      rewrite (filtrar_valido_rows df _ _ Hj Hdf) in *.
      cbn [rows] in Hne.
      match goal with
      | |- filtrar_por_subproject_valido ?d _ = _ =>
          rewrite (filtrar_valido_rows d columna j Hj Hne)
      end.
      cbn [columns rows]. rewrite filter_idem. reflexivity. }
  assert (has_column columna df = true ->
          rows (filtrar_por_subproject_valido df columna) = [] ->
          filtrar_por_subproject_valido
            (filtrar_por_subproject_valido df columna) columna
          = mkDataFrame [] []) as Hnil.
  { intros Hc Hr. pose proof Hc as Hc'.
    apply has_column_position in Hc' as [j Hj].
    destruct (rows df) as [| r0 rs] eqn:Er.
    - rewrite (filtrar_valido_sin_filas df columna Hc Er).
      reflexivity.
    - assert (rows df <> []) as Hdf by (rewrite Er; discriminate).
      rewrite (filtrar_valido_rows df _ _ Hj Hdf) in *.
      apply filtrar_valido_sin_filas; [exact Hc | exact Hr]. }
  split; [| split; [| split; [exact Hnil | split; reflexivity]]].
  - destruct (has_column columna df) eqn:Hc.
    + destruct (rows (filtrar_por_subproject_valido df columna)) eqn:Er.
      * rewrite (Hnil eq_refl eq_refl). reflexivity.
      * rewrite Hrows; [exact Er | reflexivity | discriminate].
    + rewrite (Habs df Hc), (Habs df Hc). reflexivity.
  - intros [Hne | Hc].
    + destruct (has_column columna df) eqn:Hc.
      * apply Hrows; [reflexivity | exact Hne].
      * rewrite (Habs df Hc), (Habs df Hc). reflexivity.
    + rewrite (Habs df Hc), (Habs df Hc). reflexivity.
Qed.

End SubprojectFilterFacts.

(** ** The validator and the date filter on the same code *)

Lemma split_nonempty (sep : ascii) (s : string) : PyStr.split sep s <> [].
Proof.
  destruct s as [| c r]; cbn; [discriminate |].
  destruct (Ascii.eqb c sep); [discriminate |].
  destruct (PyStr.split sep r); discriminate.
Qed.

Lemma split_one (sep : ascii) (s n : string) :
  PyStr.split sep s = [n] -> s = n.
Proof.
  revert n. induction s as [| c r IH]; intros n; cbn.
  - intros [= <-]. reflexivity.
  - destruct (Ascii.eqb c sep).
    + intros [= _ H]. destruct (split_nonempty _ _ H).
    + destruct (PyStr.split sep r) as [| h t] eqn:E.
      * destruct (split_nonempty _ _ E).
      * intros [= <- ->]. rewrite (IH h); reflexivity.
Qed.

Lemma split_two (sep : ascii) (s y n : string) :
  PyStr.split sep s = [y; n] -> s = y ++ String sep n.
Proof.
  revert y. induction s as [| c r IH]; intros y; cbn.
  - discriminate.
  - destruct (Ascii.eqb c sep) eqn:Ec.
    + intros [= <- H]. apply Ascii.eqb_eq in Ec. subst c.
      rewrite (split_one _ _ _ H). reflexivity.
    + destruct (PyStr.split sep r) as [| h t] eqn:E.
      * discriminate.
      * intros [= <- ->]. rewrite (IH h); reflexivity.
Qed.

Lemma prefix_append (a b : string) :
  PyStr.prefix (String.length a) (a ++ b) = a.
Proof.
  unfold PyStr.prefix. induction a as [| c r IH]; cbn.
  - destruct b; reflexivity.
  - rewrite IH. reflexivity.
Qed.

Lemma validar_year (s : string) :
  validar_subproject_name (VStr s) = true ->
  exists y n year,
    PyStr.split "_" (PyStr.strip s) = [y; n]
    /\ String.length y = 4%nat
    /\ PyStr.int y = Some year /\ 2020 <= year.
Proof.
  unfold validar_subproject_name. cbn [isna str].
  set (t := PyStr.strip s). cbv zeta.
  destruct (String.length t =? 6)%nat; cbn [negb]; [| discriminate].
  destruct ((t =? "nan")%string || (t =? "")%string); [discriminate |].
  destruct (String.get 4 t) as [c |]; [| discriminate].
  destruct (Ascii.eqb c "_"); cbn [negb]; [| discriminate].
  destruct (PyStr.split "_" t) as [| y [| n [| ? ?]]] eqn:Hsp;
    try discriminate.
  destruct (String.length y =? 4)%nat eqn:Hy; cbn [negb orb];
    [| discriminate].
  destruct (PyStr.isdigit y); cbn [negb]; [| discriminate].
  destruct (String.length n =? 1)%nat; cbn [negb orb]; [| discriminate].
  destruct (PyStr.isdigit n); cbn [negb]; [| discriminate].
  destruct (PyStr.int y) as [year |] eqn:Hint; [| discriminate].
  destruct (year <? 2020) eqn:Hyear; [discriminate |].
  intros _. apply Nat.eqb_eq in Hy. apply Z.ltb_ge in Hyear.
  exists y, n, year. auto.
Qed.

Lemma validar_prefix_year (s : string) :
  validar_subproject_name (VStr s) = true ->
  PyStr.strip s = s ->
  exists year, PyStr.int (PyStr.prefix 4 s) = Some year /\ 2020 <= year.
Proof.
  intros H Hs. destruct (validar_year _ H) as (y & n & year & Hsp & Hy & Hi & Hge).
  rewrite Hs in Hsp. apply split_two in Hsp.
  exists year. split; [| exact Hge].
  rewrite Hsp, <- Hy, prefix_append. exact Hi.
Qed.

Section ValidatedYearFacts.
Import Frame FrameFacts.

Variable to_numeric : string -> option Q.

Hypothesis to_numeric_decimal_numeral :
  forall (s : string) (n : Z),
    PyStr.int s = Some n -> to_numeric s = Some (inject_Z n).

(** X3. On a row whose subproject code passes the validator and carries
    no surrounding blanks, the event year the date filter reads is the
    year of the code, which is at least 2020, so the row is consistent
    exactly when its capture date is defined and its capture year is at
    least that year minus one. *)
Theorem validated_code_year
        (df : DataFrame) (cf cs : string) (j : nat) (r : Row) (s : string) :
  position cs (labels df) = Some j ->
  cell_at j r = VStr s ->
  validar_subproject_name (VStr s) = true ->
  PyStr.strip s = s ->
  exists year,
    PyStr.int (PyStr.prefix 4 s) = Some year
    /\ 2020 <= year
    /\ event_year to_numeric cs df r = Some (inject_Z year)
    /\ (fecha_consistente to_numeric cf cs df r = true <->
        exists yc, capture_year cf df r = Some yc /\ year - 1 <= yc).
Proof.
  intros Hj Hc Hv Hs.
  destruct (validar_prefix_year _ Hv Hs) as (year & Hi & Hge).
  assert (event_year to_numeric cs df r = Some (inject_Z year)) as He.
  { unfold event_year. rewrite Hj, Hc. cbn [str].
    apply to_numeric_decimal_numeral. exact Hi. }
  exists year. repeat split; auto.
  - intros H. apply consistente_iff in H as (ye & yc & Hye & Hyc & Hle).
    rewrite He in Hye. injection Hye as <-.
    exists yc. split; [exact Hyc |].
    unfold Qle in Hle. cbn in Hle. lia.
  - intros (yc & Hyc & Hle). apply consistente_iff.
    exists (inject_Z year), yc. repeat split; auto.
    unfold Qle. cbn. lia.
Qed.

End ValidatedYearFacts.

Lemma validated_code_year_witness :
  exists year,
    PyStr.int (PyStr.prefix 4 "2025_1") = Some year
    /\ 2020 <= year
    /\ event_year to_numeric_decimal "subproject_name" ejemplo_fechas
                  ejemplo_fila_2024 = Some (inject_Z year)
    /\ (fecha_consistente to_numeric_decimal "photo_datetime"
                          "subproject_name" ejemplo_fechas ejemplo_fila_2024
        = true <->
        exists yc,
          capture_year "photo_datetime" ejemplo_fechas ejemplo_fila_2024
          = Some yc /\ year - 1 <= yc).
Proof.
  apply (validated_code_year to_numeric_decimal) with (j := 1%nat).
  - intros s n H. unfold to_numeric_decimal. rewrite H. reflexivity.
  - reflexivity.
  - reflexivity.
  - reflexivity.
  - reflexivity.
Defined.

Lemma digit_value_range (c : ascii) :
  PyStr.isdecimal_char c = true -> 0 <= PyStr.digit_value c <= 9.
Proof.
  unfold PyStr.isdecimal_char, PyStr.digit_value. intros H.
  apply andb_true_iff in H as [H1 H2].
  apply N.leb_le in H1, H2. lia.
Qed.

(** The first three of four decimal digits read as the tenth of the
    number. *)
Lemma int_three_of_four_digits (y rest : string) (year : Z) :
  String.length y = 4%nat ->
  PyStr.int y = Some year ->
  exists d3,
    PyStr.prefix 4 (String " " (y ++ rest)) = String " " d3
    /\ String.length d3 = 3%nat
    /\ PyStr.int d3 = Some (year / 10).
Proof.
  destruct y as [| c1 [| c2 [| c3 [| c4 [| ? ?]]]]]; try discriminate.
  intros _. unfold PyStr.int.
  change (PyStr.int_from 0 (String c1 (String c2 (String c3 (String c4 "")))))
    with (if PyStr.isdecimal_char c1 then
            if PyStr.isdecimal_char c2 then
              if PyStr.isdecimal_char c3 then
                if PyStr.isdecimal_char c4 then
                  Some (10 * (10 * (10 * (10 * 0 + PyStr.digit_value c1)
                                    + PyStr.digit_value c2)
                              + PyStr.digit_value c3)
                        + PyStr.digit_value c4)
                else None
              else None
            else None
          else None).
  destruct (PyStr.isdecimal_char c1) eqn:D1; [| discriminate].
  destruct (PyStr.isdecimal_char c2) eqn:D2; [| discriminate].
  destruct (PyStr.isdecimal_char c3) eqn:D3; [| discriminate].
  destruct (PyStr.isdecimal_char c4) eqn:D4; [| discriminate].
  intros Hyear.
  exists (String c1 (String c2 (String c3 ""))).
  split; [reflexivity |]. split; [reflexivity |].
  cbn [PyStr.int_from]. rewrite D1, D2, D3.
  assert (year = 10 * (10 * (10 * (10 * 0 + PyStr.digit_value c1)
                             + PyStr.digit_value c2)
                       + PyStr.digit_value c3)
                 + PyStr.digit_value c4) as -> by congruence.
  pose proof (digit_value_range _ D4). f_equal.
  apply Z.div_unique with (r := PyStr.digit_value c4); lia.
Qed.

Section PaddedCodeFacts.
Import Frame FrameFacts.

Variable to_numeric : string -> option Q.

Hypothesis to_numeric_leading_blank :
  forall (s : string) (n : Z),
    String.length s = 3%nat ->
    PyStr.int s = Some n -> to_numeric (String " " s) = Some (inject_Z n).

(** X4. A blank in front of an accepted code leaves it accepted, because
    the validator strips the text, while the date filter reads the event
    year from the first four characters of the unstripped text: the blank
    and the first three digits of the year. With a [pd.to_numeric] that
    reads three digits behind a blank as their number, the event year of
    the row is the tenth of the year of the code (202 for 2025), and the
    row is consistent exactly when its capture date is defined and its
    capture year is at least that tenth minus one. *)
Theorem leading_blank_shifts_event_year
        (df : DataFrame) (cf cs : string) (j : nat) (r : Row) (s : string) :
  position cs (labels df) = Some j ->
  cell_at j r = VStr (String " " s) ->
  validar_subproject_name (VStr s) = true ->
  PyStr.strip s = s ->
  exists year,
    PyStr.int (PyStr.prefix 4 s) = Some year
    /\ 2020 <= year
    /\ validar_subproject_name (cell_at j r) = true
    /\ event_year to_numeric cs df r = Some (inject_Z (year / 10))
    /\ (fecha_consistente to_numeric cf cs df r = true <->
        exists yc, capture_year cf df r = Some yc /\ year / 10 - 1 <= yc).
Proof.
  intros Hj Hc Hv Hs.
  destruct (validar_year _ Hv) as (y & n & year & Hsp & Hy & Hi & Hge).
  rewrite Hs in Hsp. apply split_two in Hsp.
  assert (event_year to_numeric cs df r = Some (inject_Z (year / 10))) as He.
  { unfold event_year. rewrite Hj, Hc. cbn [str]. rewrite Hsp.
    destruct (int_three_of_four_digits y (String "_" n) year Hy Hi)
      as (d3 & -> & Hl & Hd).
    apply to_numeric_leading_blank; assumption. }
  exists year. split; [| split; [exact Hge | split; [| split; [exact He |]]]].
  - rewrite Hsp, <- Hy, prefix_append. exact Hi.
  - rewrite Hc. exact Hv.
  - split.
    + intros H. apply consistente_iff in H as (ye & yc & Hye & Hyc & Hle).
      rewrite He in Hye. injection Hye as <-.
      exists yc. split; [exact Hyc |].
      unfold Qle in Hle. cbn in Hle. lia.
    + intros (yc & Hyc & Hle). apply consistente_iff.
      exists (inject_Z (year / 10)), yc. repeat split; auto.
      unfold Qle. cbn. lia.
Qed.

End PaddedCodeFacts.

Lemma saltar_blancos_digits (s : string) (n : Z) :
  PyStr.int s = Some n -> saltar_blancos s = s.
Proof.
  destruct s as [| c r]; [reflexivity |].
  unfold PyStr.int. cbn [PyStr.int_from].
  destruct (PyStr.isdecimal_char c) eqn:D; [| discriminate].
  intros _.
  destruct c as [[] [] [] [] [] [] [] []]; try reflexivity; discriminate.
Qed.

Lemma leading_blank_shifts_event_year_witness :
  exists year,
    PyStr.int (PyStr.prefix 4 "2025_1") = Some year
    /\ 2020 <= year
    /\ validar_subproject_name
         (Frame.cell_at 1 ejemplo_fila_relleno_2019) = true
    /\ event_year to_numeric_blancos "subproject_name" ejemplo_relleno
                  ejemplo_fila_relleno_2019 = Some (inject_Z (year / 10))
    /\ (fecha_consistente to_numeric_blancos "photo_datetime"
                          "subproject_name" ejemplo_relleno
                          ejemplo_fila_relleno_2019
        = true <->
        exists yc,
          capture_year "photo_datetime" ejemplo_relleno
                       ejemplo_fila_relleno_2019
          = Some yc /\ year / 10 - 1 <= yc).
Proof.
  apply (leading_blank_shifts_event_year to_numeric_blancos)
    with (j := 1%nat) (s := "2025_1").
  - intros s n _ H. unfold to_numeric_blancos. cbn [saltar_blancos].
    rewrite (saltar_blancos_digits s n H), H. reflexivity.
  - reflexivity.
  - reflexivity.
  - reflexivity.
  - reflexivity.
Defined.

(** ** Repeated column labels *)

Section DedupFacts.
Import Frame FrameFacts.

Lemma take_where_nil {A : Type} (m : list bool) :
  take_where m (@nil A) = [].
Proof. destruct m; reflexivity. Qed.

Lemma nth_as_nth_error {A : Type} (l : list A) (j : nat) (d : A) :
  nth j l d = match nth_error l j with Some x => x | None => d end.
Proof.
  revert j. induction l as [| x r IH]; intros [| j]; cbn; auto.
Qed.

(** Reading at the first occurrence of a label gives the same entry
    before and after the later occurrences are removed. *)
Lemma first_occurrences_nth_error {A : Type} (name : string)
      (l : list string) :
  forall (seen : list string) (xs : list A),
    ~ In name seen ->
    match position name l with
    | Some j =>
        exists j',
          position name (first_occurrences seen l) = Some j'
          /\ nth_error
               (take_where (map negb (duplicated_from seen l)) xs) j'
             = nth_error xs j
    | None => position name (first_occurrences seen l) = None
    end.
Proof.
  induction l as [| x l IH]; intros seen xs Hseen; [reflexivity |].
  unfold first_occurrences. cbn [duplicated_from map position].
  destruct (String.eqb name x) eqn:Ex.
  - apply String.eqb_eq in Ex. subst x.
    assert (existsb (String.eqb name) seen = false) as ->.
    { destruct (existsb (String.eqb name) seen) eqn:E; [| reflexivity].
      apply existsb_label_In in E. tauto. }
    cbn [negb take_where]. exists O. cbn [position].
    rewrite String.eqb_refl. split; [reflexivity |].
    destruct xs; reflexivity.
  - assert (~ In name (x :: seen)) as Hseen'.
    { cbn. intros [H | H]; [| tauto]. subst.
      rewrite String.eqb_refl in Ex. discriminate. }
    specialize (IH (x :: seen)).
    destruct (existsb (String.eqb x) seen); cbn [negb take_where].
    + destruct (position name l) as [j |]; cbn [option_map].
      * destruct xs as [| a xs'].
        -- destruct (IH (@nil A) Hseen') as (j' & H1 & H2).
           exists j'. split; [exact H1 |].
           rewrite take_where_nil in H2. destruct j'; cbn; destruct j;
             reflexivity.
        -- destruct (IH xs' Hseen') as (j' & H1 & H2).
           exists j'. split; [exact H1 | exact H2].
      * exact (IH (@nil A) Hseen').
    + cbn [position]. rewrite Ex.
      destruct (position name l) as [j |]; cbn [option_map].
      * destruct xs as [| a xs'].
        -- destruct (IH (@nil A) Hseen') as (j' & H1 & H2).
           exists (S j'). unfold first_occurrences in H1. rewrite H1.
           split; [reflexivity |]. reflexivity.
        -- destruct (IH xs' Hseen') as (j' & H1 & H2).
           exists (S j'). unfold first_occurrences in H1. rewrite H1.
           split; [reflexivity | exact H2].
      * specialize (IH (@nil A) Hseen').
        unfold first_occurrences in IH. rewrite IH. reflexivity.
Qed.

Lemma labels_drop_duplicated_NoDup (df : DataFrame) :
  NoDup (labels (drop_duplicated_columns df)).
Proof.
  pose proof (labels_drop_duplicated df) as H.
  apply duplicated_from_NoDup in H. tauto.
Qed.

Lemma get_series_drop_duplicated (name : string) (df : DataFrame) :
  get_series name (drop_duplicated_columns df) = get_series name df.
Proof.
  unfold drop_duplicated_columns.
  destruct (existsb (fun b => b) (duplicated (labels df))); [| reflexivity].
  unfold get_series, series. rewrite labels_loc_columns.
  pose proof (fun A => @first_occurrences_nth_error A name (labels df) [])
    as H.
  unfold first_occurrences in H. fold (duplicated (labels df)) in H.
  destruct (position name (labels df)) as [j |].
  - destruct (H value [] (fun F => F)) as (j' & Hp & _). rewrite Hp.
    unfold loc_columns. cbn [rows]. rewrite map_map.
    apply map_ext. intros r. unfold cell_at. cbn [cells].
    rewrite !nth_as_nth_error.
    destruct (H value (cells r) (fun F => F)) as (j'' & Hp' & Hn).
    assert (j'' = j') as -> by congruence.
    rewrite Hn. reflexivity.
  - rewrite (H value [] (fun F => F)). reflexivity.
Qed.

Lemma dtype_of_drop_duplicated (name : string) (df : DataFrame) :
  dtype_of name (drop_duplicated_columns df) = dtype_of name df.
Proof.
  unfold drop_duplicated_columns.
  destruct (existsb (fun b => b) (duplicated (labels df))); [| reflexivity].
  unfold dtype_of. rewrite labels_loc_columns.
  pose proof (fun A => @first_occurrences_nth_error A name (labels df) [])
    as H.
  unfold first_occurrences in H. fold (duplicated (labels df)) in H.
  destruct (position name (labels df)) as [j |].
  - destruct (H Column (columns df) (fun F => F)) as (j' & -> & Hn).
    unfold loc_columns. cbn [columns]. rewrite Hn. reflexivity.
  - rewrite (H value [] (fun F => F)). reflexivity.
Qed.

(** X5. Removing repeated column labels keeps the first column of every
    label: afterwards the labels are pairwise distinct and are the labels
    of the input, the number of rows is unchanged, and the cells and the
    dtype read under any label are those read before; a table whose
    labels are already distinct is returned as it is. *)
Theorem drop_duplicated_columns_keeps_first (df : DataFrame) :
  let out := drop_duplicated_columns df in
  NoDup (labels out)
  /\ (forall name, In name (labels out) <-> In name (labels df))
  /\ len out = len df
  /\ (forall name, get_series name out = get_series name df)
  /\ (forall name, dtype_of name out = dtype_of name df)
  /\ (NoDup (labels df) -> out = df).
Proof.
  cbv zeta. split; [apply labels_drop_duplicated_NoDup |].
  split; [| split; [| split; [| split]]].
  - intros name.
    pose proof (has_column_drop_duplicated (fun _ => None) name df) as H.
    unfold has_column in H.
    split; intros Hin; apply existsb_label_In;
      apply existsb_label_In in Hin; congruence.
  - unfold drop_duplicated_columns.
    destruct (existsb (fun b => b) (duplicated (labels df)));
      [| reflexivity].
    unfold len, loc_columns. cbn. apply length_map.
  - intros name. apply get_series_drop_duplicated.
  - intros name. apply dtype_of_drop_duplicated.
  - intros Hnd. unfold drop_duplicated_columns.
    assert (existsb (fun b => b) (duplicated (labels df)) = false) as ->;
      [| reflexivity].
    apply duplicated_from_NoDup. split; [exact Hnd | tauto].
Qed.

End DedupFacts.

(** ** What the date filter hands on *)

Section DateFilterOutput.
Import Frame FrameFacts.

Variable to_numeric : string -> option Q.
Variable to_datetime : value -> option Timestamp.

(** X6. With both columns present, the table the date filter returns has
    pairwise distinct labels, its date column has dtype datetime64, and
    every cell of that column is a timestamp: no row with a missing or
    unreadable date survives. *)
Theorem filtrar_fechas_output_parsed (df : DataFrame) (cf cs : string) :
  has_column cf df = true -> has_column cs df = true ->
  let out := filtrar_fechas_inconsistentes to_numeric to_datetime df cf cs in
  NoDup (labels out)
  /\ dtype_of cf out = Some datetime64
  /\ Forall (fun v => exists t, v = VTime t) (get_series cf out).
Proof.
  intros Hf Hs. cbv zeta.
  rewrite (filtrar_rows to_numeric to_datetime _ _ _ Hf Hs).
  set (p := preparar to_datetime cf df).
  assert (has_column cf (drop_duplicated_columns df) = true) as Hf'
      by (rewrite (has_column_drop_duplicated to_numeric); exact Hf).
  assert (labels p = labels (drop_duplicated_columns df)) as Hl
      by (apply (labels_preparar to_numeric); exact Hf).
  split; [| split].
  - unfold labels at 1. cbn [columns]. fold (labels p). rewrite Hl.
    apply labels_drop_duplicated_NoDup.
  - unfold dtype_of, labels. cbn [columns].
    apply (dtype_of_ensure_datetime to_datetime cf _ Hf').
  - assert (has_column cf p = true) as Hp
        by (unfold p; rewrite (has_column_preparar to_numeric); assumption).
    destruct (has_column_position _ _ Hp) as [j Hj].
    unfold get_series, series, labels. cbn [columns rows].
    fold (labels p). rewrite Hj.
    apply Forall_forall. intros v Hv.
    apply in_map_iff in Hv as (r & <- & Hr).
    apply filter_In in Hr as [_ Hr].
    apply (consistente_iff to_numeric) in Hr as (ye & yc & _ & Hyc & _).
    unfold capture_year in Hyc. rewrite Hj in Hyc.
    destruct (cell_at j r) as [| | | | | t |]; try discriminate.
    exists t. reflexivity.
Qed.

End DateFilterOutput.

Lemma filtrar_fechas_output_parsed_witness :
  let out :=
    filtrar_fechas_inconsistentes to_numeric_decimal to_datetime_identity
      ejemplo_fechas "photo_datetime" "subproject_name" in
  NoDup (Frame.labels out)
  /\ Frame.dtype_of "photo_datetime" out = Some datetime64
  /\ Forall (fun v => exists t, v = VTime t)
            (Frame.get_series "photo_datetime" out).
Proof.
  apply (filtrar_fechas_output_parsed to_numeric_decimal
           to_datetime_identity ejemplo_fechas
           "photo_datetime" "subproject_name");
    reflexivity.
Defined.

(** ** Computer-vision cleaning, again *)

Section CvIdempotence.
Import Frame FrameFacts.

(** X7. Cleaning the computer-vision records a second time changes
    nothing. *)
Theorem limpiar_registros_cv_idempotente (df : DataFrame) :
  limpiar_registros_cv (limpiar_registros_cv df) = limpiar_registros_cv df.
Proof.
  destruct (has_column "genus" df) eqn:Hg;
    [| unfold limpiar_registros_cv; rewrite Hg; cbn; rewrite Hg;
       reflexivity].
  destruct (has_column "species" df) eqn:Hs;
    [| unfold limpiar_registros_cv; rewrite Hg, Hs; cbn; rewrite Hg, Hs;
       reflexivity].
  destruct (has_column_position _ _ Hg) as [jg Hjg].
  destruct (has_column_position _ _ Hs) as [js Hjs].
  rewrite (limpiar_rows df jg js Hjg Hjs).
  rewrite (limpiar_rows _ jg js) by assumption.
  cbn [columns rows]. rewrite filter_idem. reflexivity.
Qed.

End CvIdempotence.

(** ** TimestampNormalizer: the derived columns *)

Section ProcesarColumns.
Import Frame FrameFacts.

Variable strptime : string -> value -> option Timestamp.
Variable raises : string -> list value -> bool.
Variable to_datetime : value -> option Timestamp.

Local Abbreviation procesar :=
  (procesar_timestamps strptime raises to_datetime).
Local Abbreviation parse := (parse_timestamps strptime raises to_datetime).

Lemma length_parse_timestamps (col : list value) :
  List.length (parse col) = List.length col.
Proof.
  destruct (parse_timestamps_estrategia strptime raises to_datetime col)
    as [H _].
  rewrite H. apply length_map.
Qed.

Lemma length_get_series (name : string) (df : DataFrame) :
  has_column name df = true ->
  List.length (get_series name df) = len df.
Proof.
  intros H. destruct (has_column_position _ _ H) as [j Hj].
  rewrite (get_series_position _ _ _ Hj). apply length_map.
Qed.

(** X8. When the timestamp column is present, the normalizer keeps the
    number of rows, publishes the parsed column both as timestamp_parsed
    and as photo_datetime, and the date, year, month, day, hour and
    minute columns are read cell by cell from that parsed column, missing
    exactly where it is NaT. *)
Theorem procesar_timestamps_derived_fields
        (df : DataFrame) (columna : string) :
  has_column columna df = true ->
  let out := procesar df columna in
  let parsed := parse (get_series columna df) in
  len out = len df
  /\ get_series "timestamp_parsed" out = parsed
  /\ get_series "photo_datetime" out = parsed
  /\ get_series "photo_date" out = map dt_date parsed
  /\ get_series "year" out = map (dt_field ts_year) parsed
  /\ get_series "month" out = map (dt_field ts_month) parsed
  /\ get_series "day" out = map (dt_field ts_day) parsed
  /\ get_series "hour" out = map (dt_field ts_hour) parsed
  /\ get_series "minute" out = map (dt_field ts_minute) parsed.
Proof.
  intros H. cbv zeta. unfold procesar_timestamps. rewrite H. cbn [negb].
  pose proof (length_get_series _ _ H) as Hlen.
  pose proof (length_parse_timestamps (get_series columna df)) as Hp.
  split; [rewrite !len_assign; reflexivity |].
  repeat split;
    repeat (rewrite get_series_assign_other by discriminate);
    (rewrite get_series_assign_same;
     [reflexivity
     | rewrite ?len_assign, ?length_map; congruence]).
Qed.

(** X9. The normalizer writes to its eight derived columns only: the
    cells read under any other label are the ones of the input. *)
Theorem procesar_timestamps_keeps_other_columns
        (df : DataFrame) (columna name : string) :
  ~ In name columnas_derivadas ->
  get_series name (procesar df columna) = get_series name df.
Proof.
  intros Hn. unfold procesar_timestamps.
  destruct (has_column columna df); cbn [negb]; [| reflexivity].
  assert (forall c, In c columnas_derivadas -> name <> c) as Hne
      by (intros c Hc ->; exact (Hn Hc)).
  repeat (rewrite get_series_assign_other
            by (apply Hne; cbn; tauto)).
  reflexivity.
Qed.

End ProcesarColumns.

Lemma procesar_timestamps_derived_fields_witness :
  let out :=
    procesar_timestamps ejemplo_strptime (fun _ _ => false)
      to_datetime_identity (ejemplo_imagenes "2025_1") "timestamp" in
  let parsed :=
    parse_timestamps ejemplo_strptime (fun _ _ => false)
      to_datetime_identity
      (Frame.get_series "timestamp" (ejemplo_imagenes "2025_1")) in
  Frame.len out = Frame.len (ejemplo_imagenes "2025_1")
  /\ Frame.get_series "timestamp_parsed" out = parsed
  /\ Frame.get_series "photo_datetime" out = parsed
  /\ Frame.get_series "photo_date" out = map dt_date parsed
  /\ Frame.get_series "year" out = map (dt_field ts_year) parsed
  /\ Frame.get_series "month" out = map (dt_field ts_month) parsed
  /\ Frame.get_series "day" out = map (dt_field ts_day) parsed
  /\ Frame.get_series "hour" out = map (dt_field ts_hour) parsed
  /\ Frame.get_series "minute" out = map (dt_field ts_minute) parsed.
Proof.
  apply (procesar_timestamps_derived_fields ejemplo_strptime
           (fun _ _ => false) to_datetime_identity
           (ejemplo_imagenes "2025_1") "timestamp").
  reflexivity.
Defined.

Lemma procesar_timestamps_keeps_other_columns_witness :
  Frame.get_series "genus"
    (procesar_timestamps ejemplo_strptime (fun _ _ => false)
       to_datetime_identity (ejemplo_imagenes "2025_1") "timestamp")
  = Frame.get_series "genus" (ejemplo_imagenes "2025_1").
Proof.
  apply (procesar_timestamps_keeps_other_columns ejemplo_strptime
           (fun _ _ => false) to_datetime_identity).
  cbn. intuition discriminate.
Defined.

(** ** JurisdictionAssigner: the rows of the result *)

Lemma insert_key_sorted (k : Z) (l : list Z) :
  StronglySorted Z.lt l -> StronglySorted Z.lt (Stats.insert_key k l).
Proof.
  induction l as [| x r IH]; cbn; intros H.
  - constructor; constructor.
  - inversion H as [| ? ? Hr Hx]; subst.
    destruct (k <? x) eqn:E1.
    + apply Z.ltb_lt in E1. constructor; [exact H |].
      constructor; [exact E1 |].
      eapply Forall_impl; [| exact Hx]. cbn. intros; lia.
    + destruct (k =? x) eqn:E2; [exact H |].
      apply Z.ltb_ge in E1. apply Z.eqb_neq in E2.
      constructor; [apply IH; exact Hr |].
      apply Forall_forall. intros y Hy.
      apply insert_key_In in Hy as [-> | Hy]; [lia |].
      rewrite Forall_forall in Hx. apply Hx. exact Hy.
Qed.

Lemma group_keys_sorted (l : list Z) :
  StronglySorted Z.lt (Stats.group_keys l).
Proof.
  unfold Stats.group_keys. induction l as [| x r IH]; cbn.
  - constructor.
  - apply insert_key_sorted. exact IH.
Qed.

Lemma sorted_lt_NoDup (l : list Z) : StronglySorted Z.lt l -> NoDup l.
Proof.
  induction 1 as [| x r Hr IH Hx]; constructor; [| exact IH].
  intros Hin. rewrite Forall_forall in Hx. specialize (Hx x Hin). lia.
Qed.

Section JurisdictionRows.
Import StatsFacts.

Variable polygon : Type.
Variable within : Q * Q -> polygon -> bool.

Lemma map_fst_agregar (rows : list (Deployment * option string)) :
  map fst (agregar_por_proyecto rows)
  = Stats.group_keys (map (fun r => project_id (fst r)) rows).
Proof.
  unfold agregar_por_proyecto. rewrite map_map. cbn. apply map_id.
Qed.

(** X10. Whatever the polygon dataset turns out to be, the result holds
    at most one row per project. When the dataset is usable and some
    deployment has coordinates, the rows come in ascending order of
    project_id and belong to exactly the projects that have a deployment
    with both coordinates; with no such deployment the all-null table is
    returned. *)
Theorem asignar_corporacion_one_row_per_project
        (deployments : list Deployment) :
  (forall s : Shapefile polygon,
      NoDup (map fst (asignar_corporacion_geografica within deployments s)))
  /\ (forall cars : list (Car polygon),
        let result :=
          asignar_corporacion_geografica within deployments (Cars cars) in
        match filter has_coordinates deployments with
        | [] => result = crear_corporaciones_null deployments
        | _ :: _ =>
            StronglySorted Z.lt (map fst result)
            /\ forall p,
                 In p (map fst result) <->
                 exists d, In d deployments
                           /\ has_coordinates d = true
                           /\ project_id d = p
        end).
Proof.
  assert (NoDup (map fst (crear_corporaciones_null deployments))) as Hnull.
  { unfold crear_corporaciones_null. rewrite map_map. cbn. rewrite map_id.
    apply (unique_NoDup _ Z.eqb_eq). }
  split.
  - intros [| | geometries | cars]; cbn [asignar_corporacion_geografica];
      try exact Hnull.
    destruct (filter has_coordinates deployments) as [| d ds];
      [exact Hnull |].
    cbn [List.length Nat.eqb]. rewrite map_fst_agregar.
    apply sorted_lt_NoDup, group_keys_sorted.
  - intros cars. cbv zeta. cbn [asignar_corporacion_geografica].
    destruct (filter has_coordinates deployments) as [| d0 ds] eqn:E;
      [reflexivity |].
    cbn [List.length Nat.eqb]. rewrite map_fst_agregar.
    split; [apply group_keys_sorted |].
    intros p. rewrite group_keys_In, in_map_iff. rewrite <- E. split.
    + intros ([d c] & Hp & Hin). cbn in Hp.
      apply sjoin_In in Hin. apply filter_In in Hin as [H1 H2].
      exists d. auto.
    + intros (d & H1 & H2 & Hp).
      destruct (sjoin_covers polygon within (filter has_coordinates deployments)
                  cars d) as [c Hc].
      { apply filter_In. auto. }
      exists (d, c). auto.
Qed.

(** X11. A project is only ever given the name of a jurisdiction whose
    polygon contains one of its own deployments: a name in the result
    means that the dataset was usable and that some deployment of the
    project with both coordinates lies within a polygon of that name. *)
Theorem asignar_corporacion_sound
        (deployments : list Deployment) (s : Shapefile polygon)
        (p : Z) (name : string) :
  corporacion_de_proyecto p
    (asignar_corporacion_geografica within deployments s) = Some name ->
  exists cars d c,
    s = Cars cars
    /\ In d deployments /\ project_id d = p
    /\ has_coordinates d = true
    /\ In c cars /\ point_within within d c = true
    /\ NOMBRE_CAR c = Some name.
Proof.
  destruct s as [| | geometries | cars];
    cbn [asignar_corporacion_geografica];
    try (rewrite corporacion_null; discriminate).
  fold (asignar_corporacion_geografica within deployments (Cars cars)).
  rewrite asignar_corporacion. intros H.
  apply moda_some in H as [Hin _].
  unfold corporaciones_de in Hin.
  apply in_map_iff in Hin as ([d c] & Hc & Hin). cbn in Hc. subst c.
  apply filter_In in Hin as [Hin Hp]. cbn in Hp. apply Z.eqb_eq in Hp.
  unfold sjoin in Hin. apply in_flat_map in Hin as (d' & Hd' & Hin).
  apply filter_In in Hd' as [Hd1 Hd2].
  destruct (filter (point_within within d') cars) as [| m ms] eqn:E.
  - destruct Hin as [[=] | []].
  - apply in_map_iff in Hin as (c & [= <- Hname] & Hc).
    rewrite <- E in Hc. apply filter_In in Hc as [Hc1 Hc2].
    exists cars, d', c. repeat split; auto.
Qed.

End JurisdictionRows.

Lemma asignar_corporacion_sound_witness :
  exists cars d c,
    Cars ejemplo_cars = Cars cars
    /\ In d ejemplo_tres_a_uno /\ project_id d = 7
    /\ has_coordinates d = true
    /\ In c cars /\ point_within within_banda d c = true
    /\ NOMBRE_CAR c = Some "A".
Proof.
  apply (asignar_corporacion_sound banda within_banda ejemplo_tres_a_uno
           (Cars ejemplo_cars) 7 "A").
  reflexivity.
Defined.

(** ** Orchestrator: the exports *)


(** ** File discovery and loading *)

Lemma prefix_iff (a s : string) :
  String.prefix a s = true <-> exists post, s = a ++ post.
Proof.
  revert s. induction a as [| c a IH]; intros s.
  - destruct s; cbn; split; eauto.
  - destruct s as [| d s]; cbn.
    + split; [discriminate | intros (post & [=])].
    + destruct (ascii_dec c d) as [-> | Hne].
      * rewrite IH. split; intros (post & H); exists post.
        -- rewrite H. reflexivity.
        -- injection H as H. exact H.
      * split; [discriminate |].
        intros (post & [= H _]). congruence.
Qed.

Lemma contains_iff (sub s : string) :
  contains sub s = true <-> exists pre post, s = pre ++ sub ++ post.
Proof.
  induction s as [| c s IH].
  - cbn [contains]. rewrite orb_false_r, prefix_iff. split.
    + intros (post & H). exists "", post. exact H.
    + intros ([| d pre] & post & H); [exists post; exact H |].
      discriminate.
  - cbn [contains]. rewrite orb_true_iff, prefix_iff, IH. split.
    + intros [(post & H) | (pre & post & H)].
      * exists "", post. exact H.
      * exists (String c pre), post. rewrite H. reflexivity.
    + intros ([| d pre] & post & H).
      * left. exists post. exact H.
      * right. injection H as _ H. exists pre, post. exact H.
Qed.

Lemma length_append (a b : string) :
  String.length (a ++ b) = (String.length a + String.length b)%nat.
Proof. induction a as [| c a IH]; cbn; [reflexivity | rewrite IH; reflexivity]. Qed.

Lemma substring_append_right (a b : string) :
  substring (String.length a) (String.length b) (a ++ b) = b.
Proof.
  induction a as [| c a IH]; cbn; [| exact IH].
  induction b as [| d b IHb]; cbn; [reflexivity |].
  rewrite IHb. reflexivity.
Qed.

Lemma substring_split (n : nat) (s : string) :
  (n <= String.length s)%nat ->
  s = substring 0 n s ++ substring n (String.length s - n) s.
Proof.
  revert n. induction s as [| c s IH]; intros [| n] Hn; cbn in *.
  - reflexivity.
  - lia.
  - f_equal. clear. induction s as [| d s IHs]; cbn; [reflexivity |].
    rewrite <- IHs. reflexivity.
  - f_equal. apply IH. lia.
Qed.

Lemma endswith_iff (suffix s : string) :
  endswith suffix s = true <-> exists pre, s = pre ++ suffix.
Proof.
  unfold endswith. rewrite andb_true_iff, Nat.leb_le, String.eqb_eq. split.
  - intros [Hlen Hsub].
    exists (substring 0 (String.length s - String.length suffix) s).
    pose proof (substring_split (String.length s - String.length suffix) s
                  ltac:(lia)) as H.
    replace (String.length s - (String.length s - String.length suffix))%nat
      with (String.length suffix) in H by lia.
    rewrite Hsub in H. exact H.
  - intros (pre & ->). rewrite length_append. split; [lia |].
    replace (String.length pre + String.length suffix
             - String.length suffix)%nat
      with (String.length pre) by lia.
    apply substring_append_right.
Qed.

Lemma leb_total (a b : string) :
  (a <=? b)%string = false -> (b <=? a)%string = true.
Proof.
  unfold String.leb. rewrite (String.compare_antisym a b).
  destruct (String.compare b a); cbn; congruence.
Qed.

Lemma insert_sorted_sorted (s : string) (l : list string) :
  StronglySorted (fun a b => (a <=? b)%string = true) l ->
  StronglySorted (fun a b => (a <=? b)%string = true)
                 (Stats.insert_sorted s l).
Proof.
  induction l as [| x r IH]; cbn; intros H.
  - constructor; constructor.
  - inversion H as [| ? ? Hr Hx]; subst.
    destruct (s <=? x)%string eqn:E.
    + constructor; [exact H |]. constructor; [exact E |].
      eapply Forall_impl; [| exact Hx]. cbn. intros y Hy.
      eapply StatsFacts.leb_trans; eauto.
    + constructor; [apply IH; exact Hr |].
      apply Forall_forall. intros y Hy.
      apply StatsFacts.insert_sorted_In in Hy as [-> | Hy].
      * apply leb_total. exact E.
      * rewrite Forall_forall in Hx. apply Hx. exact Hy.
Qed.

Lemma sort_sorted (l : list string) :
  StronglySorted (fun a b => (a <=? b)%string = true) (Stats.sort l).
Proof.
  unfold Stats.sort. induction l as [| x r IH]; cbn.
  - constructor.
  - apply insert_sorted_sorted. exact IH.
Qed.

Section CargaFacts.

Variable listdir : string -> option (list string).
Variable path_join : string -> string -> string.
Variable exists_file : string -> bool.
Variable read_csv : string -> Lectura.
Variable read_csv_utf16 : string -> option DataFrame.
Variable pd_concat : list DataFrame -> DataFrame.

Local Abbreviation obtener := (obtener_archivos_csv_imagenes listdir).
Local Abbreviation cargar :=
  (cargar_csv_robusto exists_file read_csv read_csv_utf16).
Local Abbreviation lista :=
  (cargar_lista path_join exists_file read_csv read_csv_utf16).
Local Abbreviation concatenar :=
  (concatenar_archivos_csv listdir path_join exists_file read_csv
                           read_csv_utf16 pd_concat).

(** X13. The image files of a folder are exactly its entries whose name
    contains "images" and ends in ".csv", listed in ascending order; a
    folder that does not exist gives the empty list. *)
Theorem obtener_archivos_csv_imagenes_spec (folder_path : string) :
  let csv_files := obtener_archivos_csv_imagenes listdir folder_path in
  (forall f,
      In f csv_files <->
      exists all_files,
        listdir folder_path = Some all_files
        /\ In f all_files
        /\ (exists pre post, f = pre ++ "images" ++ post)
        /\ (exists pre, f = pre ++ ".csv"))
  /\ StronglySorted (fun a b => (a <=? b)%string = true) csv_files
  /\ (listdir folder_path = None -> csv_files = []).
Proof.
  cbv zeta. unfold obtener_archivos_csv_imagenes.
  destruct (listdir folder_path) as [all_files |].
  - split; [| split; [apply sort_sorted | discriminate]].
    intros f. rewrite StatsFacts.sort_In, !filter_In.
    rewrite contains_iff, endswith_iff. split.
    + intros [[H1 H2] H3]. exists all_files. auto.
    + intros (l & [= <-] & H1 & H2 & H3). auto.
  - split; [| split; [constructor | reflexivity]].
    intros f. cbn. split; [tauto | intros (l & [=] & _)].
Qed.

Lemma cargar_lista_In (folder_path : string) (csv_files : list string)
      (df : DataFrame) :
  In df (lista folder_path csv_files) <->
  exists csv, In csv csv_files
              /\ cargar (path_join folder_path csv) = Some df.
Proof.
  induction csv_files as [| csv resto IH]; cbn [cargar_lista].
  - cbn. split; [tauto | intros (? & [] & _)].
  - destruct (cargar (path_join folder_path csv)) as [d |] eqn:E.
    + cbn [In]. rewrite IH. split.
      * intros [<- | (c & Hc & Hl)]; [exists csv | exists c]; cbn; auto.
      * intros (c & [<- | Hc] & Hl).
        -- left. congruence.
        -- right. exists c. auto.
    + rewrite IH. split.
      * intros (c & Hc & Hl). exists c. cbn. auto.
      * intros (c & [<- | Hc] & Hl); [congruence |]. exists c. auto.
Qed.

(** X14. The consolidated image table is missing exactly when no image
    file of the folder loads (in particular when the folder has none);
    otherwise it is the concatenation of the tables that load, taken in
    ascending order of file name, the files that fail being skipped. A
    file loads when it exists and is read either directly or, after a
    decoding error, as tab-separated UTF-16. *)
Theorem concatenar_archivos_csv_spec (folder_path : string) :
  let csv_files := obtener_archivos_csv_imagenes listdir folder_path in
  let df_list :=
    cargar_lista path_join exists_file read_csv read_csv_utf16
                 folder_path csv_files in
  (concatenar_archivos_csv listdir path_join exists_file read_csv
                           read_csv_utf16 pd_concat folder_path = None <->
   forall csv,
     In csv csv_files ->
     cargar_csv_robusto exists_file read_csv read_csv_utf16
                        (path_join folder_path csv) = None)
  /\ (forall df,
        concatenar_archivos_csv listdir path_join exists_file read_csv
                                read_csv_utf16 pd_concat folder_path
        = Some df ->
        df = pd_concat df_list /\ df_list <> [])
  /\ (forall df,
        In df df_list <->
        exists csv,
          In csv csv_files
          /\ cargar_csv_robusto exists_file read_csv read_csv_utf16
                                (path_join folder_path csv) = Some df)
  /\ (forall file_path df,
        cargar_csv_robusto exists_file read_csv read_csv_utf16 file_path
        = Some df <->
        exists_file file_path = true
        /\ (read_csv file_path = Leido df
            \/ (read_csv file_path = ErrorUnicode
                /\ read_csv_utf16 file_path = Some df))).
Proof.
  cbv zeta.
  split; [| split; [| split]].
  - unfold concatenar_archivos_csv.
    destruct (obtener folder_path) as [| f fs] eqn:Ef.
    + split; [intros _ csv [] | reflexivity].
    + rewrite <- Ef.
      destruct (lista folder_path (obtener folder_path)) as [| d ds] eqn:El.
      * split; [| reflexivity]. intros _ csv Hcsv.
        destruct (cargar (path_join folder_path csv)) as [df |] eqn:E;
          [| reflexivity].
        assert (In df (lista folder_path (obtener folder_path))) as Hin
            by (apply cargar_lista_In; exists csv; auto).
        rewrite El in Hin. destruct Hin.
      * split; [discriminate |]. intros H. exfalso.
        assert (In d (lista folder_path (obtener folder_path))) as Hin
            by (rewrite El; left; reflexivity).
        apply cargar_lista_In in Hin as (csv & Hcsv & Hl).
        rewrite (H csv Hcsv) in Hl. discriminate.
  - intros df. unfold concatenar_archivos_csv.
    destruct (obtener folder_path) as [| f fs] eqn:Ef; [discriminate |].
    destruct (lista folder_path (f :: fs)) as [| d ds];
      [discriminate |].
    intros [= <-]. split; [reflexivity | discriminate].
  - intros df. apply cargar_lista_In.
  - intros file_path df. unfold cargar_csv_robusto.
    destruct (exists_file file_path); cbn [negb].
    + destruct (read_csv file_path) as [d | |]; split.
      * intros [= ->]. auto.
      * intros [_ [[= ->] | [[=] _]]]. reflexivity.
      * intros H. auto.
      * intros [_ [[=] | [_ H]]]. exact H.
      * discriminate.
      * intros [_ [[=] | [[=] _]]].
    + split; [discriminate | intros [[=] _]].
Qed.

End CargaFacts.

(** ** Column renaming *)

Section RenameFacts.
Import Frame FrameFacts.

Lemma labels_rename_columns (old_name new_name : string) (df : DataFrame) :
  labels (rename_columns old_name new_name df)
  = map (relabel old_name new_name) (labels df).
Proof.
  unfold labels, rename_columns, relabel. cbn [columns].
  rewrite !map_map. apply map_ext. intros c.
  destruct (label c =? old_name)%string; reflexivity.
Qed.

Lemma dtypes_rename_columns (old_name new_name : string) (df : DataFrame) :
  map col_dtype (columns (rename_columns old_name new_name df))
  = map col_dtype (columns df).
Proof.
  unfold rename_columns. cbn [columns]. rewrite map_map.
  apply map_ext. intros c.
  destruct (label c =? old_name)%string; reflexivity.
Qed.

Lemma rename_columns_absent (old_name new_name : string) (df : DataFrame) :
  has_column old_name df = false ->
  rename_columns old_name new_name df = df.
Proof.
  intros H. unfold rename_columns. destruct df as [cs rs]. cbn. f_equal.
  rewrite <- (map_id cs) at 2. apply map_ext_in. intros c Hc.
  destruct (label c =? old_name)%string eqn:E; [| reflexivity].
  exfalso. apply String.eqb_eq in E.
  assert (has_column old_name {| columns := cs; rows := rs |} = true)
    as Ht; [| congruence].
  apply existsb_label_In. unfold labels. cbn. rewrite <- E.
  apply in_map. exact Hc.
Qed.

Lemma renombrar_step (old_name new_name : string) (df : DataFrame) :
  (if has_column old_name df
   then rename_columns old_name new_name df else df)
  = rename_columns old_name new_name df.
Proof.
  destruct (has_column old_name df) eqn:E; [reflexivity |].
  symmetry. apply rename_columns_absent. exact E.
Qed.

Lemma renombrar_unfold (df : DataFrame) :
  renombrar_columnas_wi df
  = rename_columns "scientific_name" "sp_binomial"
      (rename_columns "end_date" "sensor_end_date_and_time"
         (rename_columns "start_date" "sensor_start_date_and_time"
            (rename_columns "timestamp" "photo_datetime"
               (rename_columns "deployment_id" "deployment_name" df)))).
Proof.
  unfold renombrar_columnas_wi, COLUMN_MAPPING.
  cbn [fold_left fst snd]. rewrite !renombrar_step. reflexivity.
Qed.

Lemma nombre_interno_cases (l : string) :
  (l = "deployment_id" /\ nombre_interno l = "deployment_name")
  \/ (l = "timestamp" /\ nombre_interno l = "photo_datetime")
  \/ (l = "start_date" /\ nombre_interno l = "sensor_start_date_and_time")
  \/ (l = "end_date" /\ nombre_interno l = "sensor_end_date_and_time")
  \/ (l = "scientific_name" /\ nombre_interno l = "sp_binomial")
  \/ (nombre_interno l = l
      /\ l <> "deployment_id" /\ l <> "timestamp" /\ l <> "start_date"
      /\ l <> "end_date" /\ l <> "scientific_name").
Proof.
  unfold nombre_interno, COLUMN_MAPPING. cbn [find fst snd].
  destruct (String.eqb_spec "deployment_id" l) as [<- | H1];
    [left; split; reflexivity |].
  destruct (String.eqb_spec "timestamp" l) as [<- | H2];
    [right; left; split; reflexivity |].
  destruct (String.eqb_spec "start_date" l) as [<- | H3];
    [do 2 right; left; split; reflexivity |].
  destruct (String.eqb_spec "end_date" l) as [<- | H4];
    [do 3 right; left; split; reflexivity |].
  destruct (String.eqb_spec "scientific_name" l) as [<- | H5];
    [do 4 right; left; split; reflexivity |].
  do 5 right. repeat split; (reflexivity || congruence).
Qed.

Lemma relabel_chain (l : string) :
  relabel "scientific_name" "sp_binomial"
    (relabel "end_date" "sensor_end_date_and_time"
       (relabel "start_date" "sensor_start_date_and_time"
          (relabel "timestamp" "photo_datetime"
             (relabel "deployment_id" "deployment_name" l))))
  = nombre_interno l.
Proof.
  destruct (nombre_interno_cases l)
    as [[-> ->] | [[-> ->] | [[-> ->] | [[-> ->] | [[-> ->] | H]]]]];
    try reflexivity.
  destruct H as (-> & H1 & H2 & H3 & H4 & H5).
  unfold relabel.
  apply String.eqb_neq in H1, H2, H3, H4, H5.
  rewrite H1, H2, H3, H4, H5. reflexivity.
Qed.

Lemma labels_renombrar (df : DataFrame) :
  labels (renombrar_columnas_wi df) = map nombre_interno (labels df).
Proof.
  rewrite renombrar_unfold, !labels_rename_columns, !map_map.
  apply map_ext. intros l. apply relabel_chain.
Qed.

Lemma rows_renombrar (df : DataFrame) :
  rows (renombrar_columnas_wi df) = rows df.
Proof. rewrite renombrar_unfold. reflexivity. Qed.

Lemma dtypes_renombrar (df : DataFrame) :
  map col_dtype (columns (renombrar_columnas_wi df))
  = map col_dtype (columns df).
Proof.
  rewrite renombrar_unfold, !dtypes_rename_columns. reflexivity.
Qed.

(** X15. The renaming relabels each column by the Wildlife Insights
    mapping in one pass and touches nothing else: labels outside the
    mapping, the dtypes, the cells and the order of the columns stay, and
    afterwards none of the five original names is a column. *)
Theorem renombrar_columnas_wi_relabels (df : DataFrame) :
  let out := renombrar_columnas_wi df in
  labels out = map nombre_interno (labels df)
  /\ map col_dtype (columns out) = map col_dtype (columns df)
  /\ rows out = rows df
  /\ (forall l, ~ In l (map fst COLUMN_MAPPING) -> nombre_interno l = l)
  /\ (forall old_name,
        In old_name (map fst COLUMN_MAPPING) ->
        has_column old_name out = false).
Proof.
  cbv zeta.
  split; [apply labels_renombrar |].
  split; [apply dtypes_renombrar |].
  split; [apply rows_renombrar |].
  split.
  - intros l Hl. cbn in Hl.
    destruct (nombre_interno_cases l)
      as [[-> _] | [[-> _] | [[-> _] | [[-> _] | [[-> _] | [H _]]]]]];
      try exact H; exfalso; apply Hl; tauto.
  - intros old_name Hold.
    destruct (has_column old_name (renombrar_columnas_wi df)) eqn:E;
      [| reflexivity].
    exfalso. apply existsb_label_In in E. rewrite labels_renombrar in E.
    apply in_map_iff in E as (l & Hl & _).
    cbn in Hold.
    destruct (nombre_interno_cases l)
      as [[-> Hn] | [[-> Hn] | [[-> Hn] | [[-> Hn] | [[-> Hn] | H]]]]];
      try (rewrite Hn in Hl; subst old_name;
           repeat (destruct Hold as [Hold | Hold]; try discriminate);
           exact Hold).
    destruct H as (Hn & H1 & H2 & H3 & H4 & H5).
    rewrite Hn in Hl. subst l.
    repeat (destruct Hold as [Hold | Hold]; try congruence).
Qed.

Lemma nombre_interno_photo_datetime (l : string) :
  nombre_interno l = "photo_datetime" ->
  l = "timestamp" \/ l = "photo_datetime".
Proof.
  destruct (nombre_interno_cases l)
    as [[-> ->] | [[-> ->] | [[-> ->] | [[-> ->] | [[-> ->] | [-> _]]]]]];
    try discriminate; auto.
Qed.

Lemma position_renamed_timestamp (l : list string) (i : nat) :
  position "timestamp" l = Some i ->
  (forall k, position "photo_datetime" l = Some k -> (i < k)%nat) ->
  position "photo_datetime" (map nombre_interno l) = Some i.
Proof.
  revert i. induction l as [| x r IH]; intros i; cbn [position map];
    [discriminate |].
  destruct (String.eqb_spec "timestamp" x) as [<- | Hx].
  - intros [= <-] _. reflexivity.
  - destruct (String.eqb_spec "photo_datetime" x) as [<- | Hy].
    + intros _ H. specialize (H O eq_refl). lia.
    + destruct (String.eqb_spec "photo_datetime" (nombre_interno x))
        as [Hn | _].
      * symmetry in Hn. apply nombre_interno_photo_datetime in Hn.
        destruct Hn; congruence.
      * destruct (position "timestamp" r) as [i' |]; [| discriminate].
        cbn [option_map]. intros [= <-] H.
        rewrite (IH i' eq_refl); [reflexivity |].
        intros k Hk. rewrite Hk in H. specialize (H (S k) eq_refl). lia.
Qed.

(** X16. After the renaming, a table that already had a photo_datetime
    column to the right of its timestamp column carries that label
    twice, and the removal of repeated labels keeps the first: what is
    then read as photo_datetime is the original timestamp column, cells
    and dtype, and the column that stood under photo_datetime before is
    gone. *)
Theorem renamed_timestamp_shadows_photo_datetime
        (df : DataFrame) (i : nat) :
  position "timestamp" (labels df) = Some i ->
  (forall k, position "photo_datetime" (labels df) = Some k -> (i < k)%nat) ->
  let out := drop_duplicated_columns (renombrar_columnas_wi df) in
  get_series "photo_datetime" out = get_series "timestamp" df
  /\ dtype_of "photo_datetime" out = dtype_of "timestamp" df
  /\ has_column "timestamp" out = false.
Proof.
  intros Hi Hk. cbv zeta.
  pose proof (position_renamed_timestamp _ _ Hi Hk) as Hp.
  rewrite <- labels_renombrar in Hp.
  split; [| split].
  - rewrite get_series_drop_duplicated.
    rewrite (get_series_position _ _ _ Hp), (get_series_position _ _ _ Hi).
    rewrite rows_renombrar. reflexivity.
  - rewrite dtype_of_drop_duplicated. unfold dtype_of. rewrite Hp, Hi.
    rewrite <- !nth_error_map, dtypes_renombrar. reflexivity.
  - rewrite (has_column_drop_duplicated (fun _ => None)).
    destruct (has_column "timestamp" (renombrar_columnas_wi df)) eqn:E;
      [| reflexivity].
    exfalso. apply existsb_label_In in E. rewrite labels_renombrar in E.
    apply in_map_iff in E as (l & Hl & _).
    destruct (nombre_interno_cases l)
      as [[-> Hn] | [[-> Hn] | [[-> Hn] | [[-> Hn] | [[-> Hn] | H]]]]];
      try (rewrite Hn in Hl; discriminate).
    destruct H as (Hn & _ & H2 & _). congruence.
Qed.

End RenameFacts.

Lemma renamed_timestamp_shadows_photo_datetime_witness :
  let out := drop_duplicated_columns (renombrar_columnas_wi ejemplo_fusion) in
  Frame.get_series "photo_datetime" out
  = Frame.get_series "timestamp" ejemplo_fusion
  /\ Frame.dtype_of "photo_datetime" out
     = Frame.dtype_of "timestamp" ejemplo_fusion
  /\ Frame.has_column "timestamp" out = false.
Proof.
  apply (renamed_timestamp_shadows_photo_datetime ejemplo_fusion 0%nat).
  - reflexivity.
  - intros k [= <-]. lia.
Defined.

(** ** Scientific name *)

Section NombreCientificoFacts.
Import Frame FrameFacts.

Lemma all_some_map {A B : Type} (f : A -> option B) (g : A -> B)
      (l : list A) :
  (forall x, In x l -> f x = Some (g x)) ->
  all_some (map f l) = Some (map g l).
Proof.
  induction l as [| x r IH]; cbn; intros H; [reflexivity |].
  rewrite (H x) by auto. rewrite IH by auto. reflexivity.
Qed.

Lemma all_some_none {A : Type} (l : list (option A)) :
  all_some l = None <-> In None l.
Proof.
  induction l as [| [x |] r IH]; cbn.
  - split; [discriminate | tauto].
  - destruct (all_some r); cbn.
    + split; [discriminate |]. intros [H | H]; [discriminate |].
      apply IH in H. discriminate.
    + split; [| reflexivity]. intros _. right. apply IH. reflexivity.
  - split; auto.
Qed.

Lemma append_assoc (a b c : string) : (a ++ b) ++ c = a ++ b ++ c.
Proof.
  induction a as [| x a IH]; cbn; [reflexivity | rewrite IH; reflexivity].
Qed.

Lemma binomial_cell_texto (g s : value) :
  texto_o_nulo g = true -> texto_o_nulo s = true ->
  binomial_cell g s
  = Some (match g, s with
          | VStr a, VStr b => VStr (a ++ " " ++ b)
          | _, _ => VNaN
          end).
Proof.
  destruct g, s; cbn; try discriminate; try reflexivity.
  intros _ _. rewrite append_assoc. reflexivity.
Qed.

Lemma binomial_cell_none (g s : value) :
  binomial_cell g s = None <->
  texto_o_nulo g = false \/ (isna g = false /\ texto_o_nulo s = false).
Proof.
  destruct g, s; cbn; intuition discriminate.
Qed.

Variable add_extension : list value -> dtype -> list value
                         -> option (list value).

Lemma crear_nombre_cientifico_unfold (df : DataFrame) (jg js : nat)
      (d : dtype) :
  position "genus" (labels df) = Some jg ->
  position "species" (labels df) = Some js ->
  dtype_of "genus" df = Some object ->
  dtype_of "species" df = Some d ->
  es_extension d = false ->
  crear_nombre_cientifico add_extension df
  = match all_some (map (fun r => binomial_cell (cell_at jg r)
                                                (cell_at js r))
                        (rows df)) with
    | Some sp_binomial => Some (assign "sp_binomial" object sp_binomial df)
    | None => None
    end.
Proof.
  intros Hg Hs Dg Ds Hd. unfold crear_nombre_cientifico, sumar_genus_species.
  rewrite (position_has_column _ _ _ Hg), (position_has_column _ _ _ Hs).
  cbn [andb]. rewrite Dg, Ds, Hd.
  rewrite (get_series_position _ _ _ Hg), (get_series_position _ _ _ Hs).
  rewrite zip_with_map. reflexivity.
Qed.

Lemma crear_nombre_cientifico_series (df : DataFrame) (jg js : nat)
      (d : dtype) :
  position "genus" (labels df) = Some jg ->
  position "species" (labels df) = Some js ->
  dtype_of "genus" df = Some object ->
  dtype_of "species" df = Some d ->
  es_extension d = false ->
  (forall r, In r (rows df) ->
             texto_o_nulo (cell_at jg r) = true
             /\ texto_o_nulo (cell_at js r) = true) ->
  crear_nombre_cientifico add_extension df
  = Some (assign "sp_binomial" object
            (map (fun r => match cell_at jg r, cell_at js r with
                           | VStr a, VStr b => VStr (a ++ " " ++ b)
                           | _, _ => VNaN
                           end) (rows df)) df).
Proof.
  intros Hg Hs Dg Ds Hd Ht.
  rewrite (crear_nombre_cientifico_unfold _ _ _ _ Hg Hs Dg Ds Hd).
  rewrite (all_some_map _
             (fun r => match cell_at jg r, cell_at js r with
                       | VStr a, VStr b => VStr (a ++ " " ++ b)
                       | _, _ => VNaN
                       end)); [reflexivity |].
  intros r Hr. destruct (Ht r Hr) as [H1 H2].
  apply binomial_cell_texto; assumption.
Qed.

(** X17. On a table with pairwise distinct labels, a genus column of
    dtype object and a species column that is neither datetime64 nor
    categorical, whose genus and species cells are texts or missing, the
    step returns the table with the column sp_binomial set, row by row,
    to genus, a blank and species when both are texts and to NaN as soon
    as one of them is missing; the number of rows and the cells under
    every other label are unchanged. *)
Theorem crear_nombre_cientifico_cells
        (df : DataFrame) (jg js : nat) (d : dtype) :
  NoDup (labels df) ->
  position "genus" (labels df) = Some jg ->
  position "species" (labels df) = Some js ->
  dtype_of "genus" df = Some object ->
  dtype_of "species" df = Some d ->
  es_extension d = false ->
  (forall r, In r (rows df) ->
             texto_o_nulo (cell_at jg r) = true
             /\ texto_o_nulo (cell_at js r) = true) ->
  exists out,
    crear_nombre_cientifico add_extension df = Some out
    /\ len out = len df
    /\ get_series "sp_binomial" out
       = map (fun r => match cell_at jg r, cell_at js r with
                       | VStr a, VStr b => VStr (a ++ " " ++ b)
                       | _, _ => VNaN
                       end) (rows df)
    /\ forall name, name <> "sp_binomial" ->
                    get_series name out = get_series name df.
Proof.
  intros _ Hg Hs Dg Ds Hd Ht.
  rewrite (crear_nombre_cientifico_series _ _ _ _ Hg Hs Dg Ds Hd Ht).
  eexists. split; [reflexivity |].
  split; [apply len_assign |]. split.
  - apply get_series_assign_same. apply length_map.
  - intros name Hn. apply get_series_assign_other. exact Hn.
Qed.

(** X18. A table without a genus or a species column comes back as it
    is. With both columns and pairwise distinct labels, the step raises
    whenever the genus column is not of dtype object, whatever its cells
    are and even without rows: a text cannot be added to such a column.
    With a genus column of dtype object and a species column that is
    neither datetime64 nor categorical, it raises exactly when some row
    has a genus that is neither a text nor missing, or a genus that is
    present next to a species that is neither a text nor missing; a
    missing genus hides whatever stands under species. *)
Theorem crear_nombre_cientifico_raises (df : DataFrame) :
  (has_column "genus" df = false \/ has_column "species" df = false ->
   crear_nombre_cientifico add_extension df = Some df)
  /\ (forall d,
        NoDup (labels df) ->
        has_column "species" df = true ->
        dtype_of "genus" df = Some d ->
        d <> object ->
        crear_nombre_cientifico add_extension df = None)
  /\ (forall jg js d,
        NoDup (labels df) ->
        position "genus" (labels df) = Some jg ->
        position "species" (labels df) = Some js ->
        dtype_of "genus" df = Some object ->
        dtype_of "species" df = Some d ->
        es_extension d = false ->
        (crear_nombre_cientifico add_extension df = None <->
         exists r,
           In r (rows df)
           /\ (texto_o_nulo (cell_at jg r) = false
               \/ (isna (cell_at jg r) = false
                   /\ texto_o_nulo (cell_at js r) = false)))).
Proof.
  split; [| split].
  - unfold crear_nombre_cientifico. intros [-> | ->];
      [| rewrite andb_false_r]; reflexivity.
  - intros d _ Hs Dg Hd. unfold crear_nombre_cientifico, sumar_genus_species.
    rewrite Hs, Dg.
    destruct (has_column "genus" df) eqn:Hgc; cbn [andb].
    + destruct d; try reflexivity. destruct (Hd eq_refl).
    + exfalso. unfold dtype_of in Dg.
      destruct (position "genus" (labels df)) as [j |] eqn:E;
        [| discriminate].
      apply position_has_column in E. congruence.
  - intros jg js d _ Hg Hs Dg Ds Hd.
    rewrite (crear_nombre_cientifico_unfold _ _ _ _ Hg Hs Dg Ds Hd).
    destruct (all_some _) as [vals |] eqn:E.
    + split; [discriminate |]. intros (r & Hr & Hbad). exfalso.
      assert (all_some
                (map (fun r => binomial_cell (cell_at jg r) (cell_at js r))
                     (rows df)) = None) as Hn; [| congruence].
      apply all_some_none, in_map_iff. exists r.
      split; [apply binomial_cell_none; exact Hbad | exact Hr].
    + split; [| reflexivity]. intros _.
      apply all_some_none, in_map_iff in E as (r & Hb & Hr).
      exists r. split; [exact Hr | apply binomial_cell_none; exact Hb].
Qed.

(** X19. After the computer-vision cleaning the scientific name is never
    missing: on a table with pairwise distinct labels, a genus column of
    dtype object and a species column that is neither datetime64 nor
    categorical, whose genus and species cells are texts or missing,
    cleaning and then naming returns a table in which every sp_binomial
    cell is a text. *)
Theorem crear_nombre_cientifico_after_cleaning
        (df : DataFrame) (jg js : nat) (d : dtype) :
  NoDup (labels df) ->
  position "genus" (labels df) = Some jg ->
  position "species" (labels df) = Some js ->
  dtype_of "genus" df = Some object ->
  dtype_of "species" df = Some d ->
  es_extension d = false ->
  (forall r, In r (rows df) ->
             texto_o_nulo (cell_at jg r) = true
             /\ texto_o_nulo (cell_at js r) = true) ->
  exists out,
    crear_nombre_cientifico add_extension (limpiar_registros_cv df)
    = Some out
    /\ len out = len (limpiar_registros_cv df)
    /\ Forall (fun v => exists t, v = VStr t)
              (get_series "sp_binomial" out).
Proof.
  intros _ Hg Hs Dg Ds Hd Ht.
  rewrite (limpiar_rows df jg js Hg Hs).
  set (clean := {| columns := columns df;
                   rows := filter (fun r => cv_valido (cell_at jg r)
                                            && cv_valido (cell_at js r))
                                  (rows df) |}).
  assert (forall r, In r (rows clean) ->
                    (exists a, cell_at jg r = VStr a)
                    /\ exists b, cell_at js r = VStr b) as Hclean.
  { intros r Hr. unfold clean in Hr. cbn [rows] in Hr.
    apply filter_In in Hr as [Hr Hv].
    apply andb_true_iff in Hv as [Hv1 Hv2].
    destruct (Ht r Hr) as [H1 H2].
    unfold cv_valido, notna in Hv1, Hv2.
    destruct (cell_at jg r), (cell_at js r);
      cbn in *; try discriminate; eauto. }
  rewrite (crear_nombre_cientifico_series clean jg js d Hg Hs Dg Ds Hd).
  - eexists. split; [reflexivity |]. split; [apply len_assign |].
    rewrite get_series_assign_same by apply length_map.
    apply Forall_forall. intros v Hv.
    apply in_map_iff in Hv as (r & <- & Hr).
    destruct (Hclean r Hr) as [[a ->] [b ->]]. eauto.
  - intros r Hr. destruct (Hclean r Hr) as [[a ->] [b ->]]. auto.
Qed.

End NombreCientificoFacts.

Lemma crear_nombre_cientifico_cells_witness :
  exists out,
    crear_nombre_cientifico (fun _ _ _ => None) (ejemplo_imagenes "2025_1")
    = Some out
    /\ Frame.len out = Frame.len (ejemplo_imagenes "2025_1")
    /\ Frame.get_series "sp_binomial" out
       = map (fun r => match Frame.cell_at 1 r, Frame.cell_at 2 r with
                       | VStr a, VStr b => VStr (a ++ " " ++ b)
                       | _, _ => VNaN
                       end) (rows (ejemplo_imagenes "2025_1"))
    /\ forall name, name <> "sp_binomial" ->
                    Frame.get_series name out
                    = Frame.get_series name (ejemplo_imagenes "2025_1").
Proof.
  apply (crear_nombre_cientifico_cells (fun _ _ _ => None)
           (ejemplo_imagenes "2025_1") 1%nat 2%nat object).
  - apply (FrameFacts.duplicated_from_NoDup []). reflexivity.
  - reflexivity.
  - reflexivity.
  - reflexivity.
  - reflexivity.
  - reflexivity.
  - intros r [<- | []]. split; reflexivity.
Defined.

Lemma crear_nombre_cientifico_after_cleaning_witness :
  exists out,
    crear_nombre_cientifico (fun _ _ _ => None)
      (limpiar_registros_cv (ejemplo_imagenes "2025_1")) = Some out
    /\ Frame.len out
       = Frame.len (limpiar_registros_cv (ejemplo_imagenes "2025_1"))
    /\ Forall (fun v => exists t, v = VStr t)
              (Frame.get_series "sp_binomial" out).
Proof.
  apply (crear_nombre_cientifico_after_cleaning (fun _ _ _ => None)
           (ejemplo_imagenes "2025_1") 1%nat 2%nat object).
  - apply (FrameFacts.duplicated_from_NoDup []). reflexivity.
  - reflexivity.
  - reflexivity.
  - reflexivity.
  - reflexivity.
  - reflexivity.
  - intros r [<- | []]. split; reflexivity.
Defined.

(** ** Deployment length *)

Section DeploymentDaysFacts.
Import Frame FrameFacts.

Variable to_datetime : dtype * list value -> value -> option Timestamp.
Variable to_datetime_raises : dtype * list value -> bool.
Variable dias_raises : dtype * list value -> dtype * list value -> bool.
Variable epoch_seconds : Timestamp -> Z.

Local Abbreviation calcular :=
  (calcular_deployment_days to_datetime to_datetime_raises dias_raises
                            epoch_seconds).

Lemma zip_with_maps {A B C D E : Type} (f : C -> D -> E) (g : A -> C)
      (h : B -> D) (l1 : list A) (l2 : list B) :
  zip_with f (map g l1) (map h l2)
  = zip_with (fun a b => f (g a) (h b)) l1 l2.
Proof.
  revert l2. induction l1 as [| x r IH]; intros [| y s]; cbn;
    try reflexivity.
  rewrite IH. reflexivity.
Qed.

Lemma map_zip_with {A B C D : Type} (k : C -> D) (f : A -> B -> C)
      (l1 : list A) (l2 : list B) :
  map k (zip_with f l1 l2) = zip_with (fun a b => k (f a b)) l1 l2.
Proof.
  revert l2. induction l1 as [| x r IH]; intros [| y s]; cbn;
    try reflexivity.
  rewrite IH. reflexivity.
Qed.

Lemma length_zip_with {A B C : Type} (f : A -> B -> C)
      (l1 : list A) (l2 : list B) :
  List.length (zip_with f l1 l2)
  = Nat.min (List.length l1) (List.length l2).
Proof.
  revert l2. induction l1 as [| x r IH]; intros [| y s]; cbn;
    try reflexivity.
  rewrite IH. reflexivity.
Qed.

Lemma zip_with_ext {A B C : Type} (f g : A -> B -> C)
      (l1 : list A) (l2 : list B) :
  (forall a b, f a b = g a b) -> zip_with f l1 l2 = zip_with g l1 l2.
Proof.
  intros H. revert l2. induction l1 as [| x r IH]; intros [| y s]; cbn;
    try reflexivity.
  rewrite H, IH. reflexivity.
Qed.

Lemma primera_columna_some (candidatas : list string) (df : DataFrame)
      (col : string) :
  primera_columna candidatas df = Some col ->
  In col candidatas /\ has_column col df = true.
Proof. unfold primera_columna. apply find_some. Qed.

Lemma has_column_assign_same (c : string) (d : dtype) (vals : list value)
      (df : DataFrame) :
  has_column c (assign c d vals df) = true.
Proof.
  unfold assign. destruct (position c (labels df)) as [j |] eqn:E.
  - unfold has_column, labels. cbn [columns]. rewrite labels_set_dtype.
    apply (position_has_column _ _ _ E).
  - unfold has_column, labels. cbn [columns].
    rewrite map_app, existsb_app. cbn. rewrite String.eqb_refl.
    apply orb_true_r.
Qed.

Lemma position_app_left (name : string) (l l' : list string) (j : nat) :
  position name l = Some j -> position name (l ++ l')%list = Some j.
Proof.
  revert j. induction l as [| x r IH]; intros j; cbn; [discriminate |].
  destruct (String.eqb name x); [auto |].
  destruct (position name r) as [k |]; cbn; [| discriminate].
  intros [= <-]. rewrite (IH k eq_refl). reflexivity.
Qed.

Lemma position_lt_length (name : string) (l : list string) (j : nat) :
  position name l = Some j -> (j < List.length l)%nat.
Proof.
  revert j. induction l as [| x r IH]; intros j; cbn; [discriminate |].
  destruct (String.eqb name x); [intros [= <-]; lia |].
  destruct (position name r) as [k |]; cbn; [| discriminate].
  intros [= <-]. specialize (IH k eq_refl). lia.
Qed.

(** Writing one column leaves the dtype of every other column alone. *)
Lemma dtype_of_assign_any (c col : string) (d : dtype)
      (vals : list value) (df : DataFrame) :
  has_column col df = true -> c <> col ->
  dtype_of col (assign c d vals df) = dtype_of col df.
Proof.
  intros Hcol Hne. destruct (has_column c df) eqn:Hc.
  - apply dtype_of_assign_other; assumption.
  - destruct (has_column_position _ _ Hcol) as [j Hj].
    assert (position c (labels df) = None) as Hn.
    { destruct (position c (labels df)) eqn:E; [| reflexivity].
      apply position_has_column in E. congruence. }
    unfold dtype_of, assign. rewrite Hn.
    unfold labels at 1. cbn [columns]. rewrite map_app.
    fold (labels df).
    rewrite (position_app_left _ _ _ _ Hj), Hj.
    rewrite nth_error_app1; [reflexivity |].
    apply position_lt_length in Hj. unfold labels in Hj.
    rewrite length_map in Hj. exact Hj.
Qed.

Lemma columna_assign_any (c col : string) (d : dtype)
      (vals : list value) (df : DataFrame) :
  has_column col df = true -> c <> col ->
  columna col (assign c d vals df) = columna col df.
Proof.
  intros Hcol Hne. unfold columna.
  rewrite dtype_of_assign_any by assumption.
  rewrite get_series_assign_other by congruence. reflexivity.
Qed.

Lemma deployment_days_cero_series (df : DataFrame) :
  get_series "deployment_days" (deployment_days_cero df)
  = repeat (VInt 0) (len df).
Proof.
  unfold deployment_days_cero. apply get_series_assign_same.
  apply repeat_length.
Qed.

(** The number of days one row ends up with. *)
Lemma deployment_days_series (df : DataFrame) :
  get_series "deployment_days" (calcular df)
  = match
      primera_columna
        ["sensor_start_date"; "sensor_start_date_and_time"; "start_date"] df,
      primera_columna
        ["sensor_end_date"; "sensor_end_date_and_time"; "end_date"] df
    with
    | Some start_col, Some end_col =>
        let inicio := columna start_col df in
        let fin := columna end_col df in
        if to_datetime_raises inicio || to_datetime_raises fin
           || dias_raises inicio fin
        then repeat (VInt 0) (len df)
        else
          zip_with
            (fun a b =>
               match to_datetime inicio a, to_datetime fin b with
               | Some s, Some e =>
                   VInt (Z.max 0
                           ((epoch_seconds e - epoch_seconds s) / 86400))
               | _, _ => VInt 0
               end)
            (snd inicio) (snd fin)
    | _, _ => repeat (VInt 0) (len df)
    end.
Proof.
  unfold calcular_deployment_days.
  destruct (primera_columna _ df) as [start_col |] eqn:Es;
    [| apply deployment_days_cero_series].
  destruct (primera_columna
              ["sensor_end_date"; "sensor_end_date_and_time"; "end_date"] df)
    as [end_col |] eqn:Ee;
    [| apply deployment_days_cero_series].
  cbv zeta.
  destruct (primera_columna_some _ _ _ Es) as [Hs1 Hs2].
  destruct (primera_columna_some _ _ _ Ee) as [He1 He2].
  pose proof (length_get_series _ _ Hs2) as Ls.
  pose proof (length_get_series _ _ He2) as Le.
  assert ("sensor_start_date" <> end_col) as Hne
      by (cbn in He1; intuition (subst; discriminate)).
  set (inicio := columna start_col df).
  destruct (to_datetime_raises inicio); cbn [orb];
    [apply deployment_days_cero_series |].
  set (df1 := assign "sensor_start_date" datetime64 _ df).
  assert (len df1 = len df) as L1 by apply len_assign.
  assert (columna end_col df1 = columna end_col df) as C1
      by (apply columna_assign_any; assumption).
  rewrite C1. set (fin := columna end_col df).
  destruct (to_datetime_raises fin); cbn [orb];
    [rewrite deployment_days_cero_series; congruence |].
  set (df2 := assign "sensor_end_date" datetime64 _ df1).
  assert (len df2 = len df) as L2
      by (unfold df2; rewrite len_assign; exact L1).
  destruct (dias_raises inicio fin);
    [rewrite deployment_days_cero_series; congruence |].
  assert (get_series "sensor_end_date" df2
          = map (fun v => datetime_cell (to_datetime fin v)) (snd fin))
    as G2.
  { apply get_series_assign_same. rewrite length_map.
    unfold fin, columna. cbn [snd]. congruence. }
  assert (get_series "sensor_start_date" df2
          = map (fun v => datetime_cell (to_datetime inicio v)) (snd inicio))
    as G3.
  { unfold df2. rewrite get_series_assign_other by discriminate.
    apply get_series_assign_same. rewrite length_map.
    unfold inicio, columna. cbn [snd]. congruence. }
  rewrite G2, G3, zip_with_maps.
  set (dias := zip_with _ (snd inicio) (snd fin)).
  assert (List.length dias = len df) as Ld.
  { unfold dias. rewrite length_zip_with.
    unfold inicio, fin, columna. cbn [snd]. lia. }
  set (df3 := assign "deployment_days" float64 dias df2).
  assert (len df3 = len df) as L3
      by (unfold df3; rewrite len_assign; exact L2).
  assert (get_series "deployment_days" df3 = dias) as G4
      by (apply get_series_assign_same; congruence).
  rewrite G4.
  set (df4 := assign "deployment_days" float64 (map fillna_0 dias) df3).
  assert (get_series "deployment_days" df4 = map fillna_0 dias) as G5.
  { apply get_series_assign_same. rewrite length_map. congruence. }
  rewrite G5.
  rewrite get_series_assign_same.
  - unfold dias. rewrite !map_zip_with. apply zip_with_ext.
    intros a b.
    destruct (to_datetime inicio a), (to_datetime fin b); reflexivity.
  - rewrite !length_map. unfold df4. rewrite len_assign. congruence.
Qed.

Lemma len_calcular (df : DataFrame) : len (calcular df) = len df.
Proof.
  unfold calcular_deployment_days, deployment_days_cero.
  repeat match goal with
         | |- context [match primera_columna ?l df with _ => _ end] =>
             destruct (primera_columna l df)
         end;
    cbv zeta;
    repeat match goal with
           | |- context [if ?b then _ else _] => destruct b
           end;
    rewrite !len_assign; reflexivity.
Qed.

Lemma has_deployment_days (df : DataFrame) :
  has_column "deployment_days" (calcular df) = true.
Proof.
  unfold calcular_deployment_days, deployment_days_cero.
  repeat match goal with
         | |- context [match primera_columna ?l df with _ => _ end] =>
             destruct (primera_columna l df)
         end;
    cbv zeta;
    repeat match goal with
           | |- context [if ?b then _ else _] => destruct b
           end;
    apply has_column_assign_same.
Qed.

(** X20. On a table with pairwise distinct labels, the start date is
    read from the first of sensor_start_date, sensor_start_date_and_time
    and start_date that is a column, the end date likewise; when either
    is not found every row gets 0. Each of the two columns is converted
    by a call of its own, which reads the cells in the format it settles
    on for that column. When a conversion or the subtraction raises,
    every row gets 0. Otherwise the deployment length of a row is the
    whole number of days from the converted start date to the converted
    end date, rounded down and raised to 0 when negative, and 0 when
    either date does not convert. *)
Theorem calcular_deployment_days_value (df : DataFrame) :
  NoDup (labels df) ->
  get_series "deployment_days"
    (calcular_deployment_days to_datetime to_datetime_raises dias_raises
                              epoch_seconds df)
  = match
      primera_columna
        ["sensor_start_date"; "sensor_start_date_and_time"; "start_date"] df,
      primera_columna
        ["sensor_end_date"; "sensor_end_date_and_time"; "end_date"] df
    with
    | Some start_col, Some end_col =>
        let inicio := columna start_col df in
        let fin := columna end_col df in
        if to_datetime_raises inicio || to_datetime_raises fin
           || dias_raises inicio fin
        then repeat (VInt 0) (len df)
        else
          zip_with
            (fun a b =>
               match to_datetime inicio a, to_datetime fin b with
               | Some s, Some e =>
                   VInt (Z.max 0
                           ((epoch_seconds e - epoch_seconds s) / 86400))
               | _, _ => VInt 0
               end)
            (snd inicio) (snd fin)
    | _, _ => repeat (VInt 0) (len df)
    end.
Proof. intros _. apply deployment_days_series. Qed.

(** X21. Whatever the table, the step keeps the number of rows and
    leaves a deployment_days column with one cell per row, each of them
    an integer that is neither missing nor negative. *)
Theorem calcular_deployment_days_non_negative (df : DataFrame) :
  let out := calcular df in
  len out = len df
  /\ has_column "deployment_days" out = true
  /\ List.length (get_series "deployment_days" out) = len df
  /\ Forall (fun v => exists n, v = VInt n /\ 0 <= n)
            (get_series "deployment_days" out).
Proof.
  cbv zeta. split; [apply len_calcular |].
  pose proof (has_deployment_days df) as Hc.
  split; [exact Hc |].
  split; [rewrite (length_get_series _ _ Hc); apply len_calcular |].
  assert (Forall (fun v => exists n, v = VInt n /\ 0 <= n)
                 (repeat (VInt 0) (len df))) as Hcero.
  { apply Forall_forall. intros v Hv. apply repeat_spec in Hv.
    exists 0. split; [exact Hv | lia]. }
  rewrite deployment_days_series.
  destruct (primera_columna
              ["sensor_start_date"; "sensor_start_date_and_time";
               "start_date"] df) as [start_col |]; [| exact Hcero].
  destruct (primera_columna
              ["sensor_end_date"; "sensor_end_date_and_time";
               "end_date"] df) as [end_col |]; [| exact Hcero].
  cbv zeta.
  destruct (to_datetime_raises (columna start_col df)
            || to_datetime_raises (columna end_col df)
            || dias_raises (columna start_col df) (columna end_col df));
    [exact Hcero |].
  generalize (to_datetime (columna start_col df)).
  generalize (to_datetime (columna end_col df)).
  intros pe ps.
  generalize (snd (columna end_col df)).
  induction (snd (columna start_col df)) as [| a r IH]; intros [| b s];
    cbn; constructor; [| apply IH].
  destruct (ps a), (pe b); eexists; split; try reflexivity; lia.
Qed.

End DeploymentDaysFacts.

Lemma calcular_deployment_days_value_witness :
  NoDup (Frame.labels ejemplo_sensores)
  /\ Frame.get_series "deployment_days"
       (calcular_deployment_days
          ejemplo_to_datetime_columna (fun _ => false) (fun _ _ => false)
          ejemplo_epoch_seconds ejemplo_sensores)
     = [VInt 1; VInt 5; VInt 0].
Proof.
  assert (NoDup (Frame.labels ejemplo_sensores)) as Hnd.
  { apply (FrameFacts.duplicated_from_NoDup []). reflexivity. }
  split; [exact Hnd |].
  rewrite (calcular_deployment_days_value
             ejemplo_to_datetime_columna (fun _ => false) (fun _ _ => false)
             ejemplo_epoch_seconds ejemplo_sensores Hnd).
  vm_compute. reflexivity.
Defined.

(** ** Column selection *)

Section SelectFacts.
Import Frame FrameFacts.

Lemma positions_from_labels (i : nat) (name : string) (pre cs : list Column) :
  List.length pre = i ->
  map label
      (flat_map (fun j => match nth_error (pre ++ cs)%list j with
                          | Some c => [c]
                          | None => []
                          end)
                (positions_from i name (map label cs)))
  = filter (String.eqb name) (map label cs).
Proof.
  revert i pre. induction cs as [| c cs IH]; intros i pre Hi;
    [reflexivity |].
  cbn [map positions_from filter].
  assert (forall l : list nat,
             flat_map (fun j => match nth_error (pre ++ c :: cs)%list j with
                                | Some c => [c]
                                | None => []
                                end) l
             = flat_map (fun j => match nth_error ((pre ++ [c]) ++ cs)%list j
                                  with
                                  | Some c => [c]
                                  | None => []
                                  end) l) as Hre.
  { intros l. rewrite <- app_assoc. reflexivity. }
  destruct (String.eqb name (label c)) eqn:E.
  - cbn [flat_map map]. rewrite <- Hi at 1.
    rewrite nth_error_app2 by lia. rewrite Nat.sub_diag. cbn [nth_error].
    cbn [app map]. f_equal. rewrite Hre.
    apply IH. rewrite length_app. cbn. lia.
  - rewrite Hre. apply IH. rewrite length_app. cbn. lia.
Qed.

Lemma positions_from_head (i : nat) (name : string) (l : list string)
      (j : nat) :
  position name l = Some j ->
  exists rest, positions_from i name l = (i + j)%nat :: rest.
Proof.
  revert i j. induction l as [| x r IH]; intros i j; cbn;
    [discriminate |].
  destruct (String.eqb name x).
  - intros [= <-]. rewrite Nat.add_0_r. eauto.
  - destruct (position name r) as [k |]; [| discriminate].
    cbn. intros [= <-]. destruct (IH (S i) k eq_refl) as [rest H].
    exists rest. rewrite H. f_equal. lia.
Qed.

Lemma length_positions_from (i : nat) (name : string) (l : list string) :
  List.length (positions_from i name l)
  = List.length (filter (String.eqb name) l).
Proof.
  revert i. induction l as [| x r IH]; intros i; cbn; [reflexivity |].
  destruct (String.eqb name x); cbn; rewrite IH; reflexivity.
Qed.

Lemma position_skip (c : string) (l1 l2 : list string) :
  (forall x, In x l1 -> x <> c) ->
  position c (l1 ++ l2)%list
  = option_map (Nat.add (List.length l1)) (position c l2).
Proof.
  induction l1 as [| x r IH]; intros H; cbn.
  - destruct (position c l2); reflexivity.
  - destruct (String.eqb_spec c x) as [-> | Hne].
    + exfalso. apply (H x); [left |]; reflexivity.
    + rewrite IH by (intros y Hy; apply H; right; exact Hy).
      destruct (position c l2); reflexivity.
Qed.

Lemma position_none_not_In (c : string) (l : list string) :
  position c l = None <-> ~ In c l.
Proof.
  split.
  - intros H Hin. apply position_of_In in Hin as [j Hj]. congruence.
  - intros H. destruct (position c l) as [j |] eqn:E; [| reflexivity].
    exfalso. apply H. apply position_nth_error in E.
    eapply nth_error_In. exact E.
Qed.

Lemma labels_select_columns (names : list string) (df : DataFrame) :
  labels (select_columns names df)
  = flat_map (fun n => filter (String.eqb n) (labels df)) names.
Proof.
  unfold select_columns, labels at 1. cbn [columns].
  induction names as [| n ns IH]; [reflexivity |].
  cbn [flat_map]. rewrite flat_map_app, map_app, IH. f_equal.
  apply (positions_from_labels 0 n [] (columns df)). reflexivity.
Qed.

Lemma flat_map_filter_nil {A B : Type} (f : A -> list B) (p : A -> bool)
      (l : list A) :
  (forall x, p x = false -> f x = []) ->
  flat_map f (filter p l) = flat_map f l.
Proof.
  intros H. induction l as [| x r IH]; cbn; [reflexivity |].
  destruct (p x) eqn:E; cbn; rewrite IH; [reflexivity |].
  rewrite (H x E). reflexivity.
Qed.

Lemma filter_eqb_absent (n : string) (l : list string) :
  existsb (String.eqb n) l = false -> filter (String.eqb n) l = [].
Proof.
  induction l as [| x r IH]; cbn; [reflexivity |].
  destruct (String.eqb n x); cbn; [discriminate | exact IH].
Qed.

Lemma In_filter_eqb (n x : string) (l : list string) :
  In x (filter (String.eqb n) l) <-> x = n /\ In n l.
Proof.
  rewrite filter_In, String.eqb_eq. split.
  - intros [H <-]. auto.
  - intros [-> H]. auto.
Qed.

(** Reading a selected table under one of the requested labels. *)
Lemma select_columns_index (c : string) (L : list string) (j0 : nat)
      (names : list string) :
  position c L = Some j0 ->
  In c names ->
  exists j',
    position c (flat_map (fun n => filter (String.eqb n) L) names) = Some j'
    /\ nth_error (flat_map (fun n => positions_from 0 n L) names) j'
       = Some j0.
Proof.
  intros Hc. induction names as [| n ns IH]; intros Hin; [destruct Hin |].
  cbn [flat_map].
  destruct (String.eqb_spec n c) as [-> | Hne].
  - destruct (positions_from_head 0 c L j0 Hc) as [rest Hrest].
    assert (exists more, filter (String.eqb c) L = c :: more) as [more Hm].
    { pose proof (length_positions_from 0 c L) as Hl. rewrite Hrest in Hl.
      destruct (filter (String.eqb c) L) as [| y more] eqn:E;
        [discriminate |].
      assert (In y (filter (String.eqb c) L)) as Hy
          by (rewrite E; left; reflexivity).
      apply In_filter_eqb in Hy as [-> _]. eauto. }
    exists O. rewrite Hm, Hrest. cbn. rewrite String.eqb_refl. auto.
  - destruct Hin as [-> | Hin]; [congruence |].
    destruct (IH Hin) as (j' & H1 & H2).
    exists (List.length (filter (String.eqb n) L) + j')%nat. split.
    + rewrite position_skip.
      * rewrite H1. reflexivity.
      * intros x Hx. apply In_filter_eqb in Hx as [-> _]. exact Hne.
    + rewrite nth_error_app2
        by (rewrite length_positions_from; lia).
      rewrite length_positions_from.
      replace (List.length (filter (String.eqb n) L) + j'
               - List.length (filter (String.eqb n) L))%nat
        with j' by lia.
      exact H2.
Qed.

Lemma get_series_select_columns (names : list string) (df : DataFrame)
      (c : string) :
  In c names -> has_column c df = true ->
  get_series c (select_columns names df) = get_series c df.
Proof.
  intros Hin Hc. destruct (has_column_position _ _ Hc) as [j0 Hj0].
  destruct (select_columns_index c (labels df) j0 names Hj0 Hin)
    as (j' & H1 & H2).
  rewrite <- labels_select_columns in H1.
  rewrite (get_series_position _ _ _ H1), (get_series_position _ _ _ Hj0).
  unfold select_columns. cbn [rows]. rewrite map_map.
  apply map_ext. intros r. unfold cell_at at 1. cbn [cells].
  rewrite nth_as_nth_error, nth_error_map, H2. reflexivity.
Qed.

Lemma len_select_columns (names : list string) (df : DataFrame) :
  len (select_columns names df) = len df.
Proof. unfold len, select_columns. cbn. apply length_map. Qed.

Lemma select_existentes (requeridas : list string) (df : DataFrame) :
  let out :=
    select_columns (filter (fun col => has_column col df) requeridas) df in
  labels out
  = flat_map (fun n => filter (String.eqb n) (labels df)) requeridas
  /\ (forall l, In l (labels out) <-> In l requeridas /\ In l (labels df))
  /\ len out = len df
  /\ (forall c, In c requeridas -> get_series c out = get_series c df)
  /\ (forall c, ~ In c requeridas -> has_column c out = false).
Proof.
  cbv zeta.
  assert (labels (select_columns
                    (filter (fun col => has_column col df) requeridas) df)
          = flat_map (fun n => filter (String.eqb n) (labels df)) requeridas)
    as Hl.
  { rewrite labels_select_columns. apply flat_map_filter_nil.
    intros x Hx. apply filter_eqb_absent. exact Hx. }
  assert (forall l,
             In l (flat_map (fun n => filter (String.eqb n) (labels df))
                            requeridas)
             <-> In l requeridas /\ In l (labels df)) as Hin.
  { intros l. rewrite in_flat_map. split.
    - intros (n & Hn & Hl'). apply In_filter_eqb in Hl' as [-> H]. auto.
    - intros [H1 H2]. exists l. split; [exact H1 |].
      apply In_filter_eqb. auto. }
  split; [exact Hl |]. split; [rewrite Hl; exact Hin |].
  split; [apply len_select_columns |]. split.
  - intros c Hc. destruct (has_column c df) eqn:E.
    + apply get_series_select_columns; [| exact E].
      apply filter_In. auto.
    + assert (position c (labels df) = None) as H1.
      { apply position_none_not_In. intros H.
        apply existsb_label_In in H. unfold has_column in E. congruence. }
      assert (position c
                (labels (select_columns
                           (filter (fun col => has_column col df)
                                   requeridas) df)) = None) as H2.
      { rewrite Hl. apply position_none_not_In. rewrite Hin. intros [_ H].
        apply existsb_label_In in H. unfold has_column in E. congruence. }
      unfold get_series, series. rewrite H1, H2. reflexivity.
  - intros c Hc.
    destruct (has_column c (select_columns
                              (filter (fun col => has_column col df)
                                      requeridas) df)) eqn:E;
      [| reflexivity].
    apply existsb_label_In in E. rewrite Hl in E. apply Hin in E. tauto.
Qed.

(** X22. The observations table keeps, of the twenty columns the
    dashboard asks for, those the input has, in the order of that list
    and whatever their order in the input; every other column is
    dropped, the number of rows is unchanged, and the cells under a
    requested label are those of the input. *)
Theorem seleccionar_columnas_observations_spec (df : DataFrame) :
  let out := seleccionar_columnas_observations df in
  labels out
  = flat_map (fun n => filter (String.eqb n) (labels df))
             columnas_observations
  /\ (forall l, In l (labels out) <->
                In l columnas_observations /\ In l (labels df))
  /\ len out = len df
  /\ (forall c, In c columnas_observations ->
                get_series c out = get_series c df)
  /\ (forall c, ~ In c columnas_observations -> has_column c out = false).
Proof. apply select_existentes. Qed.

Lemma unique_from_map {A B : Type} (f : A -> B) (e : B -> B -> bool)
      (seen l : list A) :
  map f (Stats.unique_from (fun a b => e (f a) (f b)) seen l)
  = Stats.unique_from e (map f seen) (map f l).
Proof.
  revert seen. induction l as [| x r IH]; intros seen; cbn;
    [reflexivity |].
  assert (existsb (fun b => e (f x) (f b)) seen
          = existsb (e (f x)) (map f seen)) as ->.
  { induction seen as [| y s IHs]; cbn; [reflexivity |].
    rewrite IHs. reflexivity. }
  destruct (existsb (e (f x)) (map f seen)); cbn; rewrite IH; reflexivity.
Qed.

Lemma unique_from_length {A : Type} (e : A -> A -> bool)
      (seen l : list A) :
  (List.length (Stats.unique_from e seen l) <= List.length l)%nat.
Proof.
  revert seen. induction l as [| x r IH]; intros seen; cbn; [lia |].
  destruct (existsb (e x) seen); cbn.
  - specialize (IH seen). lia.
  - specialize (IH (x :: seen)). lia.
Qed.

(** X23. The deployments table keeps the requested columns that exist,
    in the order of the request. The duplicate removal gives an empty
    selection back as it is, so the step raises exactly when the table
    has rows and some requested column but no deployment_id column. On a
    table with pairwise distinct labels and a deployment_id column the
    result has one row per deployment_id, the first one: its
    deployment_id column lists the distinct identifiers of the input in
    order of first appearance, None, NaN and NaT being three different
    identifiers; no identifier occurs twice and every identifier of the
    input is among them. *)
Theorem seleccionar_columnas_deployments_unique (df : DataFrame) :
  (seleccionar_columnas_deployments df = None <->
   has_column "deployment_id" df = false
   /\ rows df <> []
   /\ exists c, In c columnas_deployments /\ has_column c df = true)
  /\ (NoDup (labels df) ->
      has_column "deployment_id" df = true ->
      exists out,
        seleccionar_columnas_deployments df = Some out
        /\ labels out
           = flat_map (fun n => filter (String.eqb n) (labels df))
                      columnas_deployments
        /\ get_series "deployment_id" out
           = Stats.unique value_eqb (get_series "deployment_id" df)
        /\ NoDup (get_series "deployment_id" out)
        /\ (forall v, In v (get_series "deployment_id" out)
                      <-> In v (get_series "deployment_id" df))
        /\ (len out <= len df)%nat).
Proof.
  destruct (select_existentes columnas_deployments df)
    as (Hl & Hin & Hlen & Hget & _).
  cbv zeta in Hl, Hin, Hlen, Hget.
  unfold seleccionar_columnas_deployments, drop_duplicates.
  set (sel := select_columns
                (filter (fun col => has_column col df) columnas_deployments)
                df) in *.
  assert (position "deployment_id" (labels sel) = None
          <-> has_column "deployment_id" df = false) as Hpos.
  { rewrite position_none_not_In, Hin, <- not_true_iff_false.
    unfold has_column. rewrite existsb_label_In.
    split; [| tauto]. intros H Hd. apply H. split; [left; reflexivity |].
    exact Hd. }
  assert (empty sel = true <->
          rows df = [] \/ forall c, In c columnas_deployments ->
                                    has_column c df = false) as Hempty.
  { unfold empty. rewrite orb_true_iff, !Nat.eqb_eq, Hlen.
    unfold len. rewrite !length_zero_iff_nil.
    assert (columns sel = [] <-> labels sel = []) as ->.
    { unfold labels. destruct (columns sel); cbn; split;
        congruence || discriminate. }
    split; (intros [H | H]; [left; exact H | right]).
    - intros c Hc. destruct (has_column c df) eqn:E; [| reflexivity].
      assert (In c (labels sel)) as Hin'.
      { apply Hin. split; [exact Hc |]. apply existsb_label_In. exact E. }
      rewrite H in Hin'. destruct Hin'.
    - destruct (labels sel) as [| l ls] eqn:E; [reflexivity |].
      assert (In l (l :: ls)) as Hin' by (left; reflexivity).
      apply Hin in Hin' as [H1 H2]. apply existsb_label_In in H2.
      unfold has_column in H. rewrite (H l H1) in H2. discriminate. }
  split.
  - destruct (empty sel) eqn:Ee.
    + split; [discriminate |]. intros (_ & Hr & c & Hc & Hh). exfalso.
      destruct (proj1 Hempty eq_refl) as [H | H]; [congruence |].
      rewrite (H c Hc) in Hh. discriminate.
    + destruct (position "deployment_id" (labels sel)) as [j |] eqn:Ej.
      * split; [discriminate |]. intros (Hd & _). exfalso.
        apply Hpos in Hd. discriminate.
      * split; [| reflexivity]. intros _.
        split; [apply Hpos; reflexivity |].
        split.
        -- intros Hr. assert (false = true); [| discriminate].
           apply Hempty. left. exact Hr.
        -- destruct (existsb (fun c => has_column c df) columnas_deployments)
             eqn:Eb.
           ++ apply existsb_exists in Eb as (c & Hc & Hh). eauto.
           ++ exfalso. assert (false = true); [| discriminate].
              apply Hempty. right. intros c Hc.
              destruct (has_column c df) eqn:E; [| reflexivity].
              assert (existsb (fun c => has_column c df)
                              columnas_deployments = true); [| congruence].
              apply existsb_exists. eauto.
  - intros _ H.
    assert (In "deployment_id" (labels sel)) as Hd.
    { apply Hin. split; [left; reflexivity |].
      apply existsb_label_In. exact H. }
    apply position_of_In in Hd as [j Hj]. rewrite Hj.
    assert (get_series "deployment_id" sel
            = get_series "deployment_id" df) as Hg
        by (apply Hget; left; reflexivity).
    assert (get_series "deployment_id"
              {| columns := columns sel;
                 rows := Stats.unique
                           (fun r1 r2 => value_eqb (cell_at j r1)
                                                   (cell_at j r2))
                           (rows sel) |}
            = Stats.unique value_eqb (get_series "deployment_id" df)) as Hs.
    { rewrite <- Hg.
      rewrite (get_series_position _ sel _ Hj).
      rewrite (get_series_position _ _ j) by exact Hj.
      cbn [rows]. unfold Stats.unique.
      apply (unique_from_map (cell_at j) value_eqb []). }
    assert (forall out : DataFrame,
               labels out = labels sel ->
               get_series "deployment_id" out
               = Stats.unique value_eqb (get_series "deployment_id" df) ->
               (len out <= len df)%nat ->
               labels out
               = flat_map (fun n => filter (String.eqb n) (labels df))
                          columnas_deployments
               /\ get_series "deployment_id" out
                  = Stats.unique value_eqb (get_series "deployment_id" df)
               /\ NoDup (get_series "deployment_id" out)
               /\ (forall v, In v (get_series "deployment_id" out)
                             <-> In v (get_series "deployment_id" df))
               /\ (len out <= len df)%nat) as Hout.
    { intros out Hlo Hso Hle.
      split; [rewrite Hlo; exact Hl |]. split; [exact Hso |].
      rewrite Hso. split; [| split; [| exact Hle]].
      - apply (StatsFacts.unique_NoDup _ value_eqb_eq).
      - intros v. apply (StatsFacts.unique_In _ value_eqb_eq). }
    destruct (empty sel) eqn:Ee.
    + exists sel. split; [reflexivity |]. apply Hout.
      * reflexivity.
      * rewrite Hg.
        assert (rows df = []) as Hr.
        { destruct (proj1 Hempty eq_refl) as [Hr | Hc]; [exact Hr |].
          rewrite (Hc "deployment_id") in H by (left; reflexivity).
          discriminate. }
        destruct (has_column_position _ _ H) as [k Hk].
        rewrite (get_series_position _ _ _ Hk), Hr. reflexivity.
      * rewrite Hlen. apply Nat.le_refl.
    + eexists. split; [reflexivity |]. apply Hout.
      * reflexivity.
      * exact Hs.
      * unfold len at 1. cbn [rows]. rewrite <- Hlen. unfold len.
        apply unique_from_length.
Qed.

End SelectFacts.

(** ** Quality checks *)

Module ValidationFacts.
Import Frame FrameFacts Validation.

Lemma filter_nil_iff {A : Type} (p : A -> bool) (l : list A) :
  filter p l = [] <-> forall x, In x l -> p x = false.
Proof.
  induction l as [| x r IH]; cbn.
  - split; [intros _ ? [] | reflexivity].
  - destruct (p x) eqn:E.
    + split; [discriminate |]. intros H.
      specialize (H x (or_introl eq_refl)). congruence.
    + rewrite IH. split.
      * intros H y [<- | Hy]; auto.
      * intros H y Hy. apply H. right. exact Hy.
Qed.

(** X24. On a table with pairwise distinct labels, the null check
    passes exactly when every critical column that the table has is
    either free of missing cells or has a percentage of missing cells,
    computed in floating point as (nulls / rows) * 100, that does not
    exceed the threshold; critical columns that the table lacks are not
    looked at, so a table with none of them, or with no rows, passes. The
    percentage is not the exact one: 7 missing cells in 25 rows come out
    above 28. *)
Theorem validar_valores_nulos_iff
        (df : DataFrame) (columnas_criticas : list string)
        (umbral_pct : PrimFloat.float) :
  NoDup (labels df) ->
  (validar_valores_nulos df columnas_criticas umbral_pct = true <->
   forall columna,
     In columna columnas_criticas ->
     has_column columna df = true ->
     n_nulos columna df = 0%nat
     \/ PrimFloat.ltb umbral_pct
          (porcentaje (n_nulos columna df) (len df)) = false)
  /\ PrimFloat.ltb (float_of_nat 28) (porcentaje 7 25) = true.
Proof.
  intros _. split; [| reflexivity].
  unfold validar_valores_nulos.
  assert (forall columna,
             nulos_criticos df umbral_pct columna = false <->
             (has_column columna df = true ->
              n_nulos columna df = 0%nat
              \/ PrimFloat.ltb umbral_pct
                   (porcentaje (n_nulos columna df) (len df)) = false))
    as Hc.
  { intros columna. unfold nulos_criticos, supera.
    destruct (has_column columna df) eqn:Hh; cbn [andb];
      [| split; [discriminate | reflexivity]].
    destruct (n_nulos columna df) as [| k] eqn:Hn; cbn [Nat.ltb Nat.leb andb].
    - split; auto.
    - split.
      + intros H _. right. exact H.
      + intros H. destruct (H eq_refl) as [H' | H']; [discriminate | exact H']. }
  destruct (filter (nulos_criticos df umbral_pct) columnas_criticas)
    as [| c cs] eqn:E.
  - split; [| reflexivity]. intros _ columna Hin.
    apply Hc. revert columna Hin. apply filter_nil_iff. exact E.
  - split; [discriminate |]. intros H. exfalso.
    assert (In c (filter (nulos_criticos df umbral_pct) columnas_criticas))
      as Hin by (rewrite E; left; reflexivity).
    apply filter_In in Hin as [Hin Hcrit].
    assert (nulos_criticos df umbral_pct c = false) as Hf
        by (apply Hc; apply H; exact Hin).
    congruence.
Qed.

Section Pairs.
Context {A : Type} (e : A -> A -> bool).
Hypothesis e_refl : forall a, e a a = true.
Hypothesis e_sym : forall a b, e a b = e b a.

Lemma at_most_once_pairs (l : list A) :
  (forall k, In k l -> (List.length (filter (e k) l) <= 1)%nat) <->
  ForallOrdPairs (fun a b => e a b = false) l.
Proof.
  induction l as [| a r IH].
  - split; [constructor | intros _ k []].
  - split.
    + intros H. constructor.
      * pose proof (H a (or_introl eq_refl)) as Ha. cbn in Ha.
        rewrite e_refl in Ha. cbn in Ha.
        assert (filter (e a) r = []) as Hnil
            by (destruct (filter (e a) r); [reflexivity | cbn in Ha; lia]).
        apply Forall_forall. apply filter_nil_iff. exact Hnil.
      * apply IH. intros k Hk. specialize (H k (or_intror Hk)).
        cbn in H. destruct (e k a); cbn in H; lia.
    + intros H. inversion H as [| ? ? Ha Hr]; subst.
      rewrite Forall_forall in Ha.
      intros k [<- | Hk]; cbn.
      * rewrite e_refl. cbn.
        assert (filter (e a) r = []) as ->
            by (apply filter_nil_iff; exact Ha).
        cbn. lia.
      * rewrite e_sym, (Ha k Hk). apply IH; assumption.
Qed.

End Pairs.

Lemma key_eqb_refl (a : value) : key_eqb a a = true.
Proof.
  unfold key_eqb, value_eqb.
  destruct (value_eq_dec a a); [apply orb_true_r | congruence].
Qed.

Lemma key_eqb_sym (a b : value) : key_eqb a b = key_eqb b a.
Proof.
  unfold key_eqb, value_eqb. rewrite (andb_comm (isna a)).
  destruct (value_eq_dec a b), (value_eq_dec b a); congruence.
Qed.

Lemma cell_eqb_refl (subset : list string) (a : value) :
  cell_eqb subset a a = true.
Proof.
  destruct subset as [| c [| c' cs]]; cbn;
    try apply key_eqb_refl. apply value_eqb_eq. reflexivity.
Qed.

Lemma cell_eqb_sym (subset : list string) (a b : value) :
  cell_eqb subset a b = cell_eqb subset b a.
Proof.
  destruct subset as [| c [| c' cs]]; cbn; try apply key_eqb_sym.
  unfold value_eqb.
  destruct (value_eq_dec a b), (value_eq_dec b a); congruence.
Qed.

Lemma clave_eqb_refl (subset : list string) (k : list value) :
  clave_eqb (cell_eqb subset) k k = true.
Proof.
  induction k as [| a r IH]; cbn; [reflexivity |].
  rewrite cell_eqb_refl, IH. reflexivity.
Qed.

Lemma clave_eqb_sym (subset : list string) (k1 k2 : list value) :
  clave_eqb (cell_eqb subset) k1 k2 = clave_eqb (cell_eqb subset) k2 k1.
Proof.
  revert k2. induction k1 as [| a r IH]; intros [| b s]; cbn;
    try reflexivity.
  rewrite cell_eqb_sym, IH. reflexivity.
Qed.

Lemma length_filter_map {A : Type} (f : A -> bool) (l : list A) :
  List.length (filter (fun b => b) (map f l)) = List.length (filter f l).
Proof.
  induction l as [| x r IH]; cbn; [reflexivity |].
  destruct (f x); cbn; rewrite IH; reflexivity.
Qed.

Lemma n_duplicados_zero (subset : list string) (df : DataFrame) :
  List.length (filter (fun b => b) (duplicated_all subset df)) = 0%nat <->
  ForallOrdPairs (fun k1 k2 => clave_eqb (cell_eqb subset) k1 k2 = false)
                 (map (clave subset df) (rows df)).
Proof.
  unfold duplicated_all. rewrite length_filter_map.
  rewrite <- (at_most_once_pairs (clave_eqb (cell_eqb subset))
                (clave_eqb_refl subset) (clave_eqb_sym subset)).
  rewrite length_zero_iff_nil, filter_nil_iff.
  split; intros H k Hk; specialize (H k Hk).
  - apply Nat.ltb_ge in H. exact H.
  - apply Nat.ltb_ge. exact H.
Qed.

(** Pairwise different cells, compared as they are, are cells without
    repetition. *)
Lemma pairs_value_eqb_NoDup (l : list value) :
  ForallOrdPairs (fun a b => value_eqb a b = false) l <-> NoDup l.
Proof.
  induction l as [| a r IH].
  - split; constructor.
  - split; intros H; inversion H as [| ? ? Ha Hr]; subst; constructor.
    + intros Hin. rewrite Forall_forall in Ha. specialize (Ha a Hin).
      assert (value_eqb a a = true) by (apply value_eqb_eq; reflexivity).
      congruence.
    + apply IH. assumption.
    + apply Forall_forall. intros b Hb.
      destruct (value_eqb a b) eqn:E; [| reflexivity].
      apply value_eqb_eq in E. subst. contradiction.
    + apply IH. assumption.
Qed.

Lemma pairs_map {A B : Type} (R : B -> B -> Prop) (f : A -> B)
      (l : list A) :
  ForallOrdPairs R (map f l) <-> ForallOrdPairs (fun a b => R (f a) (f b)) l.
Proof.
  induction l as [| a r IH]; cbn.
  - split; constructor.
  - split; intros H; inversion H as [| ? ? Ha Hr]; subst; constructor.
    + rewrite Forall_map in Ha. exact Ha.
    + apply IH. assumption.
    + rewrite Forall_map. exact Ha.
    + apply IH. assumption.
Qed.

Lemma pairs_ext {A : Type} (R S : A -> A -> Prop) (l : list A) :
  (forall a b, R a b <-> S a b) ->
  ForallOrdPairs R l <-> ForallOrdPairs S l.
Proof.
  intros H. induction l as [| a r IH].
  - split; constructor.
  - split; intros H'; inversion H' as [| ? ? Ha Hr]; subst; constructor.
    + eapply Forall_impl; [| exact Ha]. intros b. apply H.
    + apply IH. assumption.
    + eapply Forall_impl; [| exact Ha]. intros b. apply H.
    + apply IH. assumption.
Qed.

(** Under a single key column the keys are pairwise different exactly
    when the column has no repeated cell. *)
Lemma claves_una_columna (df : DataFrame) (c : string) :
  has_column c df = true ->
  ForallOrdPairs (fun k1 k2 => clave_eqb (cell_eqb [c]) k1 k2 = false)
                 (map (clave [c] df) (rows df))
  <-> NoDup (get_series c df).
Proof.
  intros Hc. destruct (has_column_position _ _ Hc) as [j Hj].
  rewrite (get_series_position _ _ _ Hj).
  rewrite <- pairs_value_eqb_NoDup, !pairs_map.
  apply pairs_ext. intros a b. unfold clave. cbn [flat_map].
  rewrite Hj. cbn. rewrite andb_true_r. reflexivity.
Qed.

(** X25. On a table with pairwise distinct labels, in strict mode the
    duplicate check passes exactly when none of the key columns exists
    or no two rows carry the same key, the key of a row being its cells
    under the key columns that exist. Under a single key column two cells
    are the same key when they are the same cell, so that None, NaN and
    NaT are three different keys and the check passes exactly when the
    column has no repeated cell; under several key columns the missing
    cells of a column count as equal to one another. *)
Theorem validar_duplicados_estricto
        (df : DataFrame) (columnas_clave : list string)
        (umbral_pct : PrimFloat.float) :
  NoDup (labels df) ->
  let columnas_existentes :=
    filter (fun col => has_column col df) columnas_clave in
  (validar_duplicados df columnas_clave umbral_pct true = true <->
   columnas_existentes = []
   \/ ForallOrdPairs
        (fun k1 k2 => clave_eqb (cell_eqb columnas_existentes) k1 k2 = false)
        (map (clave columnas_existentes df) (rows df)))
  /\ (forall c, columnas_existentes = [c] ->
        (validar_duplicados df columnas_clave umbral_pct true = true <->
         NoDup (get_series c df)))
  /\ (forall a b, cell_eqb ["deployment_id"] a b = true <-> a = b)
  /\ (forall a b, cell_eqb ["deployment_id"; "photo_datetime"] a b = true
                  <-> (isna a = true /\ isna b = true) \/ a = b).
Proof.
  intros _. cbv zeta.
  assert (validar_duplicados df columnas_clave umbral_pct true = true <->
          filter (fun col => has_column col df) columnas_clave = []
          \/ ForallOrdPairs
               (fun k1 k2 =>
                  clave_eqb
                    (cell_eqb (filter (fun col => has_column col df)
                                      columnas_clave)) k1 k2 = false)
               (map (clave (filter (fun col => has_column col df)
                                   columnas_clave) df) (rows df))) as Hmain.
  { unfold validar_duplicados.
    destruct (filter (fun col => has_column col df) columnas_clave)
      as [| c cs] eqn:E; [split; auto |].
    rewrite <- n_duplicados_zero.
    destruct (List.length (filter (fun b => b)
                                  (duplicated_all (c :: cs) df)))
      as [| n]; cbn [Nat.ltb Nat.leb].
    - split; auto.
    - split; [discriminate | intros [H | H]; discriminate]. }
  split; [exact Hmain |]. split; [| split].
  - intros c Hc. rewrite Hmain, Hc.
    assert (has_column c df = true) as Hh.
    { assert (In c (filter (fun col => has_column col df) columnas_clave))
        as Hin by (rewrite Hc; left; reflexivity).
      apply filter_In in Hin. tauto. }
    rewrite (claves_una_columna df c Hh).
    split; [intros [H | H]; [discriminate | exact H] | auto].
  - intros a b. cbn. apply value_eqb_eq.
  - intros a b. cbn. unfold key_eqb.
    rewrite orb_true_iff, andb_true_iff, value_eqb_eq. reflexivity.
Qed.

(** X26. On a table with pairwise distinct labels, in tolerant mode the
    duplicate check passes exactly when none of the key columns exists,
    or no row shares its key with another row, or the percentage of the
    rows that do, computed in floating point as (duplicated / rows) *
    100, does not exceed the threshold. Keys are compared as in strict
    mode. *)
Theorem validar_duplicados_tolerante
        (df : DataFrame) (columnas_clave : list string)
        (umbral_pct : PrimFloat.float) :
  NoDup (labels df) ->
  let columnas_existentes :=
    filter (fun col => has_column col df) columnas_clave in
  let n_duplicados :=
    List.length (filter (fun b => b)
                        (duplicated_all columnas_existentes df)) in
  (validar_duplicados df columnas_clave umbral_pct false = true <->
   columnas_existentes = []
   \/ n_duplicados = 0%nat
   \/ PrimFloat.ltb umbral_pct (porcentaje n_duplicados (len df)) = false)
  /\ (n_duplicados = 0%nat <->
      ForallOrdPairs
        (fun k1 k2 => clave_eqb (cell_eqb columnas_existentes) k1 k2 = false)
        (map (clave columnas_existentes df) (rows df))).
Proof.
  intros _. cbv zeta. split; [| apply n_duplicados_zero].
  unfold validar_duplicados, supera.
  destruct (filter (fun col => has_column col df) columnas_clave)
    as [| c cs] eqn:E; [split; auto |].
  destruct (List.length (filter (fun b => b) (duplicated_all (c :: cs) df)))
    as [| n] eqn:En; cbn [Nat.ltb Nat.leb].
  - split; auto.
  - destruct (PrimFloat.ltb umbral_pct _) eqn:Es.
    + split; [discriminate |].
      intros [H | [H | H]]; discriminate.
    + split; [| reflexivity]. intros _. right. right. reflexivity.
Qed.

Lemma fuera_de_rango_none (val_min val_max : Z) (v : value) :
  fuera_de_rango val_min val_max v = None <->
  isna v = false /\ forall x, v <> VInt x.
Proof.
  destruct v as [| | | s | x | t | d]; cbn.
  1-3: split; [discriminate | intros [H _]; discriminate].
  - split; [intros _; split; [reflexivity | discriminate] | reflexivity].
  - split; [discriminate | intros [_ H]; destruct (H x eq_refl)].
  - split; [intros _; split; [reflexivity | discriminate] | reflexivity].
  - split; [intros _; split; [reflexivity | discriminate] | reflexivity].
Qed.

Lemma fuera_de_rango_false (val_min val_max : Z) (v : value) :
  fuera_de_rango val_min val_max v = Some false <->
  isna v = true \/ exists x, v = VInt x /\ val_min <= x <= val_max.
Proof.
  destruct v as [| | | s | x | t | d]; cbn.
  1-3: split; [intros _; left; reflexivity | reflexivity].
  - split; [discriminate | intros [H | (x & H & _)]; discriminate].
  - split.
    + intros [= H]. right. exists x. apply orb_false_iff in H as [H1 H2].
      apply Z.ltb_ge in H1, H2. split; [reflexivity | lia].
    + intros [H | (x0 & [= <-] & H1 & H2)]; [discriminate |].
      f_equal. apply orb_false_iff. split; apply Z.ltb_ge; lia.
  - split; [discriminate | intros [H | (x & H & _)]; discriminate].
  - split; [discriminate | intros [H | (x & H & _)]; discriminate].
Qed.

Lemma all_some_map_total {A B : Type} (f : A -> option B) (d : B)
      (l : list A) (r : list B) :
  all_some (map f l) = Some r ->
  r = map (fun x => match f x with Some b => b | None => d end) l
  /\ forall x, In x l -> f x <> None.
Proof.
  revert r. induction l as [| x l IH]; cbn; intros r.
  - intros [= <-]. split; [reflexivity | intros _ []].
  - destruct (f x) as [b |] eqn:E; [| discriminate].
    destruct (all_some (map f l)) as [r' |]; cbn; [| discriminate].
    intros [= <-]. destruct (IH r' eq_refl) as [-> H]. split.
    + reflexivity.
    + intros y [<- | Hy]; [congruence | apply H; exact Hy].
Qed.

Lemma take_where_pos {A : Type} (p : A -> bool) (l : list A) :
  (0 <? List.length (take_where (map p l) l))%nat = existsb p l.
Proof.
  rewrite take_where_map_filter.
  induction l as [| x r IH]; cbn; [reflexivity |].
  destruct (p x); cbn; [reflexivity | exact IH].
Qed.

(** The rows a range mask selects: those with a cell out of range. *)
Lemma rango_mask (df : DataFrame) (columna : string) (val_min val_max : Z)
      (mask : list bool) :
  has_column columna df = true ->
  all_some (map (fuera_de_rango val_min val_max) (get_series columna df))
  = Some mask ->
  ((0 <? len (loc_rows mask df))%nat = false <->
   forall v, In v (get_series columna df) ->
             fuera_de_rango val_min val_max v = Some false).
Proof.
  intros Hc Hm. destruct (has_column_position _ _ Hc) as [j Hj].
  apply (all_some_map_total _ false) in Hm as [-> Hsome].
  rewrite (get_series_position _ _ _ Hj) in *.
  rewrite map_map. unfold len, loc_rows. cbn [rows].
  rewrite take_where_pos.
  rewrite <- not_true_iff_false, existsb_exists. split.
  - intros H v Hv. apply in_map_iff in Hv as (r & <- & Hr).
    destruct (fuera_de_rango val_min val_max (cell_at j r)) as [[|] |] eqn:E.
    + exfalso. apply H. exists r. rewrite E. auto.
    + reflexivity.
    + exfalso. apply (Hsome (cell_at j r)); [| exact E].
      apply in_map. exact Hr.
  - intros H (r & Hr & Hb).
    rewrite (H (cell_at j r)) in Hb by (apply in_map; exact Hr).
    discriminate.
Qed.

Lemma mascara_none (df : DataFrame) (columna : string)
      (val_min val_max : Z) :
  has_column columna df = true ->
  (mascara_fuera_de_rango df columna val_min val_max = None <->
   (exists d, dtype_of columna df = Some d /\ es_extension d = true)
   \/ exists v, In v (get_series columna df)
                /\ fuera_de_rango val_min val_max v = None).
Proof.
  intros Hc. unfold mascara_fuera_de_rango.
  destruct (dtype_of columna df) as [d |] eqn:Ed.
  - destruct (es_extension d) eqn:Ee.
    + split; [| reflexivity]. intros _. left. eauto.
    + rewrite all_some_none, in_map_iff. split.
      * intros (v & Hv & Hin). right. eauto.
      * intros [(d' & [= <-] & H) | (v & Hin & Hv)]; [congruence | eauto].
  - exfalso. destruct (has_column_position _ _ Hc) as [j Hj].
    unfold dtype_of in Ed. rewrite Hj in Ed.
    apply position_nth_error in Hj. unfold labels in Hj.
    rewrite nth_error_map in Hj.
    destruct (nth_error (columns df) j); discriminate.
Qed.

Lemma mascara_some (df : DataFrame) (columna : string)
      (val_min val_max : Z) (mask : list bool) :
  mascara_fuera_de_rango df columna val_min val_max = Some mask ->
  all_some (map (fuera_de_rango val_min val_max) (get_series columna df))
  = Some mask.
Proof.
  unfold mascara_fuera_de_rango.
  destruct (dtype_of columna df) as [d |]; [| discriminate].
  destruct (es_extension d); [discriminate | auto].
Qed.

Lemma revisar_rangos_none (df : DataFrame)
      (validaciones_rango : list (string * (Z * Z))) :
  forall errores,
    revisar_rangos df validaciones_rango errores = None <->
    exists columna val_min val_max,
      In (columna, (val_min, val_max)) validaciones_rango
      /\ has_column columna df = true
      /\ mascara_fuera_de_rango df columna val_min val_max = None.
Proof.
  induction validaciones_rango as [| [c [lo hi]] resto IH]; intros errores;
    cbn [revisar_rangos].
  - split; [discriminate | intros (? & ? & ? & [] & _)].
  - destruct (has_column c df) eqn:Hc; cbn [negb].
    + destruct (mascara_fuera_de_rango df c lo hi) as [mask |] eqn:Em.
      * assert (forall e, revisar_rangos df resto e = None <->
                  exists columna val_min val_max,
                    In (columna, (val_min, val_max)) ((c, (lo, hi)) :: resto)
                    /\ has_column columna df = true
                    /\ mascara_fuera_de_rango df columna val_min val_max
                       = None) as Hrest.
        { intros e. rewrite IH. split.
          - intros (c' & a & b & H1 & H2). exists c', a, b.
            split; [right; exact H1 | exact H2].
          - intros (c' & a & b & [[= <- <- <-] | H1] & H2 & H3).
            + congruence.
            + exists c', a, b. auto. }
        destruct (0 <? len (loc_rows mask df))%nat; apply Hrest.
      * split; [| reflexivity]. intros _.
        exists c, lo, hi. repeat split; auto. left. reflexivity.
    + rewrite IH. split.
      * intros (c' & a & b & H1 & H2). exists c', a, b.
        split; [right; exact H1 | exact H2].
      * intros (c' & a & b & [[= <- <- <-] | H1] & H2 & H3).
        -- congruence.
        -- exists c', a, b. auto.
Qed.

Lemma revisar_rangos_some (df : DataFrame)
      (validaciones_rango : list (string * (Z * Z))) :
  forall errores l,
    revisar_rangos df validaciones_rango errores = Some l ->
    exists extra,
      l = (errores ++ extra)%list
      /\ (extra = [] <->
          forall columna val_min val_max v,
            In (columna, (val_min, val_max)) validaciones_rango ->
            has_column columna df = true ->
            In v (get_series columna df) ->
            fuera_de_rango val_min val_max v = Some false).
Proof.
  induction validaciones_rango as [| [c [lo hi]] resto IH];
    intros errores l; cbn [revisar_rangos].
  - intros [= <-]. exists []. rewrite app_nil_r.
    split; [reflexivity |]. split; [intros _ ? ? ? ? [] | reflexivity].
  - destruct (has_column c df) eqn:Hc; cbn [negb].
    + destruct (mascara_fuera_de_rango df c lo hi) as [mask |] eqn:Em;
        [| discriminate].
      apply mascara_some in Em.
      pose proof (rango_mask df c lo hi mask Hc Em) as Hmask.
      destruct (0 <? len (loc_rows mask df))%nat eqn:Ef; intros H.
      * destruct (IH _ _ H) as (extra & -> & _).
        exists (c :: extra). rewrite <- app_assoc. split; [reflexivity |].
        split; [discriminate |]. intros Hall. exfalso.
        assert (true = false) as Habs; [| discriminate].
        apply Hmask. intros v Hv.
        apply (Hall c lo hi v); auto. left. reflexivity.
      * destruct (IH _ _ H) as (extra & -> & Hex).
        exists extra. split; [reflexivity |]. rewrite Hex. split.
        -- intros Hall c' a b v [[= <- <- <-] | Hin] Hh Hv.
           ++ apply Hmask; [reflexivity | exact Hv].
           ++ apply (Hall c' a b v); assumption.
        -- intros Hall c' a b v Hin. apply Hall. right. exact Hin.
    + intros H. destruct (IH _ _ H) as (extra & -> & Hex).
      exists extra. split; [reflexivity |]. rewrite Hex. split.
      * intros Hall c' a b v [[= <- <- <-] | Hin] Hh Hv.
        -- congruence.
        -- apply (Hall c' a b v); assumption.
      * intros Hall c' a b v Hin. apply Hall. right. exact Hin.
Qed.

(** X27. On a table with pairwise distinct labels, the range check
    raises exactly when a listed column that the table has is a
    datetime64 or a categorical column, whatever its cells are, or holds
    a cell that is neither a number nor missing. It passes exactly when
    every listed column that the table has is of neither of these two
    dtypes and each of its cells is missing or a number within the
    bounds, both bounds included: a missing cell is never out of range,
    and a listed column that the table lacks is not looked at. *)
Theorem validar_rangos_numericos_spec
        (df : DataFrame) (validaciones_rango : list (string * (Z * Z))) :
  NoDup (labels df) ->
  (validar_rangos_numericos df validaciones_rango = None <->
   exists columna val_min val_max,
     In (columna, (val_min, val_max)) validaciones_rango
     /\ has_column columna df = true
     /\ ((exists d, dtype_of columna df = Some d /\ es_extension d = true)
         \/ exists v, In v (get_series columna df)
                      /\ isna v = false /\ forall x, v <> VInt x))
  /\ (validar_rangos_numericos df validaciones_rango = Some true <->
      forall columna val_min val_max,
        In (columna, (val_min, val_max)) validaciones_rango ->
        has_column columna df = true ->
        (forall d, dtype_of columna df = Some d -> es_extension d = false)
        /\ forall v, In v (get_series columna df) ->
             isna v = true \/ exists x, v = VInt x /\ val_min <= x <= val_max).
Proof.
  intros _.
  assert (forall c a b,
             has_column c df = true ->
             (mascara_fuera_de_rango df c a b = None <->
              (exists d, dtype_of c df = Some d /\ es_extension d = true)
              \/ exists v, In v (get_series c df)
                           /\ isna v = false /\ forall x, v <> VInt x))
    as Hnone.
  { intros c a b Hc. rewrite (mascara_none df c a b Hc).
    split; (intros [H | (v & Hv & H)]; [left; exact H | right; exists v]);
      (split; [exact Hv |]); apply (fuera_de_rango_none a b); exact H. }
  unfold validar_rangos_numericos. split.
  - destruct (revisar_rangos df validaciones_rango []) as [l |] eqn:E.
    + split; [destruct l; discriminate |].
      intros (c & a & b & H1 & H2 & H3). exfalso.
      assert (revisar_rangos df validaciones_rango [] = None) as Hn;
        [| congruence].
      apply revisar_rangos_none. exists c, a, b.
      split; [exact H1 |]. split; [exact H2 |].
      apply (proj2 (Hnone c a b H2)). exact H3.
    + split; [| reflexivity]. intros _.
      apply revisar_rangos_none in E as (c & a & b & H1 & H2 & H3).
      exists c, a, b. split; [exact H1 |]. split; [exact H2 |].
      apply (proj1 (Hnone c a b H2)). exact H3.
  - destruct (revisar_rangos df validaciones_rango []) as [l |] eqn:E.
    + assert (forall c a b, In (c, (a, b)) validaciones_rango ->
                            has_column c df = true ->
                            mascara_fuera_de_rango df c a b <> None) as Hok.
      { intros c a b H1 H2 H3.
        assert (revisar_rangos df validaciones_rango [] = None) as Hn;
          [| congruence].
        apply revisar_rangos_none. exists c, a, b. auto. }
      destruct (revisar_rangos_some _ _ _ _ E) as (extra & -> & Hex).
      cbn [app] in *. split.
      * destruct extra; [| discriminate]. intros _ c a b H1 H2. split.
        -- intros d Hd. destruct (es_extension d) eqn:Ee; [| reflexivity].
           exfalso. apply (Hok c a b H1 H2).
           apply (proj2 (Hnone c a b H2)). left. eauto.
        -- intros v H3. apply (fuera_de_rango_false a b).
           apply (proj1 Hex eq_refl c a b v); assumption.
      * intros H.
        assert (extra = []) as ->; [| reflexivity].
        apply Hex. intros c a b v H1 H2 H3.
        apply fuera_de_rango_false. apply (H c a b H1 H2). exact H3.
    + split; [discriminate |]. intros H. exfalso.
      apply revisar_rangos_none in E as (c & a & b & H1 & H2 & H3).
      destruct (H c a b H1 H2) as [Hd Hv].
      apply (proj1 (Hnone c a b H2)) in H3.
      destruct H3 as [(d & Ed & Ee) | (v & Hin & Hna & Hni)].
      * rewrite (Hd d Ed) in Ee. discriminate.
      * destruct (Hv v Hin) as [Hx | (x & Hx & _)];
          [congruence | exact (Hni x Hx)].
Qed.

Lemma dropna_two (df : DataFrame) (a b : string) (ja jb : nat) :
  position a (labels df) = Some ja ->
  position b (labels df) = Some jb ->
  dropna [a; b] df
  = {| columns := columns df;
       rows := filter (fun r => notna (cell_at ja r) && notna (cell_at jb r))
                      (rows df) |}.
Proof.
  intros Ha Hb. unfold dropna, notna_all, loc_rows. cbn [fold_right].
  rewrite (get_series_position _ _ _ Ha), (get_series_position _ _ _ Hb).
  unfold len. rewrite !map_map.
  rewrite (zip_with_repeat_true (fun r => notna (cell_at jb r))).
  rewrite zip_with_map, take_where_map_filter. reflexivity.
Qed.

(** X28. On a table with pairwise distinct labels whose start and end
    columns are two different datetime64 columns, holding timestamps or
    missing cells, the date check returns without raising, and it passes
    exactly when no row that has both dates has its start after its
    end; rows that lack either date are not looked at. *)
Theorem validar_consistencia_fechas_spec
        (df : DataFrame) (col_inicio col_fin : string) (ji jf : nat) :
  NoDup (labels df) ->
  col_inicio <> col_fin ->
  position col_inicio (labels df) = Some ji ->
  position col_fin (labels df) = Some jf ->
  dtype_of col_inicio df = Some datetime64 ->
  dtype_of col_fin df = Some datetime64 ->
  (forall r, In r (rows df) ->
             (isna (cell_at ji r) = true \/ exists t, cell_at ji r = VTime t)
             /\ (isna (cell_at jf r) = true
                 \/ exists t, cell_at jf r = VTime t)) ->
  exists b,
    validar_consistencia_fechas df col_inicio col_fin = Some b
    /\ (b = true <->
        forall r s e,
          In r (rows df) ->
          cell_at ji r = VTime s -> cell_at jf r = VTime e ->
          ts_ltb e s = false).
Proof.
  intros _ Hne Hi Hf _ _ Ht. unfold validar_consistencia_fechas.
  rewrite (position_has_column _ _ _ Hi), (position_has_column _ _ _ Hf).
  cbn [negb orb]. rewrite (dropna_two df _ _ _ _ Hi Hf).
  apply String.eqb_neq in Hne. rewrite Hne.
  set (F := filter (fun r => notna (cell_at ji r) && notna (cell_at jf r))
                   (rows df)).
  set (valido := {| columns := columns df; rows := F |}).
  assert (forall r, In r F ->
                    In r (rows df)
                    /\ exists s e, cell_at ji r = VTime s
                                   /\ cell_at jf r = VTime e) as HF.
  { intros r Hr. apply filter_In in Hr as [Hr Hn]. split; [exact Hr |].
    apply andb_true_iff in Hn as [H1 H2]. unfold notna in H1, H2.
    destruct (Ht r Hr) as [[Ha | [s Hs]] [Hb | [e He]]];
      try (rewrite Ha in H1; discriminate);
      try (rewrite Hb in H2; discriminate).
    eauto. }
  assert (forall r s e, In r (rows df) -> cell_at ji r = VTime s ->
                        cell_at jf r = VTime e -> In r F) as HF'.
  { intros r s e Hr Hs He. apply filter_In. split; [exact Hr |].
    unfold notna. rewrite Hs, He. reflexivity. }
  unfold len at 1. unfold valido at 1. cbn [rows].
  destruct (List.length F =? 0)%nat eqn:El.
  - apply Nat.eqb_eq, length_zero_iff_nil in El.
    exists true. split; [reflexivity |]. split; [| reflexivity].
    intros _ r s e Hr Hs He. pose proof (HF' r s e Hr Hs He) as Hin.
    rewrite El in Hin. destruct Hin.
  - rewrite (get_series_position _ valido ji) by exact Hi.
    rewrite (get_series_position _ valido jf) by exact Hf.
    unfold valido at 1 2. cbn [rows]. rewrite zip_with_map.
    set (g := fun r => match cell_at ji r, cell_at jf r with
                       | VTime s, VTime e => ts_ltb e s
                       | _, _ => false
                       end).
    rewrite (all_some_map _ g).
    + unfold len, loc_rows, valido. cbn [rows]. rewrite take_where_pos.
      unfold g. destruct (existsb _ F) eqn:Ex.
      * exists false. split; [reflexivity |]. split; [discriminate |].
        intros H. exfalso.
        apply existsb_exists in Ex as (r & Hr & Hb).
        destruct (HF r Hr) as (Hin & s & e & Hs & He).
        rewrite Hs, He in Hb. rewrite (H r s e Hin Hs He) in Hb.
        discriminate.
      * exists true. split; [reflexivity |]. split; [| reflexivity].
        intros _ r s e Hr Hs He.
        pose proof (HF' r s e Hr Hs He) as Hin.
        rewrite <- not_true_iff_false in Ex.
        destruct (ts_ltb e s) eqn:Elt; [| reflexivity].
        exfalso. apply Ex. apply existsb_exists. exists r.
        rewrite Hs, He. auto.
    + intros r Hr. unfold g.
      destruct (HF r Hr) as (_ & s & e & -> & ->). reflexivity.
Qed.

(** Asked about one and the same column, the date check fails as soon as
    a row has the date. *)
Example validar_consistencia_fechas_misma_columna :
  validar_consistencia_fechas ejemplo_despliegues
    "sensor_start_date" "sensor_start_date" = Some false.
Proof. reflexivity. Qed.

(** X29. The foreign-key check passes exactly when the child table has
    no such column, or the parent table has no key column, or every
    value of the child column that is not missing occurs in the parent
    column; missing references are never orphans. *)
Theorem validar_referencias_cruzadas_iff
        (df_hijo df_padre : DataFrame) (col_fk col_pk : string) :
  validar_referencias_cruzadas df_hijo df_padre col_fk col_pk = true <->
  has_column col_fk df_hijo = false
  \/ has_column col_pk df_padre = false
  \/ forall v, In v (get_series col_fk df_hijo) -> isna v = false ->
               In v (get_series col_pk df_padre).
Proof.
  unfold validar_referencias_cruzadas.
  destruct (has_column col_fk df_hijo); cbn [negb]; [| split; auto].
  destruct (has_column col_pk df_padre); cbn [negb]; [| split; auto].
  set (fk := get_series col_fk df_hijo).
  set (pk := get_series col_pk df_padre).
  assert (forall v, isin (valores pk) v = true <->
                    In v pk /\ isna v = false) as Hpk.
  { intros v. unfold isin, valores. rewrite existsb_exists. split.
    - intros (w & Hw & He). apply value_eqb_eq in He. subst w.
      rewrite (StatsFacts.unique_In _ value_eqb_eq) in Hw.
      apply filter_In in Hw as [H1 H2]. unfold notna in H2.
      apply negb_true_iff in H2. auto.
    - intros [H1 H2]. exists v. split; [| apply value_eqb_eq; reflexivity].
      rewrite (StatsFacts.unique_In _ value_eqb_eq).
      apply filter_In. split; [exact H1 |]. unfold notna. rewrite H2.
      reflexivity. }
  destruct (filter (fun v => negb (isin (valores pk) v)) (valores fk))
    as [| o os] eqn:E.
  - split; [| reflexivity]. intros _. right. right. intros v Hv Hna.
    assert (In v (valores fk)) as Hin.
    { unfold valores.
      rewrite (StatsFacts.unique_In _ value_eqb_eq).
      apply filter_In. split; [exact Hv |]. unfold notna. rewrite Hna.
      reflexivity. }
    pose proof (proj1 (filter_nil_iff _ _) E v Hin) as Hf.
    apply negb_false_iff in Hf. apply Hpk in Hf. tauto.
  - split; [discriminate |]. intros [H | [H | H]]; try discriminate.
    exfalso.
    assert (In o (filter (fun v => negb (isin (valores pk) v)) (valores fk)))
      as Hin by (rewrite E; left; reflexivity).
    apply filter_In in Hin as [Hin Hno]. unfold valores in Hin.
    rewrite (StatsFacts.unique_In _ value_eqb_eq) in Hin.
    apply filter_In in Hin as [H1 H2]. unfold notna in H2.
    apply negb_true_iff in H2.
    apply negb_true_iff in Hno.
    assert (isin (valores pk) o = true) as Hyes
        by (apply Hpk; split; [apply H; assumption | exact H2]).
    congruence.
Qed.

End ValidationFacts.

Lemma validar_valores_nulos_iff_witness :
  NoDup (Frame.labels ejemplo_nulos)
  /\ Validation.validar_valores_nulos ejemplo_nulos ["latitude"]
       (Validation.float_of_nat 28) = false
  /\ PrimFloat.ltb (Validation.float_of_nat 28) (Validation.porcentaje 7 25)
     = true.
Proof.
  assert (NoDup (Frame.labels ejemplo_nulos)) as Hnd.
  { apply (FrameFacts.duplicated_from_NoDup []). reflexivity. }
  split; [exact Hnd |].
  destruct (ValidationFacts.validar_valores_nulos_iff
              ejemplo_nulos ["latitude"] (Validation.float_of_nat 28) Hnd)
    as [_ H].
  split; [vm_compute; reflexivity | exact H].
Defined.

Lemma validar_duplicados_estricto_witness :
  NoDup (Frame.labels ejemplo_claves)
  /\ (Validation.validar_duplicados ejemplo_claves ["deployment_id"]
        (Validation.float_of_nat 5) true = true <->
      NoDup (Frame.get_series "deployment_id" ejemplo_claves))
  /\ Validation.validar_duplicados ejemplo_claves ["deployment_id"]
       (Validation.float_of_nat 5) true = true.
Proof.
  assert (NoDup (Frame.labels ejemplo_claves)) as Hnd.
  { apply (FrameFacts.duplicated_from_NoDup []). reflexivity. }
  split; [exact Hnd |].
  destruct (ValidationFacts.validar_duplicados_estricto
              ejemplo_claves ["deployment_id"] (Validation.float_of_nat 5)
              Hnd) as (_ & H & _).
  split; [apply H; reflexivity | vm_compute; reflexivity].
Defined.

Lemma validar_duplicados_tolerante_witness :
  NoDup (Frame.labels ejemplo_claves)
  /\ Validation.validar_duplicados ejemplo_claves
       ["deployment_id"; "placename"] (Validation.float_of_nat 5) false
     = false.
Proof.
  assert (NoDup (Frame.labels ejemplo_claves)) as Hnd.
  { apply (FrameFacts.duplicated_from_NoDup []). reflexivity. }
  split; [exact Hnd |].
  destruct (ValidationFacts.validar_duplicados_tolerante
              ejemplo_claves ["deployment_id"; "placename"]
              (Validation.float_of_nat 5) Hnd) as [H _].
  destruct (Validation.validar_duplicados ejemplo_claves
              ["deployment_id"; "placename"] (Validation.float_of_nat 5)
              false) eqn:E; [| reflexivity].
  exfalso. destruct (proj1 H eq_refl) as [H1 | [H1 | H1]];
    vm_compute in H1; discriminate.
Defined.

Lemma validar_rangos_numericos_spec_witness :
  NoDup (Frame.labels ejemplo_despliegues)
  /\ Validation.validar_rangos_numericos ejemplo_despliegues
       [("sensor_start_date", (0, 10))] = None
  /\ Validation.validar_rangos_numericos ejemplo_enteros
       [("project_id", (2000, 3000))] = Some true.
Proof.
  assert (NoDup (Frame.labels ejemplo_despliegues)) as Hnd.
  { apply (FrameFacts.duplicated_from_NoDup []). reflexivity. }
  split; [exact Hnd |].
  destruct (ValidationFacts.validar_rangos_numericos_spec
              ejemplo_despliegues [("sensor_start_date", (0, 10))] Hnd)
    as [H _].
  split; [| vm_compute; reflexivity].
  apply H. exists "sensor_start_date", 0, 10.
  split; [left; reflexivity |]. split; [reflexivity |].
  left. exists datetime64. split; reflexivity.
Defined.

Lemma validar_consistencia_fechas_spec_witness :
  exists b,
    Validation.validar_consistencia_fechas ejemplo_despliegues
      "sensor_start_date" "sensor_end_date" = Some b
    /\ (b = true <->
        forall r s e,
          In r (rows ejemplo_despliegues) ->
          Frame.cell_at 1 r = VTime s -> Frame.cell_at 2 r = VTime e ->
          Validation.ts_ltb e s = false).
Proof.
  apply (ValidationFacts.validar_consistencia_fechas_spec
           ejemplo_despliegues "sensor_start_date" "sensor_end_date"
           1%nat 2%nat).
  - apply (FrameFacts.duplicated_from_NoDup []). reflexivity.
  - discriminate.
  - reflexivity.
  - reflexivity.
  - reflexivity.
  - reflexivity.
  - intros r [<- | [<- | [<- | []]]];
      split; (solve [left; reflexivity] || (right; eexists; reflexivity)).
Defined.
